(** * DataScienceModule: the two dashboard loaders

    A shallow embedding of the two [load_data] functions of the repository,

    - [Exercise 2/streamlit/app.py] (crime dashboard, module [Crime]) and
    - [Exercise 1/Streamlit App/app.py] (movie explorer, module [Movie]),

    together with the pandas operations they call.  A DataFrame is a row
    index and a finite map from column names to columns; a column is the list
    of the Python values of its cells.  Exceptions are an explicit error
    monad; [try ... except Exception: return None] turns it into [option]. *)

From Stdlib Require Import ZArith List String Ascii Bool Lia.
From Stdlib Require Import Floats Sorted.
From stdpp Require Import base option list gmap strings.

Local Open Scope string_scope.
Local Open Scope list_scope.
Local Open Scope Z_scope.

(** ** Python values held by the cells of a DataFrame *)

(** [NA] is a missing cell ([None], [NaT], an empty CSV field).  An integer
    cell holds the value of an [int64] or, for a column [read_csv] types as
    [uint64], of an unsigned 64-bit integer.  A float cell holds an IEEE
    binary64 number, so the float [nan] is a missing value too, as in pandas.
    [Time] is a [datetime64[ns]] instant: nanoseconds since the epoch. *)
Inductive cell : Type :=
  | NA
  | Int (z : Z)
  | Float (f : float)
  | Bool (b : bool)
  | Str (s : string)
  | Time (ns : Z).

(** The exceptions the two loaders and the pages can meet. *)
Inductive exn : Type :=
  | ParserError
  | JSONDecodeError
  | ValueError
  | KeyError
  | IndexError
  | TypeError
  | AttributeError
  | SyntaxError
  | IntCastingNaNError
  | StreamlitAPIException.

(** ** The exception monad *)

Inductive result (A : Type) : Type :=
  | Ok (a : A)
  | Raise (e : exn).
Arguments Ok {A} a.
Arguments Raise {A} e.

#[global] Instance result_ret : MRet result := fun A a => Ok a.
#[global] Instance result_bind : MBind result :=
  fun A B f m => match m with Ok a => f a | Raise e => Raise e end.

(** [traverse f l] runs [f] on the elements of [l] from left to right and stops
    at the first exception, as [Series.apply] and [astype] do. *)
Fixpoint traverse {A B : Type} (f : A -> result B) (l : list A) : result (list B) :=
  match l with
  | [] => Ok []
  | x :: l' =>
      match f x with
      | Raise e => Raise e
      | Ok y => match traverse f l' with
                | Raise e => Raise e
                | Ok ys => Ok (y :: ys)
                end
      end
  end.

(** ** Numbers *)

(** [pd.isna]. *)
Definition isna (c : cell) : bool :=
  match c with
  | NA => true
  | Float f => PrimFloat.is_nan f
  | _ => false
  end.

Definition notna (c : cell) : bool := negb (isna c).

(** The binary64 number nearest to an integer (numpy's int to float64). *)
Definition float_of_Z (z : Z) : float :=
  SF2Prim (binary_normalize prec emax z 0 false).

(** Python's [c == k] for an integer scalar [k]: numbers compare by value,
    booleans are the integers 0 and 1, nothing else equals a number. *)
Definition eq_int (c : cell) (k : Z) : bool :=
  match c with
  | Int z => z =? k
  | Bool b => Z.b2z b =? k
  | Float f => PrimFloat.eqb f (float_of_Z k)
  | _ => false
  end.

(** Python's [c == s] for a string scalar [s]. *)
Definition eq_str (c : cell) (s : string) : bool :=
  match c with
  | Str t => String.eqb t s
  | _ => false
  end.

(** Python's [==] on two cells (used for the distinct values of a column). *)
Definition cell_eqb (a b : cell) : bool :=
  match a with
  | NA => false
  | Str s => eq_str b s
  | Time x => match b with Time y => x =? y | _ => false end
  | Int z => eq_int b z
  | Bool x => eq_int b (Z.b2z x)
  | Float f =>
      match b with
      | Float g => PrimFloat.eqb f g
      | Int z => PrimFloat.eqb f (float_of_Z z)
      | Bool y => PrimFloat.eqb f (float_of_Z (Z.b2z y))
      | _ => false
      end
  end.

(** The integer part of a finite float (rounding toward zero), [None] for
    [nan] and the infinities. *)
Definition float_trunc (f : float) : option Z :=
  match Prim2SF f with
  | S754_zero _ => Some 0
  | S754_finite s m e =>
      let a := Z.shiftl (Z.pos m) e in
      Some (if s then - a else a)
  | S754_infinity _ | S754_nan => None
  end.

Definition in_int64 (z : Z) : bool :=
  (- 2 ^ 63 <=? z) && (z <? 2 ^ 63).

(** int64 arithmetic wraps around, and so does the cast of an unsigned
    64-bit integer to [int64]. *)
Definition wrap64 (z : Z) : Z := (z + 2 ^ 63) mod 2 ^ 64 - 2 ^ 63.

(** The value of a run of decimal digits. *)
Definition digit_of (c : ascii) : option Z :=
  let n := Z.of_N (N_of_ascii c) in
  if (48 <=? n) && (n <=? 57) then Some (n - 48) else None.

Fixpoint digits_value (acc : Z) (s : string) : option Z :=
  match s with
  | EmptyString => Some acc
  | String c s' =>
      match digit_of c with
      | Some d => digits_value (10 * acc + d) s'
      | None => None
      end
  end.

(** A text of one to fifteen decimal digits, and the number it writes. *)
Definition decimal_text (s : string) : option Z :=
  if (1 <=? String.length s)%nat && (String.length s <=? 15)%nat
  then digits_value 0 s else None.

(** ** Timestamps *)

Definition ns_per_hour : Z := 3600 * 1000000000.

(** [Timestamp.hour] of an instant. *)
Definition hour_of (ns : Z) : Z := (ns / ns_per_hour) mod 24.

(** Days from 1970-01-01 to the civil date [y-m-d] (proleptic Gregorian). *)
Definition days_from_civil (y m d : Z) : Z :=
  let y' := if m <=? 2 then y - 1 else y in
  let era := y' / 400 in
  let yoe := y' - era * 400 in
  let mp := if m <=? 2 then m + 9 else m - 3 in
  let doy := (153 * mp + 2) / 5 + d - 1 in
  let doe := yoe * 365 + yoe / 4 - yoe / 100 + doy in
  era * 146097 + doe - 719468.

(** The instant written [y-m-dTh:mi:s]. *)
Definition timestamp (y m d h mi s : Z) : Z :=
  (((days_from_civil y m d * 24 + h) * 60 + mi) * 60 + s) * 1000000000.

(** ** Columns and frames *)

(** A column: the values of its cells and, for the [category] dtype, the
    allowed labels.  pandas keeps the labels sorted; their order plays no
    part below and is the order of first appearance here. *)
Record Series : Type := mkSeries {
  categories : option (list cell);
  values : list cell
}.

(** A frame: the row labels and the columns, each with one cell per label. *)
Record DataFrame : Type := mkFrame {
  index : list nat;
  columns : gmap string Series
}.

(** [df[col]]. *)
Definition getitem (df : DataFrame) (col : string) : result Series :=
  match columns df !! col with
  | Some s => Ok s
  | None => Raise KeyError
  end.

(** [df[col] = s]. *)
Definition setitem (df : DataFrame) (col : string) (s : Series) : DataFrame :=
  {| index := index df; columns := <[col := s]> (columns df) |}.

(** [df[col] = v] for a scalar [v]: the value is repeated on every row. *)
Definition setitem_scalar (df : DataFrame) (col : string) (v : cell) : DataFrame :=
  setitem df col (mkSeries None (replicate (length (index df)) v)).

(** [col in df.columns]. *)
Definition has_column (df : DataFrame) (col : string) : bool :=
  bool_decide (is_Some (columns df !! col)).

(** Keep the entries of [l] whose position is marked [true] in the mask. *)
Fixpoint mask_filter {A : Type} (mask : list bool) (l : list A) : list A :=
  match mask, l with
  | b :: mask', x :: l' =>
      if b then x :: mask_filter mask' l' else mask_filter mask' l'
  | _, _ => []
  end.

(** [df[mask]]: boolean indexing keeps the labels and, in every column, the
    cells of the rows marked [true]. *)
Definition filter_rows (mask : list bool) (df : DataFrame) : DataFrame :=
  {| index := mask_filter mask (index df);
     columns := (fun s => mkSeries (categories s) (mask_filter mask (values s)))
                  <$> columns df |}.

(** The entry of the row labelled [i] in a list that runs along the labels. *)
Fixpoint row_at {A : Type} (idx : list nat) (l : list A) (i : nat) : option A :=
  match idx, l with
  | k :: idx', x :: l' => if Nat.eqb k i then Some x else row_at idx' l' i
  | _, _ => None
  end.

(** [df.at[i, col]]. *)
Definition cell_at (df : DataFrame) (col : string) (i : nat) : option cell :=
  match columns df !! col with
  | Some s => row_at (index df) (values s) i
  | None => None
  end.

(** * The crime dashboard: [Exercise 2/streamlit/app.py] *)

Module Crime.

(** What [pd.to_numeric] reads in a text field. *)
Inductive number : Type :=
  | Integer (z : Z)
  | Real (f : float).

(** The uploaded file, as the tokenizer, the type inference and the date
    conversion of [pd.read_csv] see it: either content they reject, or
    [nrows] data rows and, for every header name, the cells of that column
    as pandas types them: integers, floats with [nan] for an empty field,
    booleans, or text with [NA] for an empty field (a column with a field
    that is not a number is text throughout, so that its fields 0 and -1 are
    the texts 0 and -1); a date column holds [Time] cells when all of its
    fields read as dates, and keeps their text otherwise. *)
Inductive csv_file : Type :=
  | Malformed (e : exn)
  | Table (nrows : nat) (cols : gmap string (list cell)).

(** Every column of the table has one cell per data row. *)
Definition wf_table (nrows : nat) (cols : gmap string (list cell)) : Prop :=
  map_Forall (fun _ vs => length vs = nrows) cols.

(** [pd.read_csv(file, parse_dates=...)]: a name of [parse_dates] that is not
    a column is a [ValueError]; rows are labelled 0, 1, 2, ... *)
Definition read_csv (file : csv_file) (parse_dates : list string) : result DataFrame :=
  match file with
  | Malformed e => Raise e
  | Table nrows cols =>
      if forallb (fun c => bool_decide (is_Some (cols !! c))) parse_dates
      then Ok {| index := seq 0 nrows; columns := mkSeries None <$> cols |}
      else Raise ValueError
  end.

(** The distinct values of a list, by Python's [==]. *)
Fixpoint distinct (l : list cell) : list cell :=
  match l with
  | [] => []
  | c :: l' => c :: List.filter (fun d => negb (cell_eqb c d)) (distinct l')
  end.

(** [s.astype("category")]: the labels are the distinct values that are not
    missing. *)
Definition astype_category (s : Series) : Series :=
  match categories s with
  | Some _ => s
  | None => mkSeries (Some (distinct (List.filter notna (values s)))) (values s)
  end.

(** [s.cat.add_categories(new)]: [.cat] needs the category dtype, and pandas
    refuses a label that is already one of the categories ("new categories
    must not include old categories"). *)
Definition add_categories (new : cell) (s : Series) : result Series :=
  match categories s with
  | None => Raise AttributeError
  | Some cats =>
      if existsb (cell_eqb new) cats then Raise ValueError
      else Ok (mkSeries (Some (cats ++ [new])) (values s))
  end.

Definition fill (v c : cell) : cell := if isna c then v else c.

(** [s.fillna(v)]: on a categorical column the fill value has to be one of
    the categories. *)
Definition fillna (v : cell) (s : Series) : result Series :=
  match categories s with
  | Some cats =>
      if existsb (cell_eqb v) cats
      then Ok (mkSeries (Some cats) (map (fill v) (values s)))
      else Raise TypeError
  | None => Ok (mkSeries None (map (fill v) (values s)))
  end.

(** [s == "..."], element by element. *)
Definition eq_scalar (s : Series) (v : string) : Series :=
  mkSeries None (map (fun c => Bool (eq_str c v)) (values s)).

(** [s != k] for an integer [k], element by element. *)
Definition ne_scalar (s : Series) (k : Z) : list bool :=
  map (fun c => negb (eq_int c k)) (values s).

(** [s.dt.hour] on a column as [read_csv] returned it: [.dt] needs a
    datetime column, and the date column of a file without data rows is left
    with the object dtype; the hour of [NaT] is [nan]. *)
Definition is_datetime (c : cell) : bool :=
  match c with Time _ | NA => true | _ => false end.

Definition hour_cell (c : cell) : cell :=
  match c with Time ns => Int (hour_of ns) | _ => Float nan end.

Definition dt_hour (s : Series) : result Series :=
  match values s with
  | [] => Raise AttributeError
  | _ :: _ =>
      if forallb is_datetime (values s)
      then Ok (mkSeries None (map hour_cell (values s)))
      else Raise AttributeError
  end.

Definition categorical_cols : list string :=
  ["DISTRICT"; "OFFENSE_CODE_GROUP"; "UCR_PART"; "DAY_OF_WEEK"; "SHOOTING"].

Definition prompt : string := "⚠️ Please upload a CSV file to begin analysis.".

(** What the page shows after the loading step. *)
Inductive page : Type :=
  | Stopped (info : string)
  | Dashboard (df : DataFrame).

(** A row the loader drops: latitude or longitude missing, or a latitude
    that compares equal to the number 0 or -1.  The comparison is Python's
    [!=] on the cell as [read_csv] typed it: in a Lat column read as text
    (some field of it is not a number) no cell equals a number, not even the
    text 0. *)
Definition unlocated (lat long : cell) : bool :=
  isna lat || isna long || eq_int lat 0 || eq_int lat (-1).

(** What line 66 makes of one normalized flag. *)
Definition indicator (c : cell) : cell := Int (Z.b2z (eq_str c "Y")).

Section Loader.

(** Two behaviours of the libraries are left open: the number
    [pd.to_numeric] stores for a text field that is not a run of one to
    fifteen digits (none when the text is not a number), and the integer
    numpy produces when a finite float outside the int64 range is cast (it
    depends on the platform). *)
Variable parse_number : string -> option number.
Variable cast_overflow : float -> Z.

(** [pd.to_numeric(s, errors="coerce")]: a run of digits is read as the
    number it writes, and text that is not a number becomes missing. *)
Definition to_numeric_cell (c : cell) : cell :=
  match c with
  | Str s =>
      match decimal_text s with
      | Some z => Int z
      | None =>
          match parse_number s with
          | Some (Integer z) => Int z
          | Some (Real f) => Float f
          | None => Float nan
          end
      end
  | Time ns => Int ns
  | _ => c
  end.

Definition to_numeric (s : Series) : Series :=
  mkSeries None (map to_numeric_cell (values s)).

(** [s.astype(int)]: an integer is cast to [int64], which leaves an [int64]
    as it is and wraps an unsigned 64-bit integer from 2^63 on; floats lose
    their fraction; a missing or infinite value cannot be cast.  (The loader
    never casts text: [to_numeric] or a comparison runs first.) *)
Definition astype_int_cell (c : cell) : result cell :=
  match c with
  | Int z => Ok (Int (wrap64 z))
  | Bool b => Ok (Int (Z.b2z b))
  | Float f =>
      match float_trunc f with
      | Some z => Ok (Int (if in_int64 z then z else cast_overflow f))
      | None => Raise IntCastingNaNError
      end
  | Time ns => Ok (Int ns)
  | NA => Raise IntCastingNaNError
  | Str _ => Raise ValueError
  end.

Definition astype_int (s : Series) : result Series :=
  vs ← traverse astype_int_cell (values s); Ok (mkSeries None vs).

(** What line 70 makes of one HOUR field. *)
Definition coerced_hour (c : cell) : result cell :=
  astype_int_cell (fill (Int 0) (to_numeric_cell c)).

(** A field [pd.to_numeric] reads no number in: missing, or text that is
    not a number. *)
Definition unparseable (c : cell) : bool :=
  match c with
  | Str s =>
      match decimal_text s, parse_number s with
      | None, None => true
      | _, _ => false
      end
  | _ => isna c
  end.

(** Lines 55-57: the [for col in categorical_cols] loop and its body. *)
Definition coerce_column (df : DataFrame) (col : string) : DataFrame :=
  match columns df !! col with
  | Some s => setitem df col (astype_category s)
  | None => df
  end.

Definition coerce_categories (df : DataFrame) : DataFrame :=
  foldl coerce_column df categorical_cols.

(** Lines 60-63: normalize SHOOTING. *)
Definition normalize_shooting (df : DataFrame) : result DataFrame :=
  if has_column df "SHOOTING" then
    s ← getitem df "SHOOTING";
    s ← add_categories (Str "N") s;
    s ← fillna (Str "N") s;
    Ok (setitem df "SHOOTING" s)
  else Ok (setitem_scalar df "SHOOTING" (Str "N")).

(** Line 66: [df["Is_Shooting"] = (df["SHOOTING"] == "Y").astype(int)]. *)
Definition derive_is_shooting (df : DataFrame) : result DataFrame :=
  s ← getitem df "SHOOTING";
  s ← astype_int (eq_scalar s "Y");
  Ok (setitem df "Is_Shooting" s).

(** Lines 69-72: fix the HOUR column. *)
Definition fix_hour (df : DataFrame) : result DataFrame :=
  if has_column df "HOUR" then
    s ← getitem df "HOUR";
    s ← fillna (Int 0) (to_numeric s);
    s ← astype_int s;
    Ok (setitem df "HOUR" s)
  else
    s ← getitem df "OCCURRED_ON_DATE";
    s ← dt_hour s;
    s ← astype_int s;
    Ok (setitem df "HOUR" s).

(** Line 75: [df.dropna(subset=["Lat", "Long"])]. *)
Definition dropna (subset : list string) (df : DataFrame) : result DataFrame :=
  cols ← traverse (getitem df) subset;
  let mask :=
    foldr (fun s m => zip_with andb (map notna (values s)) m)
          (replicate (length (index df)) true) cols in
  Ok (filter_rows mask df).

(** Line 76: [df[(df["Lat"] != -1) & (df["Lat"] != 0)]]. *)
Definition drop_sentinel (df : DataFrame) : result DataFrame :=
  a ← getitem df "Lat";
  b ← getitem df "Lat";
  Ok (filter_rows (zip_with andb (ne_scalar a (-1)) (ne_scalar b 0)) df).

(** Lines 79-80: make sure OFFENSE_DESCRIPTION exists. *)
Definition ensure_description (df : DataFrame) : DataFrame :=
  if has_column df "OFFENSE_DESCRIPTION" then df
  else setitem_scalar df "OFFENSE_DESCRIPTION" (Str "Unknown").

(** The body of the [try] block, lines 48-82. *)
Definition load_data_body (file : csv_file) : result DataFrame :=
  df ← read_csv file ["OCCURRED_ON_DATE"];
  let df := coerce_categories df in
  df ← normalize_shooting df;
  df ← derive_is_shooting df;
  df ← fix_hour df;
  df ← dropna ["Lat"; "Long"] df;
  df ← drop_sentinel df;
  Ok (ensure_description df).

(** [load_data]: [except Exception: return None]. *)
Definition load_data (file : csv_file) : option DataFrame :=
  match load_data_body file with
  | Ok df => Some df
  | Raise _ => None
  end.

(** Lines 94-102: the uploaded file if there is one, else [crime.csv] if it
    exists; without a frame the page shows the prompt and stops. *)
Definition main (uploaded_file crime_csv : option csv_file) : page :=
  let df :=
    match uploaded_file with
    | Some file => load_data file
    | None =>
        match crime_csv with
        | Some file => load_data file
        | None => None
        end
    end in
  match df with
  | None => Stopped prompt
  | Some df => Dashboard df
  end.

End Loader.

(** A reading of unsigned decimal integers, used in the examples. *)
Definition decimal_number (s : string) : option number :=
  match s with
  | EmptyString => None
  | _ => Integer <$> digits_value 0 s
  end.

Definition saturate (f : float) : Z := - 2 ^ 63.

Definition sample_dates : list cell :=
  [Time (timestamp 2024 3 1 14 30 0); Time (timestamp 2024 3 1 23 59 59);
   Time (timestamp 2024 3 2 0 0 0); Time (timestamp 2024 3 2 8 15 0);
   Time (timestamp 2024 3 3 1 0 0)].

Definition sample_lat : list cell :=
  [Float 42.5%float; Float (-1)%float; Float 0%float; Float nan; Float 42.25%float].

Definition sample_long : list cell :=
  [Float (-71)%float; Float (-1)%float; Float (-71)%float; Float (-71)%float;
   Float (-1)%float].

Definition sample_hours : list cell :=
  [Str "7"; Str "noon"; NA; Int 99; Float 13.75%float].

Definition sample_cols : gmap string (list cell) :=
  list_to_map
    [ ("OCCURRED_ON_DATE", sample_dates);
      ("SHOOTING", [Str "Y"; NA; NA; Str "Y"; NA]);
      ("Lat", sample_lat); ("Long", sample_long) ].

(** Five incidents, no HOUR column; rows 1, 2 and 3 have no position. *)
Definition sample : csv_file := Table 5 sample_cols.

(** The same incidents with an HOUR column, all at a recorded position. *)
Definition hours_cols : gmap string (list cell) :=
  list_to_map
    [ ("OCCURRED_ON_DATE", sample_dates); ("HOUR", sample_hours);
      ("Lat", replicate 5 (Float 42.5%float));
      ("Long", replicate 5 (Float (-71)%float)) ].

Definition with_hours : csv_file := Table 5 hours_cols.

(** One incident whose flag is written out as N. *)
Definition flagged_cols : gmap string (list cell) :=
  list_to_map
    [ ("OCCURRED_ON_DATE", [Time (timestamp 2024 3 1 14 30 0)]);
      ("SHOOTING", [Str "N"]);
      ("Lat", [Float 42.5%float]); ("Long", [Float (-71)%float]) ].

Definition flagged_no : csv_file := Table 1 flagged_cols.

(** One incident with HOUR 99. *)
Definition late_cols : gmap string (list cell) :=
  list_to_map
    [ ("OCCURRED_ON_DATE", [Time (timestamp 2024 3 1 14 30 0)]);
      ("HOUR", [Int 99]);
      ("Lat", [Float 42.5%float]); ("Long", [Float (-71)%float]) ].

Definition late_hour : csv_file := Table 1 late_cols.

(** A file without the date column. *)
Definition undated_cols : gmap string (list cell) :=
  list_to_map [ ("Lat", [Float 42.5%float]); ("Long", [Float (-71)%float]) ].

Definition undated : csv_file := Table 1 undated_cols.

(** Three incidents whose Lat fields are 0, -1 and north: the third field is
    no number, so [read_csv] keeps the whole column as text. *)
Definition text_lat_cols : gmap string (list cell) :=
  list_to_map
    [ ("OCCURRED_ON_DATE",
       [Time (timestamp 2024 3 1 14 30 0); Time (timestamp 2024 3 1 15 0 0);
        Time (timestamp 2024 3 2 9 0 0)]);
      ("Lat", [Str "0"; Str "-1"; Str "north"]);
      ("Long", replicate 3 (Float (-71)%float)) ].

Definition text_lat : csv_file := Table 3 text_lat_cols.

End Crime.

(** * The movie explorer: [Exercise 1/Streamlit App/app.py] *)

Module Movie.

#[local] Set Warnings "-register-all".

(** A cell of the movie frame: a scalar, or a Python list. *)
Inductive obj : Type :=
  | Atom (c : cell)
  | PyList (items : list obj).

(** A list of strings as a Python value. *)
Definition str_list (l : list string) : obj :=
  PyList (map (fun t => Atom (Str t)) l).

(** The uploaded file: its name, and what each of the two parsers makes of
    its bytes ([as_csv] is the outcome of [pd.read_csv(file)], [as_json] the
    outcome of [pd.DataFrame(json.load(file))]). *)
Record upload : Type := mkUpload {
  name : string;
  as_csv : result (gmap string (list obj));
  as_json : result (gmap string (list obj))
}.

(** [s.endswith(suffix)]. *)
Definition endswith (s suffix : string) : bool :=
  let n := String.length s in
  let m := String.length suffix in
  (m <=? n)%nat && String.eqb (substring (n - m) m s) suffix.

(** ** The fragment of [eval] that is modelled *)

Definition double_quote : ascii := "034"%char.
Definition backslash : ascii := "092"%char.

Definition is_space (c : ascii) : bool := Ascii.eqb c " "%char.

Definition is_quote (c : ascii) : bool :=
  Ascii.eqb c "'"%char || Ascii.eqb c double_quote.

(** A character that stands for itself inside a string literal. *)
Definition plain_char (c : ascii) : bool :=
  let n := N_of_ascii c in
  (32 <=? n)%N && (n <=? 126)%N && negb (Ascii.eqb c backslash).

Inductive state : Type :=
  | Expect                           (* after [ or a comma: an item or ] *)
  | InStr (q : ascii) (acc : string) (* inside a string literal opened by q *)
  | AfterItem                        (* after a string literal: a comma or ] *)
  | Closed.                          (* after ] *)

(** One pass over the text after the opening bracket.  [None]: the text
    leaves the fragment.  Reaching the end of the text with a bracket or a
    string literal still open is a [SyntaxError] in Python. *)
Fixpoint scan (st : state) (items : list string) (s : string) : option (result obj) :=
  match s with
  | EmptyString =>
      match st with
      | Closed => Some (Ok (str_list items))
      | _ => Some (Raise SyntaxError)
      end
  | String c rest =>
      match st with
      | Expect =>
          if is_space c then scan Expect items rest
          else if is_quote c then scan (InStr c EmptyString) items rest
          else if Ascii.eqb c "]"%char then scan Closed items rest
          else None
      | InStr q acc =>
          if Ascii.eqb c q then scan AfterItem (items ++ [acc]) rest
          else if plain_char c then scan (InStr q (acc ++ String c EmptyString)%string) items rest
          else None
      | AfterItem =>
          if is_space c then scan AfterItem items rest
          else if Ascii.eqb c ","%char then scan Expect items rest
          else if Ascii.eqb c "]"%char then scan Closed items rest
          else None
      | Closed => None
      end
  end.

(** A decimal integer literal: at most 18 digits, the first of them not 0. *)
Definition int_literal (s : string) : option Z :=
  match s with
  | String c _ =>
      match digit_of c with
      | Some d =>
          if (0 <? d) && (String.length s <=? 18)%nat then digits_value 0 s else None
      | None => None
      end
  | EmptyString => None
  end.

(** The fragment: a list of string literals, or an integer literal. *)
Definition literal_eval (s : string) : option (result obj) :=
  match s with
  | String "["%char rest => scan Expect [] rest
  | _ => (fun z => Ok (Atom (Int z))) <$> int_literal s
  end.

(** ** [repr] of a list of strings, as [DataFrame.to_csv] writes it *)

Definition contains (c : ascii) (s : string) : bool :=
  existsb (Ascii.eqb c) (list_ascii_of_string s).

(** Python quotes with ['] unless the text holds a ['] and no double quote. *)
Definition quote_for (s : string) : ascii :=
  if contains "'"%char s && negb (contains double_quote s)
  then double_quote else "'"%char.

Definition repr_str (s : string) : string :=
  String (quote_for s) (s ++ String (quote_for s) EmptyString)%string.

Fixpoint repr_items (l : list string) : string :=
  match l with
  | [] => EmptyString
  | [s] => repr_str s
  | s :: l' => (repr_str s ++ ", " ++ repr_items l')%string
  end.

Definition py_repr (l : list string) : string :=
  ("[" ++ repr_items l ++ "]")%string.

(** Texts whose [repr] needs no escape: printable ASCII, no backslash, and
    not both kinds of quote. *)
Definition plain_text (s : string) : bool :=
  forallb plain_char (list_ascii_of_string s)
  && negb (contains "'"%char s && contains double_quote s).

Definition list_columns : list string := ["castList"; "directorList"; "genreList"].

(** A text cell. *)
Definition text (s : string) : obj := Atom (Str s).

(** ** One dataset as a delimited file and as a JSON array *)

(** A list-valued column of the two files: the JSON array of records holds
    the lists, and the delimited file holds, as [DataFrame.to_csv] writes
    them, their [repr] texts.  The lists are lists of texts whose [repr]
    needs no escape, and there is at least one row. *)
Definition lists_column (ls : list (list string)) : list obj := map str_list ls.

Definition texts_column (ls : list (list string)) : list obj :=
  map (fun l => text (py_repr l)) ls.

Definition plain_lists (ls : list (list string)) : bool :=
  match ls with
  | [] => false
  | _ :: _ => forallb (forallb plain_text) ls
  end.

(** What the two parsers return for one dataset of movie records, as far as
    [load_data] is concerned: on a list-valued column the JSON parser
    returns the lists and [read_csv] their texts; on every other column the
    two parsers return the same cells.  (That is a condition on the
    content: [read_csv] reads an empty text or the text NA as a missing
    value and infers the type of a column anew, [json.load] does not.) *)
Definition same_records (from_csv from_json : gmap string (list obj)) : Prop :=
  forall col,
    if bool_decide (col ∈ list_columns)
    then match from_json !! col with
         | Some vs =>
             exists ls, plain_lists ls = true /\
               vs = lists_column ls /\ from_csv !! col = Some (texts_column ls)
         | None => from_csv !! col = None
         end
    else from_csv !! col = from_json !! col.

(** Lines 78-82: the parser is chosen by the suffix of the file name. *)
Definition parse (file : upload) : result (gmap string (list obj)) :=
  if endswith (name file) ".csv" then as_csv file else as_json file.

Section Loader.

(** What [eval] does with a text outside the fragment is left open. *)
Variable eval_other : string -> result obj.

Definition py_eval (s : string) : result obj :=
  match literal_eval s with
  | Some r => r
  | None => eval_other s
  end.

(** [eval(v)] as [Series.apply] calls it on a cell: only text is evaluated. *)
Definition eval_cell (v : obj) : result obj :=
  match v with
  | Atom (Str s) => py_eval s
  | _ => Raise TypeError
  end.

(** [isinstance(v, str)]. *)
Definition is_str (v : obj) : bool :=
  match v with
  | Atom (Str _) => true
  | _ => false
  end.

(** [s.iloc[0]]. *)
Definition iloc0 (vs : list obj) : result obj :=
  match vs with
  | [] => Raise IndexError
  | v :: _ => Ok v
  end.

(** Lines 85-90, once per column:
    [if col in df.columns and isinstance(df[col].iloc[0], str):
         df[col] = df[col].apply(eval)]. *)
Definition decode_column (col : string) (df : gmap string (list obj))
  : result (gmap string (list obj)) :=
  match df !! col with
  | None => Ok df
  | Some vs =>
      v0 ← iloc0 vs;
      if is_str v0 then
        vs' ← traverse eval_cell vs;
        Ok (<[col := vs']> df)
      else Ok df
  end.

(** [load_data], lines 77-92. *)
Definition load_data (file : upload) : result (gmap string (list obj)) :=
  df ← parse file;
  df ← decode_column "castList" df;
  df ← decode_column "directorList" df;
  df ← decode_column "genreList" df;
  Ok df.

End Loader.

(** ** Sample files *)

(** An [eval] that rejects every text outside the fragment. *)
Definition always_fails (s : string) : result obj := Raise SyntaxError.

(** The first cast is missing and the second is cut short. *)
Definition gap_frame : gmap string (list obj) :=
  list_to_map [ ("title", [text "Heat"; text "Up"]);
                ("castList", [Atom NA; text "['A'"]) ].

Definition gap_upload : upload :=
  mkUpload "movies.csv" (Ok gap_frame) (Raise JSONDecodeError).

(** The second cast is cut short. *)
Definition broken_frame : gmap string (list obj) :=
  list_to_map [ ("title", [text "Heat"; text "Up"]);
                ("castList", [text "['A', 'B']"; text "['C'"]) ].

Definition broken_upload : upload :=
  mkUpload "movies.csv" (Ok broken_frame) (Raise JSONDecodeError).

(** A cast that is a number, and a director column that starts with a gap. *)
Definition odd_frame : gmap string (list obj) :=
  list_to_map [ ("castList", [text "['A', 'B']"; text "7"]);
                ("directorList", [Atom NA; text "['X']"]) ].

Definition odd_upload : upload :=
  mkUpload "movies.csv" (Ok odd_frame) (Raise JSONDecodeError).

Definition odd_loaded : gmap string (list obj) :=
  list_to_map [ ("castList", [str_list ["A"; "B"]; Atom (Int 7)]);
                ("directorList", [Atom NA; text "['X']"]) ].

(** A header and no data row. *)
Definition header_only : gmap string (list obj) :=
  list_to_map [ ("title", []); ("castList", []) ].

Definition header_only_upload : upload :=
  mkUpload "movies.csv" (Ok header_only) (Raise JSONDecodeError).

(** Two movies, as the two parsers return them. *)
Definition tidy_csv : gmap string (list obj) :=
  list_to_map [ ("title", [text "Heat"; text "Up"]);
                ("year", [Atom (Int 1995); Atom (Int 2009)]);
                ("castList", [text "['Al Pacino', 'Robert De Niro']"; text "[]"]);
                ("genreList", [text "['Crime']"; text "['Animation', 'Adventure']"]) ].

Definition tidy_json : gmap string (list obj) :=
  list_to_map [ ("title", [text "Heat"; text "Up"]);
                ("year", [Atom (Int 1995); Atom (Int 2009)]);
                ("castList", [str_list ["Al Pacino"; "Robert De Niro"]; str_list []]);
                ("genreList", [str_list ["Crime"]; str_list ["Animation"; "Adventure"]]) ].

(** Two movies, the first without a cast list, as the two parsers return
    them. *)
Definition gap_csv : gmap string (list obj) :=
  list_to_map [ ("title", [text "Heat"; text "Up"]);
                ("castList", [Atom NA; text "['A']"]) ].

Definition gap_json : gmap string (list obj) :=
  list_to_map [ ("title", [text "Heat"; text "Up"]);
                ("castList", [Atom NA; str_list ["A"]]) ].

End Movie.

(** * More of the crime dashboard *)

Definition is_ok {A : Type} (r : result A) : bool :=
  match r with
  | Ok _ => true
  | Raise _ => false
  end.

Module CrimeChecks.
Import Crime.

Definition is_time (c : cell) : bool :=
  match c with
  | Time _ => true
  | _ => false
  end.

(** Some row of the SHOOTING column holds the text N. *)
Definition explicit_no (cols : gmap string (list cell)) : bool :=
  match cols !! "SHOOTING" with
  | Some vs => existsb (fun c => eq_str c "N") vs
  | None => false
  end.

Section Loader.
Variable parse_number : string -> option number.

(** An HOUR field that line 70 can cast: read as a number it is missing or
    finite. *)
Definition castable (c : cell) : bool :=
  match to_numeric_cell parse_number c with
  | Float f => PrimFloat.is_nan f || bool_decide (is_Some (float_trunc f))
  | _ => true
  end.

(** The hour can be computed for every row: the HOUR column has castable
    fields only, or, without an HOUR column, the file has a data row and
    every date is a timestamp. *)
Definition hours_ok (cols : gmap string (list cell)) : bool :=
  match cols !! "HOUR" with
  | Some hs => forallb castable hs
  | None =>
      match cols !! "OCCURRED_ON_DATE" with
      | Some (d :: ds) => forallb is_time (d :: ds)
      | _ => false
      end
  end.

(** The tables [load_data] returns a frame for. *)
Definition accepted (cols : gmap string (list cell)) : bool :=
  bool_decide (is_Some (cols !! "OCCURRED_ON_DATE"))
  && negb (explicit_no cols)
  && hours_ok cols
  && bool_decide (is_Some (cols !! "Lat"))
  && bool_decide (is_Some (cols !! "Long")).

End Loader.

(** The columns the loader writes itself. *)
Definition synthesized : list string :=
  ["SHOOTING"; "Is_Shooting"; "HOUR"; "OFFENSE_DESCRIPTION"].

End CrimeChecks.

(** * The crime dashboard page, lines 104-156 *)

Module CrimePage.
Import Crime.

Definition ns_per_day : Z := 24 * ns_per_hour.

(** [Timestamp.date()], as the number of days since 1970-01-01. *)
Definition date_of (ns : Z) : Z := ns / ns_per_day.

Definition date_cell (c : cell) : option Z :=
  match c with
  | Time ns => Some (date_of ns)
  | _ => None
  end.

(** [s.dt.date]: [.dt] needs a datetime column; the date of [NaT] is
    missing. *)
Definition dt_date (s : Series) : result (list (option Z)) :=
  if forallb is_datetime (values s)
  then Ok (map date_cell (values s))
  else Raise AttributeError.

(** [dates >= d] and [dates <= d], element by element; a missing date
    compares false. *)
Definition ge_date (d : Z) (dates : list (option Z)) : list bool :=
  map (fun o => match o with Some x => d <=? x | None => false end) dates.

Definition le_date (d : Z) (dates : list (option Z)) : list bool :=
  map (fun o => match o with Some x => x <=? d | None => false end) dates.

(** One cell of [s.isin(vs)]: a missing cell is matched by a missing value
    only. *)
Definition is_in (vs : list cell) (c : cell) : bool :=
  if isna c then existsb isna vs else existsb (cell_eqb c) vs.

Definition isin (s : Series) (vs : list cell) : list bool :=
  map (is_in vs) (values s).

(** The timestamps of a column. *)
Definition timestamps (vs : list cell) : list Z :=
  omap (fun c => match c with Time ns => Some ns | _ => None end) vs.

(** Lines 107-108, [df[col].min().date()] and [df[col].max().date()], for a
    datetime column with at least one timestamp ([min] and [max] skip
    [NaT]).  [None]: the column is of another kind or has no timestamp; what
    the page does then is not modelled. *)
Definition date_bounds (s : Series) : option (Z * Z) :=
  if forallb is_datetime (values s) then
    match timestamps (values s) with
    | t :: ts => Some (date_of (foldr Z.min t ts), date_of (foldr Z.max t ts))
    | [] => None
    end
  else None.

(** Lines 109-111: the Timeline slider, which comes up at the whole range.
    Streamlit refuses a slider whose [min_value] is not below its
    [max_value], so a dataset of a single day has no slider. *)
Definition timeline (min_date max_date : Z) : result (Z * Z) :=
  if min_date <? max_date then Ok (min_date, max_date)
  else Raise StreamlitAPIException.

(** Line 113: [df["DISTRICT"].cat.categories.tolist()]. *)
Definition all_districts (df : DataFrame) : result (list cell) :=
  s ← getitem df "DISTRICT";
  match categories s with
  | Some cats => Ok cats
  | None => Raise AttributeError
  end.

(** Lines 116-121: the mask and [df.loc[mask]], for the date range of the
    slider and the districts of the multiselect. *)
Definition page_filter (df : DataFrame) (date_range : Z * Z) (selected_districts : list cell)
  : result DataFrame :=
  a ← getitem df "OCCURRED_ON_DATE";
  a ← dt_date a;
  b ← getitem df "OCCURRED_ON_DATE";
  b ← dt_date b;
  d ← getitem df "DISTRICT";
  Ok (filter_rows
        (zip_with andb
           (zip_with andb (ge_date (fst date_range) a) (le_date (snd date_range) b))
           (isin d selected_districts)) df).

(** The integers of an int64 column; [None] for any other column. *)
Definition integers (vs : list cell) : option (list Z) :=
  mapM (fun c => match c with Int z => Some z | _ => None end) vs.

Definition count_of (x : Z) (l : list Z) : nat :=
  length (List.filter (Z.eqb x) l).

(** [x] is ahead of [y] among the modes: it is more frequent, or as frequent
    and smaller. *)
Definition ahead (l : list Z) (x y : Z) : bool :=
  (count_of y l <? count_of x l)%nat
  || ((count_of x l =? count_of y l)%nat && (x <? y)).

(** The first entry of [Series.mode()], which lists the most frequent values
    in increasing order. *)
Definition int_mode (l : list Z) : option Z :=
  foldr (fun x best =>
           match best with
           | None => Some x
           | Some y => if ahead l x y then Some x else Some y
           end) None l.

Section Page.

(** What [sum] and [mode] do on a column that is not made of integers is
    left open. *)
Variable sum_other : list cell -> result cell.
Variable mode_other : list cell -> result cell.

(** [s.sum()]. *)
Definition series_sum (s : Series) : result cell :=
  match integers (values s) with
  | Some zs => Ok (Int (wrap64 (foldr Z.add 0 zs)))
  | None => sum_other (values s)
  end.

(** [s.mode()[0]]: the mode of an empty column is empty, and label 0 is
    then a [KeyError]. *)
Definition mode0 (s : Series) : result cell :=
  match integers (values s) with
  | Some zs =>
      match int_mode zs with
      | Some m => Ok (Int m)
      | None => Raise KeyError
      end
  | None => mode_other (values s)
  end.

(** Line 135: [len(df_filtered)]. *)
Definition total_incidents (df_filtered : DataFrame) : nat :=
  length (index df_filtered).

(** Line 139: [df_filtered["Is_Shooting"].sum()]. *)
Definition confirmed_shootings (df_filtered : DataFrame) : result cell :=
  s ← getitem df_filtered "Is_Shooting"; series_sum s.

(** Line 144: [df_filtered["HOUR"].mode()[0]]. *)
Definition peak_hour (df_filtered : DataFrame) : result cell :=
  s ← getitem df_filtered "HOUR"; mode0 s.

End Page.

(** A DISTRICT field as [read_csv] types a column of codes such as B2:
    text, or missing for an empty field. *)
Definition labelled (c : cell) : bool :=
  match c with
  | Str _ | NA => true
  | _ => false
  end.

Definition no_other (vs : list cell) : result cell := Raise TypeError.

(** The sample incidents with a DISTRICT column; row 1 has none. *)
Definition district_cols : gmap string (list cell) :=
  list_to_map
    [ ("OCCURRED_ON_DATE", sample_dates);
      ("DISTRICT", [Str "B2"; NA; Str "C11"; Str "B2"; Str "A1"]);
      ("SHOOTING", [Str "Y"; NA; NA; Str "Y"; NA]);
      ("Lat", replicate 5 (Float 42.5%float));
      ("Long", replicate 5 (Float (-71)%float)) ].

Definition with_districts : csv_file := Table 5 district_cols.

End CrimePage.

(** * The movie explorer page, lines 223-271 and 484-506 *)

Module MoviePage.

(** A row of the loaded frame, as [df.iterrows()] and the column filters
    read it, for a frame whose year and duration columns hold integers and
    whose rating column holds decimals ([nan] for a missing rating).  A
    list-valued cell is [Some l] when it is a list (of texts) and [None]
    when [isinstance(x, list)] is false: text the loader left undecoded, a
    missing value, a number. *)
Record movie : Type := mkMovie {
  title : string;
  year : Z;
  duration : Z;
  ratingValue : float;
  castList : option (list string);
  genreList : option (list string)
}.

(** A dict with text keys and integer values; the entries are in insertion
    order, as Python keeps them. *)
Definition dict : Type := list (string * Z).

(** [d.get(k, default)]. *)
Fixpoint dict_get (d : dict) (k : string) (default : Z) : Z :=
  match d with
  | [] => default
  | (k', v) :: d' => if String.eqb k' k then v else dict_get d' k default
  end.

(** [d[k] = v]: a key that is there keeps its place, a new key goes last. *)
Fixpoint dict_set (d : dict) (k : string) (v : Z) : dict :=
  match d with
  | [] => [(k, v)]
  | (k', v') :: d' =>
      if String.eqb k' k then (k', v) :: d' else (k', v') :: dict_set d' k v
  end.

(** [list(d.keys())]. *)
Definition dict_keys (d : dict) : list string := fst <$> d.

(** [for k in keys: d[k] = d.get(k, 0) + w]; with [w = 1] this is
    [Counter.update(keys)]. *)
Definition add_each (w : Z) (d : dict) (keys : list string) : dict :=
  foldl (fun d k => dict_set d k (dict_get d k 0 + w)) d keys.

(** Lines 227-233: the minutes of every movie are added to each name of its
    cast list; a row whose cast is not a list is skipped. *)
Definition actor_duration (rows : list movie) : dict :=
  foldl (fun d row =>
           match castList row with
           | Some cast => add_each (duration row) d cast
           | None => d
           end) [] rows.

(** Lines 266-269: [actor_counts.update(cast_list)] for every cast that is a
    list. *)
Definition actor_counts (casts : list (option (list string))) : dict :=
  foldl (fun d cast_list =>
           match cast_list with
           | Some cast => add_each 1 d cast
           | None => d
           end) [] casts.

(** One round of either loop, for any kind of row: [cast] reads the list of
    names and [w] the amount a listing adds. *)
Definition add_cast {E : Type} (cast : E -> option (list string)) (w : E -> Z)
    (d : dict) (e : E) : dict :=
  match cast e with
  | Some l => add_each (w e) d l
  | None => d
  end.

(** [sorted(items, key=lambda x: x[1], reverse=True)]: the sort is stable,
    so entries with the same value stay in the order they had. *)
Fixpoint insert_desc (x : string * Z) (l : list (string * Z)) : list (string * Z) :=
  match l with
  | [] => [x]
  | y :: l' => if snd y <=? snd x then x :: y :: l' else y :: insert_desc x l'
  end.

Definition sorted_desc (items : list (string * Z)) : list (string * Z) :=
  foldr insert_desc [] items.

(** [x] is not below [y] in that order. *)
Definition by_value (x y : string * Z) : Prop := snd y <= snd x.

(** Lines 235-237: [sorted(actor_duration.items(), ...)[:10]]. *)
Definition top_actors (rows : list movie) : list (string * Z) :=
  firstn 10 (sorted_desc (actor_duration rows)).

(** Line 271: [actor_counts.most_common(10)], which is
    [sorted(items, key=itemgetter(1), reverse=True)[:10]]. *)
Definition top_active (rows : list movie) : list (string * Z) :=
  firstn 10 (sorted_desc (actor_counts (map castList rows))).

(** How often a name is listed in a cast. *)
Definition listings (actor : string) (cast : option (list string)) : Z :=
  match cast with
  | Some l => Z.of_nat (length (List.filter (String.eqb actor) l))
  | None => 0
  end.

(** The minutes of the movies that list [actor], once per listing. *)
Definition minutes_listed (actor : string) (rows : list movie) : Z :=
  foldr (fun row acc => listings actor (castList row) * duration row + acc) 0 rows.

(** The number of listings of [actor] in the casts of [rows]. *)
Definition times_listed (actor : string) (rows : list movie) : Z :=
  foldr (fun row acc => listings actor (castList row) + acc) 0 rows.

(** [actor] is a name of some cast list of [rows]. *)
Definition listed (actor : string) (rows : list movie) : Prop :=
  exists row cast, row ∈ rows /\ castList row = Some cast /\ actor ∈ cast.

(** The widgets of the recommender, lines 461-482. *)
Record criteria : Type := mkCriteria {
  min_rating : float;
  year_range : Z * Z;
  max_duration : Z;
  selected_genres : list string
}.

(** One row of the mask of lines 486-489; a comparison with [nan] is
    false. *)
Definition in_range (c : criteria) (m : movie) : bool :=
  PrimFloat.leb (min_rating c) (ratingValue m)
  && (fst (year_range c) <=? year m)
  && (year m <=? snd (year_range c))
  && (duration m <=? max_duration c).

(** Lines 494-498: [any(g in x for g in selected_genres)] when [x] is a
    list, else [False]. *)
Definition has_genre (selected : list string) (m : movie) : bool :=
  match genreList m with
  | Some x => existsb (fun g => existsb (String.eqb g) x) selected
  | None => false
  end.

(** Lines 485-499. *)
Definition filtered_df (rows : list movie) (c : criteria) : list movie :=
  let filtered := List.filter (in_range c) rows in
  match selected_genres c with
  | [] => filtered
  | _ :: _ => List.filter (has_genre (selected_genres c)) filtered
  end.

(** Lines 503-506: the movie recommended when the button is clicked;
    [draw] is the position [sample(1)] picks among the filtered rows. *)
Definition random_movie (rows : list movie) (c : criteria) (clicked : bool) (draw : nat)
  : option movie :=
  let filtered := filtered_df rows c in
  if (0 <? length filtered)%nat then
    if clicked then filtered !! draw else None
  else None.

Definition heat : movie :=
  mkMovie "Heat" 1995 170 8.25%float (Some ["Al Pacino"; "Robert De Niro"])
    (Some ["Crime"; "Drama"]).

Definition the_godfather : movie :=
  mkMovie "The Godfather" 1972 175 9.25%float (Some ["Marlon Brando"; "Al Pacino"])
    (Some ["Crime"; "Drama"]).

Definition up : movie :=
  mkMovie "Up" 2009 96 8.5%float None (Some ["Animation"]).

Definition shelf : list movie := [heat; the_godfather; up].

Definition crime_night : criteria := mkCriteria 8%float (1970, 2000) 180 ["Crime"].

End MoviePage.

(** * Facts about the building blocks *)

Ltac by_evaluation := vm_compute; reflexivity.

Example timestamp_epoch : timestamp 1970 1 1 0 0 0 = 0.
Proof. reflexivity. Qed.

Example timestamp_2024_03_01 : timestamp 2024 3 1 14 30 0 = 1709303400 * 1000000000.
Proof. reflexivity. Qed.

Example float_trunc_examples :
  float_trunc 14.75%float = Some 14 /\ float_trunc (-3.5)%float = Some (-3) /\
  float_trunc 0%float = Some 0 /\ float_trunc infinity = None /\
  float_trunc nan = None /\ float_trunc 0x1p+70%float = Some (2 ^ 70).
Proof. vm_compute. repeat split. Qed.

Example eq_int_examples :
  eq_int (Float (-1)%float) (-1) = true /\ eq_int (Float (-0)%float) 0 = true /\
  eq_int (Int 0) 0 = true /\ eq_int (Str "0") 0 = false /\
  eq_int (Float 42.5%float) 0 = false.
Proof. vm_compute. repeat split. Qed.

Lemma wrap64_small z : - 2 ^ 63 <= z < 2 ^ 63 -> wrap64 z = z.
Proof. intros H. unfold wrap64. rewrite Z.mod_small by lia. lia. Qed.

Lemma wrap64_range z : - 2 ^ 63 <= wrap64 z < 2 ^ 63.
Proof. unfold wrap64. pose proof (Z.mod_pos_bound (z + 2 ^ 63) (2 ^ 64)). lia. Qed.

Lemma digit_of_range c d : digit_of c = Some d -> 0 <= d <= 9.
Proof.
  unfold digit_of. destruct (_ && _) eqn:E; [|discriminate].
  intros H. injection H as <-. apply andb_true_iff in E as [? ?]. lia.
Qed.

Lemma digits_value_range s acc z :
  digits_value acc s = Some z -> 0 <= acc ->
  acc * 10 ^ Z.of_nat (String.length s) <= z
    < (acc + 1) * 10 ^ Z.of_nat (String.length s).
Proof.
  revert acc. induction s as [|c s IH]; intros acc H Hacc.
  - simpl in *. injection H as <-. lia.
  - cbn [digits_value] in H. destruct (digit_of c) as [d|] eqn:Ed; [|discriminate].
    apply digit_of_range in Ed. apply IH in H; [|lia].
    cbn [String.length]. rewrite Nat2Z.inj_succ, Z.pow_succ_r by lia.
    set (p := 10 ^ Z.of_nat (String.length s)) in *.
    assert (0 < p) by (apply Z.pow_pos_nonneg; lia). nia.
Qed.

Lemma decimal_text_range s z : decimal_text s = Some z -> 0 <= z < 10 ^ 15.
Proof.
  unfold decimal_text. destruct (_ && _) eqn:E; [|discriminate].
  apply andb_true_iff in E as [_ Hlen]. apply Nat.leb_le in Hlen.
  intros H. apply digits_value_range in H; [|lia].
  assert (10 ^ Z.of_nat (String.length s) <= 10 ^ 15)
    by (apply Z.pow_le_mono_r; lia).
  lia.
Qed.

Lemma hour_of_range ns : 0 <= hour_of ns <= 23.
Proof.
  unfold hour_of. pose proof (Z.mod_pos_bound (ns / ns_per_hour) 24). lia.
Qed.

(** [hour_of] is the hour component: [days] whole days, [h] hours and less
    than an hour after the epoch. *)
Lemma hour_of_component days h r :
  0 <= h < 24 -> 0 <= r < ns_per_hour ->
  hour_of ((days * 24 + h) * ns_per_hour + r) = h.
Proof.
  intros Hh Hr. unfold hour_of.
  assert (((days * 24 + h) * ns_per_hour + r) / ns_per_hour = days * 24 + h) as ->.
  { symmetry. apply (Z.div_unique _ _ _ r); [lia|]. lia. }
  rewrite Z.add_comm, Z.mod_add by lia. apply Z.mod_small. lia.
Qed.

Lemma hour_of_timestamp y m d h mi sec :
  0 <= h < 24 -> 0 <= mi < 60 -> 0 <= sec < 60 ->
  hour_of (timestamp y m d h mi sec) = h.
Proof.
  intros Hh Hmi Hs. unfold timestamp.
  replace ((((days_from_civil y m d * 24 + h) * 60 + mi) * 60 + sec) * 1000000000)
    with ((days_from_civil y m d * 24 + h) * ns_per_hour + (mi * 60 + sec) * 1000000000)
    by (unfold ns_per_hour; lia).
  apply hour_of_component; [done|]. unfold ns_per_hour. lia.
Qed.

Section Traverse.
Context {A B : Type} (f : A -> result B).

Lemma traverse_Forall2 l l' :
  traverse f l = Ok l' -> Forall2 (fun x y => f x = Ok y) l l'.
Proof.
  revert l'. induction l as [|x l IH]; intros l' H; simpl in H.
  - inversion H. constructor.
  - destruct (f x) as [y|e] eqn:Hx; [|discriminate].
    destruct (traverse f l) as [ys|e] eqn:Hl; [|discriminate].
    inversion H; subst. constructor; auto.
Qed.

Lemma traverse_length l l' : traverse f l = Ok l' -> length l' = length l.
Proof.
  intros H. apply traverse_Forall2 in H. symmetry. eapply Forall2_length, H.
Qed.

Lemma traverse_map (g : A -> B) l :
  (forall x, x ∈ l -> f x = Ok (g x)) -> traverse f l = Ok (map g l).
Proof.
  induction l as [|x l IH]; intros H; simpl; [reflexivity|].
  rewrite H by apply list_elem_of_here.
  rewrite IH; [reflexivity|]. intros y Hy. apply H. by apply list_elem_of_further.
Qed.

Lemma traverse_raise l x e :
  x ∈ l -> f x = Raise e -> exists e', traverse f l = Raise e'.
Proof.
  induction l as [|y l IH]; intros Hin Hx; [by apply elem_of_nil in Hin|].
  apply elem_of_cons in Hin as [->|Hin]; simpl.
  - rewrite Hx. eauto.
  - destruct (f y); [|eauto]. destruct (IH Hin Hx) as [e' ->]. eauto.
Qed.

Lemma traverse_raised l e :
  traverse f l = Raise e -> exists x, x ∈ l /\ f x = Raise e.
Proof.
  induction l as [|y l IH]; simpl; [discriminate|].
  destruct (f y) as [b|e'] eqn:Ey.
  - destruct (traverse f l) as [bs|e'']; [discriminate|]. intros H. injection H as ->.
    destruct (IH eq_refl) as (x & Hx & Hfx). exists x. split; [|done].
    by apply list_elem_of_further.
  - intros H. injection H as ->. exists y. split; [apply list_elem_of_here|done].
Qed.

End Traverse.

Section Rows.
Context {A : Type}.
Implicit Types (idx : list nat) (l : list A) (mask : list bool).

Lemma elem_of_mask_filter {X : Type} mask (xs : list X) x :
  x ∈ mask_filter mask xs -> x ∈ xs.
Proof.
  revert xs. induction mask as [|b mask IH]; intros [|y xs] H; simpl in H;
    try (by apply elem_of_nil in H).
  destruct b.
  - apply elem_of_cons in H as [->|H]; [apply list_elem_of_here|].
    apply list_elem_of_further; auto.
  - apply list_elem_of_further; auto.
Qed.

Lemma NoDup_mask_filter {X : Type} mask (xs : list X) :
  NoDup xs -> NoDup (mask_filter mask xs).
Proof.
  revert xs. induction mask as [|b mask IH]; intros [|y xs] H; simpl;
    try apply NoDup_nil_2.
  apply NoDup_cons in H as [Hy H]. destruct b; [|auto].
  apply NoDup_cons. split; [|auto].
  intros Hin. apply Hy. eapply elem_of_mask_filter, Hin.
Qed.

Lemma length_mask_filter {X Y : Type} mask (xs : list X) (ys : list Y) :
  length xs = length ys ->
  length (mask_filter mask xs) = length (mask_filter mask ys).
Proof.
  revert xs ys. induction mask as [|b mask IH]; intros [|x xs] [|y ys] H;
    simpl in *; try reflexivity; try discriminate.
  destruct b; simpl; auto.
Qed.

Lemma row_at_elem idx l i x : row_at idx l i = Some x -> i ∈ idx.
Proof.
  revert l. induction idx as [|k idx IH]; intros [|y l] H; simpl in H;
    try discriminate.
  destruct (Nat.eqb_spec k i) as [->|Hne].
  - apply list_elem_of_here.
  - apply list_elem_of_further. eauto.
Qed.

Lemma row_at_is_Some idx l i :
  i ∈ idx -> (length idx <= length l)%nat -> is_Some (row_at idx l i).
Proof.
  revert l. induction idx as [|k idx IH]; intros l Hin Hlen;
    [by apply elem_of_nil in Hin|].
  destruct l as [|y l]; simpl in *; [lia|].
  destruct (Nat.eqb_spec k i) as [->|Hne]; [eauto|].
  apply elem_of_cons in Hin as [->|Hin]; [done|].
  apply IH; [done|lia].
Qed.

Lemma row_at_mask_filter mask idx l i :
  NoDup idx -> i ∈ mask_filter mask idx ->
  row_at (mask_filter mask idx) (mask_filter mask l) i = row_at idx l i.
Proof.
  revert idx l. induction mask as [|b mask IH]; intros [|k idx] l Hnd Hin;
    simpl in Hin; try (by apply elem_of_nil in Hin).
  apply NoDup_cons in Hnd as [Hk Hnd].
  destruct l as [|y l].
  - simpl. destruct b; [done|]. by destruct (mask_filter mask idx).
  - simpl. destruct b; simpl.
    + destruct (Nat.eqb_spec k i) as [->|Hne]; [done|].
      apply elem_of_cons in Hin as [->|Hin]; [done|]. by apply IH.
    + destruct (Nat.eqb_spec k i) as [->|Hne].
      * exfalso. apply Hk. eapply elem_of_mask_filter, Hin.
      * by apply IH.
Qed.

Lemma row_at_mask_true mask idx i :
  NoDup idx -> i ∈ mask_filter mask idx -> row_at idx mask i = Some true.
Proof.
  revert idx. induction mask as [|b mask IH]; intros [|k idx] Hnd Hin;
    simpl in Hin; try (by apply elem_of_nil in Hin).
  apply NoDup_cons in Hnd as [Hk Hnd]. simpl.
  destruct b.
  - destruct (Nat.eqb_spec k i) as [->|Hne]; [done|].
    apply elem_of_cons in Hin as [->|Hin]; [done|]. by apply IH.
  - destruct (Nat.eqb_spec k i) as [->|Hne].
    + exfalso. apply Hk. eapply elem_of_mask_filter, Hin.
    + by apply IH.
Qed.

Lemma row_at_map {B : Type} (f : A -> B) idx l i :
  row_at idx (map f l) i = f <$> row_at idx l i.
Proof.
  revert l. induction idx as [|k idx IH]; intros [|y l]; simpl; try done.
  destruct (Nat.eqb k i); [done|apply IH].
Qed.

Lemma row_at_seq a n l i :
  (i < n)%nat -> row_at (seq a n) l (a + i) = l !! i.
Proof.
  revert a l i. induction n as [|n IH]; intros a l i Hi; [lia|].
  destruct l as [|y l]; simpl; [done|].
  destruct (Nat.eqb_spec a (a + i)) as [Heq|Hne].
  - assert (i = 0)%nat as -> by lia. done.
  - destruct i as [|i]; [lia|]. simpl.
    replace (a + S i)%nat with (S a + i)%nat by lia. apply IH. lia.
Qed.

Lemma row_at_replicate idx n (x : A) i :
  i ∈ idx -> (length idx <= n)%nat -> row_at idx (replicate n x) i = Some x.
Proof.
  revert n. induction idx as [|k idx IH]; intros n Hin Hlen;
    [by apply elem_of_nil in Hin|].
  destruct n as [|n]; simpl in *; [lia|].
  destruct (Nat.eqb_spec k i) as [->|Hne]; [done|].
  apply elem_of_cons in Hin as [->|Hin]; [done|]. apply IH; [done|lia].
Qed.

End Rows.

Lemma row_at_zip_with {A B C : Type} (f : A -> B -> C) idx (l1 : list A) (l2 : list B) i :
  row_at idx (zip_with f l1 l2) i =
  match row_at idx l1 i, row_at idx l2 i with
  | Some x, Some y => Some (f x y)
  | _, _ => None
  end.
Proof.
  revert l1 l2. induction idx as [|k idx IH]; intros [|x l1] [|y l2]; simpl;
    try done.
  - destruct (Nat.eqb k i); [done|]. by destruct (row_at idx l1 i).
  - destruct (Nat.eqb k i); [done|apply IH].
Qed.

Lemma bind_Ok {A B : Type} (m : result A) (f : A -> result B) b :
  m ≫= f = Ok b -> exists a, m = Ok a /\ f a = Ok b.
Proof. destruct m as [a|e]; [eauto|discriminate]. Qed.

Lemma bind_Raise {A B : Type} (m : result A) (f : A -> result B) e :
  m = Raise e -> m ≫= f = Raise e.
Proof. by intros ->. Qed.

Lemma getitem_Ok df col s : getitem df col = Ok s -> columns df !! col = Some s.
Proof. unfold getitem. destruct (columns df !! col); [congruence|discriminate]. Qed.

Lemma has_column_true df col :
  has_column df col = true -> exists s, columns df !! col = Some s.
Proof. unfold has_column. intros [s Hs]%bool_decide_eq_true. eauto. Qed.

Lemma has_column_false df col :
  has_column df col = false -> columns df !! col = None.
Proof.
  unfold has_column. intros H%bool_decide_eq_false.
  destruct (columns df !! col) eqn:E; [|done]. exfalso. apply H. eauto.
Qed.

Lemma cell_at_filter_rows mask df col i :
  NoDup (index df) -> i ∈ index (filter_rows mask df) ->
  cell_at (filter_rows mask df) col i = cell_at df col i.
Proof.
  intros Hnd Hin. unfold cell_at, filter_rows in *. simpl in *.
  rewrite lookup_fmap. destruct (columns df !! col) as [s|]; simpl; [|done].
  by apply row_at_mask_filter.
Qed.

Lemma cell_at_setitem_ne df c s col i :
  c <> col -> cell_at (setitem df c s) col i = cell_at df col i.
Proof. intros Hne. unfold cell_at, setitem. simpl. by rewrite lookup_insert_ne. Qed.

Lemma cell_at_setitem_eq df c s i :
  cell_at (setitem df c s) c i = row_at (index df) (values s) i.
Proof. unfold cell_at, setitem. simpl. by rewrite lookup_insert_eq. Qed.

Lemma row_at_Forall2_l {A B : Type} (P : A -> B -> Prop) idx l1 l2 i x :
  Forall2 P l1 l2 -> row_at idx l1 i = Some x ->
  exists y, row_at idx l2 i = Some y /\ P x y.
Proof.
  intros HF. revert idx. induction HF as [|a b l1 l2 Hab HF IH]; intros [|k idx] H;
    simpl in *; try discriminate.
  destruct (Nat.eqb k i); [|by apply IH]. inversion H; subst. eauto.
Qed.

Lemma row_at_Forall2_r {A B : Type} (P : A -> B -> Prop) idx l1 l2 i y :
  Forall2 P l1 l2 -> row_at idx l2 i = Some y ->
  exists x, row_at idx l1 i = Some x /\ P x y.
Proof.
  intros HF. revert idx. induction HF as [|a b l1 l2 Hab HF IH]; intros [|k idx] H;
    simpl in *; try discriminate.
  destruct (Nat.eqb k i); [|by apply IH]. inversion H; subst. eauto.
Qed.

Lemma row_at_mask_elem mask idx i :
  row_at idx mask i = Some true -> i ∈ mask_filter mask idx.
Proof.
  revert mask. induction idx as [|k idx IH]; intros [|b mask] H; simpl in H;
    try discriminate.
  simpl. destruct (Nat.eqb_spec k i) as [->|Hne].
  - injection H as ->. apply list_elem_of_here.
  - destruct b; [apply list_elem_of_further|]; by apply IH.
Qed.

Lemma mask_filter_map {A B : Type} (f : A -> B) mask (l : list A) :
  mask_filter mask (map f l) = map f (mask_filter mask l).
Proof.
  revert l. induction mask as [|b mask IH]; intros [|x l]; simpl; try done.
  destruct b; simpl; by rewrite IH.
Qed.

Lemma Forall_mask_filter {A : Type} (P : A -> Prop) mask (l : list A) :
  Forall P l -> Forall P (mask_filter mask l).
Proof.
  intros H. revert mask. induction H as [|x l Hx H IH]; intros [|b mask]; simpl;
    try constructor.
  destruct b; [constructor|]; auto.
Qed.

Lemma traverse_exists {A B : Type} (f : A -> result B) l :
  Forall (fun x => is_ok (f x) = true) l -> exists l', traverse f l = Ok l'.
Proof.
  induction 1 as [|x l Hx _ [l' IH]]; simpl; [eauto|].
  destruct (f x); [|discriminate]. rewrite IH. eauto.
Qed.

Lemma existsb_subset {A : Type} (p : A -> bool) (l1 l2 : list A) :
  (forall x, In x l2 -> In x l1) -> existsb p l1 = false -> existsb p l2 = false.
Proof.
  intros Hsub H. destruct (existsb p l2) eqn:E; [|done].
  apply existsb_exists in E as (x & Hx & Hp).
  assert (existsb p l1 = true) by (apply existsb_exists; eauto). congruence.
Qed.

(** * The crime loader: what it does to a parsed table *)

Module CrimeSpec.
Import Crime.

Lemma values_astype_category s : values (astype_category s) = values s.
Proof. unfold astype_category. by destruct (categories s). Qed.

Lemma coerce_column_index df c : index (coerce_column df c) = index df.
Proof. unfold coerce_column. by destruct (columns df !! c). Qed.

Lemma coerce_column_lookup_ne df c col :
  c <> col -> columns (coerce_column df c) !! col = columns df !! col.
Proof.
  intros Hne. unfold coerce_column. destruct (columns df !! c); [|done].
  simpl. by rewrite lookup_insert_ne.
Qed.

Lemma coerce_column_lookup_eq df c :
  columns (coerce_column df c) !! c = astype_category <$> columns df !! c.
Proof.
  unfold coerce_column. destruct (columns df !! c) eqn:E; simpl.
  - by rewrite lookup_insert_eq.
  - by rewrite E.
Qed.

Lemma coerce_column_cell_at df c col i :
  cell_at (coerce_column df c) col i = cell_at df col i.
Proof.
  unfold cell_at. rewrite coerce_column_index.
  destruct (decide (c = col)) as [->|Hne].
  - rewrite coerce_column_lookup_eq. destruct (columns df !! col); simpl; [|done].
    by rewrite values_astype_category.
  - by rewrite coerce_column_lookup_ne.
Qed.

Lemma coerce_index df : index (coerce_categories df) = index df.
Proof.
  unfold coerce_categories, categorical_cols. simpl.
  by rewrite !coerce_column_index.
Qed.

Lemma coerce_cell_at df col i :
  cell_at (coerce_categories df) col i = cell_at df col i.
Proof.
  unfold coerce_categories, categorical_cols. simpl.
  by rewrite !coerce_column_cell_at.
Qed.

Lemma coerce_lookup_None df col :
  columns df !! col = None -> columns (coerce_categories df) !! col = None.
Proof.
  unfold coerce_categories. generalize categorical_cols as cs. intros cs.
  revert df. induction cs as [|c cs IH]; intros df H; simpl; [done|].
  apply IH. destruct (decide (c = col)) as [->|Hne].
  - by rewrite coerce_column_lookup_eq, H.
  - by rewrite coerce_column_lookup_ne.
Qed.

Lemma coerce_lookup_Some df col s :
  columns df !! col = Some s ->
  exists s', columns (coerce_categories df) !! col = Some s' /\ values s' = values s.
Proof.
  unfold coerce_categories. generalize categorical_cols as cs. intros cs.
  revert df s. induction cs as [|c cs IH]; intros df s H; simpl; [eauto|].
  destruct (decide (c = col)) as [->|Hne].
  - destruct (IH (coerce_column df col) (astype_category s)) as (s' & Hs' & Hv).
    { by rewrite coerce_column_lookup_eq, H. }
    exists s'. split; [done|]. by rewrite Hv, values_astype_category.
  - apply IH. by rewrite coerce_column_lookup_ne.
Qed.

Lemma coerce_shooting df :
  columns (coerce_categories df) !! "SHOOTING" =
  astype_category <$> columns df !! "SHOOTING".
Proof.
  unfold coerce_categories, categorical_cols. simpl.
  rewrite coerce_column_lookup_eq. by rewrite !coerce_column_lookup_ne.
Qed.

Section Loader.
Variable parse_number : string -> option number.
Variable cast_overflow : float -> Z.

#[local] Abbreviation astype_int := (Crime.astype_int cast_overflow).
#[local] Abbreviation astype_int_cell := (Crime.astype_int_cell cast_overflow).
#[local] Abbreviation to_numeric_cell := (Crime.to_numeric_cell parse_number).
#[local] Abbreviation fix_hour := (Crime.fix_hour parse_number cast_overflow).
#[local] Abbreviation derive_is_shooting := (Crime.derive_is_shooting cast_overflow).
#[local] Abbreviation load_data_body := (Crime.load_data_body parse_number cast_overflow).
#[local] Abbreviation load_data := (Crime.load_data parse_number cast_overflow).
#[local] Abbreviation main := (Crime.main parse_number cast_overflow).

#[local] Abbreviation coerced_hour := (Crime.coerced_hour parse_number cast_overflow).
#[local] Abbreviation unparseable := (Crime.unparseable parse_number).

Lemma normalize_shooting_inv df df1 :
  normalize_shooting df = Ok df1 ->
  index df1 = index df /\
  (forall col, col <> "SHOOTING" -> columns df1 !! col = columns df !! col) /\
  exists s1, columns df1 !! "SHOOTING" = Some s1 /\
    values s1 =
      match columns df !! "SHOOTING" with
      | Some s => map (fill (Str "N")) (values s)
      | None => replicate (length (index df)) (Str "N")
      end.
Proof.
  unfold normalize_shooting. intros H.
  destruct (has_column df "SHOOTING") eqn:Hc.
  - apply bind_Ok in H as (s & Hs & H). apply getitem_Ok in Hs.
    apply bind_Ok in H as (s2 & Hs2 & H).
    apply bind_Ok in H as (s3 & Hs3 & H). inversion H; subst; clear H.
    simpl. split; [done|]. split.
    { intros col Hne. by rewrite lookup_insert_ne. }
    exists s3. rewrite lookup_insert_eq, Hs. split; [done|].
    unfold add_categories in Hs2. destruct (categories s) as [cats|]; [|discriminate].
    destruct (existsb _ cats); [discriminate|]. inversion Hs2; subst; clear Hs2.
    unfold fillna in Hs3. simpl in Hs3.
    destruct (existsb _ _); [|discriminate]. by inversion Hs3.
  - apply has_column_false in Hc. inversion H; subst; clear H. simpl.
    split; [done|]. split.
    { intros col Hne. by rewrite lookup_insert_ne. }
    eexists. rewrite lookup_insert_eq, Hc. split; [done|]. done.
Qed.

Lemma astype_int_flags vs :
  traverse astype_int_cell (map (fun c => Bool (eq_str c "Y")) vs) = Ok (map indicator vs).
Proof.
  induction vs as [|c vs IH]; simpl; [done|]. by rewrite IH.
Qed.

Lemma derive_is_shooting_inv df df2 :
  derive_is_shooting df = Ok df2 ->
  exists s, columns df !! "SHOOTING" = Some s /\
    df2 = setitem df "Is_Shooting" (mkSeries None (map indicator (values s))).
Proof.
  unfold Crime.derive_is_shooting. intros H.
  apply bind_Ok in H as (s & Hs & H). apply getitem_Ok in Hs.
  apply bind_Ok in H as (s2 & Hs2 & H). inversion H; subst; clear H.
  exists s. split; [done|]. unfold Crime.astype_int, eq_scalar in Hs2. simpl in Hs2.
  rewrite astype_int_flags in Hs2. simpl in Hs2. by inversion Hs2.
Qed.

Lemma fix_hour_inv df df3 :
  fix_hour df = Ok df3 ->
  exists h, df3 = setitem df "HOUR" (mkSeries None h) /\
    match columns df !! "HOUR" with
    | Some s => Forall2 (fun c x => coerced_hour c = Ok x) (values s) h
    | None => exists d, columns df !! "OCCURRED_ON_DATE" = Some d /\
        Forall2 (fun c x => astype_int_cell (hour_cell c) = Ok x) (values d) h
    end.
Proof.
  unfold Crime.fix_hour. intros H.
  destruct (has_column df "HOUR") eqn:Hc.
  - apply bind_Ok in H as (s & Hs & H). apply getitem_Ok in Hs.
    apply bind_Ok in H as (s2 & Hs2 & H).
    apply bind_Ok in H as (s3 & Hs3 & H). inversion H; subst; clear H.
    unfold fillna, to_numeric in Hs2. simpl in Hs2. inversion Hs2; subst; clear Hs2.
    unfold Crime.astype_int in Hs3. simpl in Hs3.
    apply bind_Ok in Hs3 as (h & Hh & Hs3). inversion Hs3; subst; clear Hs3.
    exists h. split; [done|]. rewrite Hs.
    apply traverse_Forall2 in Hh.
    rewrite !Forall2_fmap_l in Hh. exact Hh.
  - apply has_column_false in Hc.
    apply bind_Ok in H as (d & Hd & H). apply getitem_Ok in Hd.
    apply bind_Ok in H as (s2 & Hs2 & H).
    apply bind_Ok in H as (s3 & Hs3 & H). inversion H; subst; clear H.
    unfold dt_hour in Hs2. destruct (values d) as [|c0 cs] eqn:Ed; [discriminate|].
    rewrite <- Ed in *.
    destruct (forallb is_datetime (values d)); [|discriminate].
    inversion Hs2; subst; clear Hs2.
    unfold Crime.astype_int in Hs3. simpl in Hs3.
    apply bind_Ok in Hs3 as (h & Hh & Hs3). inversion Hs3; subst; clear Hs3.
    exists h. split; [done|]. rewrite Hc. exists d. split; [done|].
    apply traverse_Forall2 in Hh. rewrite Forall2_fmap_l in Hh. exact Hh.
Qed.

Lemma dropna_inv df df4 :
  dropna ["Lat"; "Long"] df = Ok df4 ->
  exists lat long, columns df !! "Lat" = Some lat /\ columns df !! "Long" = Some long /\
    df4 = filter_rows
            (zip_with andb (map notna (values lat))
               (zip_with andb (map notna (values long))
                  (replicate (length (index df)) true))) df.
Proof.
  unfold dropna. intros H. apply bind_Ok in H as (ss & Hss & H).
  simpl in Hss.
  destruct (getitem df "Lat") as [lat|] eqn:Hlat; [|discriminate].
  destruct (getitem df "Long") as [long|] eqn:Hlong; [|discriminate].
  inversion Hss; subst; clear Hss. inversion H; subst; clear H.
  apply getitem_Ok in Hlat, Hlong. exists lat, long. by simpl.
Qed.

Lemma drop_sentinel_inv df df5 :
  drop_sentinel df = Ok df5 ->
  exists lat, columns df !! "Lat" = Some lat /\
    df5 = filter_rows (zip_with andb (ne_scalar lat (-1)) (ne_scalar lat 0)) df.
Proof.
  unfold drop_sentinel. intros H.
  apply bind_Ok in H as (a & Ha & H). apply bind_Ok in H as (b & Hb & H).
  rewrite Ha in Hb. inversion Hb; subst. inversion H; subst.
  apply getitem_Ok in Ha. eauto.
Qed.

(** The rows that survive lines 75-76, seen from the frame before them. *)
Lemma retained_rows df3 df4 df5 i :
  NoDup (index df3) ->
  dropna ["Lat"; "Long"] df3 = Ok df4 -> drop_sentinel df4 = Ok df5 ->
  i ∈ index df5 ->
  i ∈ index df3 /\
  (forall col, cell_at df5 col i = cell_at df3 col i) /\
  exists la lo, cell_at df3 "Lat" i = Some la /\ cell_at df3 "Long" i = Some lo /\
    isna la = false /\ isna lo = false /\
    eq_int la (-1) = false /\ eq_int la 0 = false.
Proof.
  intros Hnd H4 H5 Hi.
  apply dropna_inv in H4 as (lat & long & Hlat & Hlong & ->).
  apply drop_sentinel_inv in H5 as (lat4 & Hlat4 & ->).
  set (m1 := zip_with andb (map notna (values lat)) _) in *.
  set (m2 := zip_with andb (ne_scalar lat4 (-1)) _) in *.
  assert (NoDup (index (filter_rows m1 df3))) as Hnd4
    by (by apply NoDup_mask_filter).
  assert (i ∈ index (filter_rows m1 df3)) as Hi4
    by (eapply elem_of_mask_filter, Hi).
  assert (forall col, cell_at (filter_rows m2 (filter_rows m1 df3)) col i
                      = cell_at df3 col i) as Hcells.
  { intros col. rewrite cell_at_filter_rows by done. by apply cell_at_filter_rows. }
  split; [eapply elem_of_mask_filter, Hi4|]. split; [done|].
  (* the second mask holds at [i] *)
  pose proof (row_at_mask_true _ _ _ Hnd4 Hi) as Hm2. unfold m2, ne_scalar in Hm2.
  rewrite row_at_zip_with, !row_at_map in Hm2.
  pose proof (cell_at_filter_rows m1 df3 "Lat" i Hnd Hi4) as Hla.
  unfold cell_at at 1 in Hla. rewrite Hlat4 in Hla. rewrite Hla in Hm2.
  destruct (cell_at df3 "Lat" i) as [la|] eqn:Ela; [|discriminate]. simpl in Hm2.
  injection Hm2 as Hm2'. apply andb_true_iff in Hm2' as [Hn1 Hn0].
  apply negb_true_iff in Hn1, Hn0.
  (* the first mask holds at [i] *)
  pose proof (row_at_mask_true _ _ _ Hnd Hi4) as Hm1. unfold m1 in Hm1.
  rewrite !row_at_zip_with, !row_at_map in Hm1.
  unfold cell_at in Ela. rewrite Hlat in Ela. rewrite Ela in Hm1. simpl in Hm1.
  destruct (row_at (index df3) (values long) i) as [lo|] eqn:Elo; [|discriminate].
  simpl in Hm1.
  destruct (row_at (index df3) (replicate _ true) i); [|discriminate].
  injection Hm1 as Hm1'. apply andb_true_iff in Hm1' as [Hna Hm1'].
  apply andb_true_iff in Hm1' as [Hno _].
  exists la, lo. unfold cell_at. rewrite Hlong.
  apply negb_true_iff in Hna, Hno. done.
Qed.

(** And the other way round: a row with a position survives them. *)
Lemma kept_rows df3 df4 df5 i la lo :
  NoDup (index df3) ->
  dropna ["Lat"; "Long"] df3 = Ok df4 -> drop_sentinel df4 = Ok df5 ->
  i ∈ index df3 ->
  cell_at df3 "Lat" i = Some la -> cell_at df3 "Long" i = Some lo ->
  unlocated la lo = false ->
  i ∈ index df5.
Proof.
  intros Hnd H4 H5 Hi Hla Hlo Hloc.
  apply dropna_inv in H4 as (lat & long & Hlat & Hlong & ->).
  apply drop_sentinel_inv in H5 as (lat4 & Hlat4 & ->).
  unfold cell_at in Hla, Hlo. rewrite Hlat in Hla. rewrite Hlong in Hlo.
  unfold unlocated in Hloc. apply orb_false_iff in Hloc as [Hloc Hm].
  apply orb_false_iff in Hloc as [Hloc Hz]. apply orb_false_iff in Hloc as [Hna Hno].
  set (m1 := zip_with andb (map notna (values lat)) _) in *.
  assert (i ∈ mask_filter m1 (index df3)) as Hi4.
  { apply row_at_mask_elem. unfold m1.
    rewrite !row_at_zip_with, !row_at_map, Hla, Hlo.
    rewrite row_at_replicate by done. simpl. unfold notna. by rewrite Hna, Hno. }
  simpl in Hlat4. rewrite lookup_fmap, Hlat in Hlat4. simpl in Hlat4.
  injection Hlat4 as <-. simpl. apply row_at_mask_elem. unfold ne_scalar. simpl.
  rewrite row_at_zip_with, !row_at_map.
  rewrite row_at_mask_filter by done. rewrite Hla. simpl. by rewrite Hz, Hm.
Qed.

Lemma ensure_description_index df : index (ensure_description df) = index df.
Proof. unfold ensure_description. by destruct (has_column df _). Qed.

Lemma ensure_description_cell_at df col i :
  col <> "OFFENSE_DESCRIPTION" ->
  cell_at (ensure_description df) col i = cell_at df col i.
Proof.
  intros Hne. unfold ensure_description. destruct (has_column df _); [done|].
  unfold setitem_scalar. by rewrite cell_at_setitem_ne.
Qed.

(** The intermediate frames of a load that returns [out]. *)
Lemma load_data_inv file out :
  load_data file = Some out ->
  exists n cols df1 df2 df3 df4 df5,
    file = Table n cols /\ is_Some (cols !! "OCCURRED_ON_DATE") /\
    normalize_shooting
      (coerce_categories (mkFrame (seq 0 n) (mkSeries None <$> cols))) = Ok df1 /\
    derive_is_shooting df1 = Ok df2 /\ fix_hour df2 = Ok df3 /\
    dropna ["Lat"; "Long"] df3 = Ok df4 /\ drop_sentinel df4 = Ok df5 /\
    out = ensure_description df5.
Proof.
  unfold Crime.load_data, Crime.load_data_body. intros H.
  destruct file as [e|n cols]; [discriminate|]. simpl in H.
  destruct (bool_decide (is_Some (cols !! "OCCURRED_ON_DATE"))) eqn:Hd;
    [|simpl in H; discriminate].
  apply bool_decide_eq_true in Hd. simpl in H.
  match type of H with match ?m with _ => _ end = _ => destruct m as [df|] eqn:E end;
    [|discriminate].
  inversion H; subst; clear H.
  apply bind_Ok in E as (df1 & H1 & E). apply bind_Ok in E as (df2 & H2 & E).
  apply bind_Ok in E as (df3 & H3 & E). apply bind_Ok in E as (df4 & H4 & E).
  apply bind_Ok in E as (df5 & H5 & E). inversion E; subst; clear E.
  exists n, cols, df1, df2, df3, df4, df5. done.
Qed.

Lemma cell_at_table n cols col i :
  (i < n)%nat ->
  cell_at (mkFrame (seq 0 n) (mkSeries None <$> cols)) col i =
  match cols !! col with Some vs => vs !! i | None => None end.
Proof.
  intros Hi. unfold cell_at. simpl. rewrite lookup_fmap.
  destruct (cols !! col) as [vs|]; simpl; [|done].
  apply (row_at_seq 0 n vs i Hi).
Qed.

(** The frame after lines 48-72, before any row is dropped. *)
Section Prepared.
Variables (n : nat) (cols : gmap string (list cell)) (df1 df2 df3 : DataFrame).
Hypothesis H1 :
  normalize_shooting
    (coerce_categories (mkFrame (seq 0 n) (mkSeries None <$> cols))) = Ok df1.
Hypothesis H2 : derive_is_shooting df1 = Ok df2.
Hypothesis H3 : fix_hour df2 = Ok df3.

Lemma prepared_index : index df3 = seq 0 n.
Proof using H1 H2 H3.
  apply normalize_shooting_inv in H1 as (Hi1 & _ & _).
  apply derive_is_shooting_inv in H2 as (s & _ & ->).
  apply fix_hour_inv in H3 as (h & -> & _). simpl.
  by rewrite Hi1, coerce_index.
Qed.

Lemma prepared_untouched col i :
  col <> "SHOOTING" -> col <> "Is_Shooting" -> col <> "HOUR" -> (i < n)%nat ->
  cell_at df3 col i = match cols !! col with Some vs => vs !! i | None => None end.
Proof using H1 H2 H3.
  intros Hs His Hh Hi.
  apply normalize_shooting_inv in H1 as (Hi1 & Hc1 & _).
  apply derive_is_shooting_inv in H2 as (s & _ & ->).
  apply fix_hour_inv in H3 as (h & -> & _).
  rewrite !cell_at_setitem_ne by done.
  rewrite <- (cell_at_table n cols col i Hi).
  rewrite <- (coerce_cell_at (mkFrame (seq 0 n) (mkSeries None <$> cols)) col i).
  unfold cell_at. by rewrite Hi1, Hc1.
Qed.

Lemma prepared_missing col :
  col <> "SHOOTING" -> col <> "Is_Shooting" -> col <> "HOUR" ->
  cols !! col = None -> columns df3 !! col = None.
Proof using H1 H2 H3.
  intros Hs His Hh Hnone.
  apply normalize_shooting_inv in H1 as (_ & Hc1 & _).
  apply derive_is_shooting_inv in H2 as (s & _ & ->).
  apply fix_hour_inv in H3 as (h & -> & _). simpl.
  rewrite !lookup_insert_ne by done. rewrite Hc1 by done.
  apply coerce_lookup_None. simpl. by rewrite lookup_fmap, Hnone.
Qed.

Lemma prepared_hour :
  exists h, columns df3 !! "HOUR" = Some (mkSeries None h) /\
    match cols !! "HOUR" with
    | Some hs => Forall2 (fun c x => coerced_hour c = Ok x) hs h
    | None => exists d, cols !! "OCCURRED_ON_DATE" = Some d /\
        Forall2 (fun c x => astype_int_cell (hour_cell c) = Ok x) d h
    end.
Proof using H1 H2 H3.
  apply normalize_shooting_inv in H1 as (_ & Hc1 & _).
  apply derive_is_shooting_inv in H2 as (s & _ & ->).
  apply fix_hour_inv in H3 as (h & -> & Hh). simpl in *.
  exists h. rewrite lookup_insert_eq. split; [done|].
  rewrite lookup_insert_ne, Hc1 in Hh by done.
  destruct (cols !! "HOUR") as [hs|] eqn:Ehs.
  - destruct (coerce_lookup_Some (mkFrame (seq 0 n) (mkSeries None <$> cols))
                "HOUR" (mkSeries None hs)) as (s' & Hs' & Hv).
    { simpl. by rewrite lookup_fmap, Ehs. }
    rewrite Hs', Hv in Hh. exact Hh.
  - rewrite (coerce_lookup_None (mkFrame (seq 0 n) (mkSeries None <$> cols)) "HOUR") in Hh
      by (simpl; by rewrite lookup_fmap, Ehs).
    destruct Hh as (d & Hd & Hh). rewrite lookup_insert_ne, Hc1 in Hd by done.
    destruct (cols !! "OCCURRED_ON_DATE") as [ds|] eqn:Eds.
    + destruct (coerce_lookup_Some (mkFrame (seq 0 n) (mkSeries None <$> cols))
                  "OCCURRED_ON_DATE" (mkSeries None ds)) as (s' & Hs' & Hv).
      { simpl. by rewrite lookup_fmap, Eds. }
      rewrite Hs' in Hd. injection Hd as <-. rewrite Hv in Hh. eauto.
    + rewrite (coerce_lookup_None (mkFrame (seq 0 n) (mkSeries None <$> cols))
                 "OCCURRED_ON_DATE") in Hd by (simpl; by rewrite lookup_fmap, Eds).
      discriminate.
Qed.

Lemma prepared_shooting :
  exists s, columns df3 !! "SHOOTING" = Some s /\
    columns df3 !! "Is_Shooting" = Some (mkSeries None (map indicator (values s))) /\
    values s = match cols !! "SHOOTING" with
               | Some vs => map (fill (Str "N")) vs
               | None => replicate n (Str "N")
               end.
Proof using H1 H2 H3.
  apply normalize_shooting_inv in H1 as (_ & _ & s1 & Hs1 & Hv).
  apply derive_is_shooting_inv in H2 as (s & Hs & ->).
  apply fix_hour_inv in H3 as (h & -> & _). simpl in *.
  rewrite Hs1 in Hs. injection Hs as <-.
  exists s1. rewrite !lookup_insert_ne by done. rewrite lookup_insert_eq.
  split; [done|]. split; [done|]. rewrite Hv.
  rewrite coerce_shooting, coerce_index. simpl. rewrite lookup_fmap, length_seq.
  by destruct (cols !! "SHOOTING").
Qed.

End Prepared.

Lemma float_trunc_nan : float_trunc nan = None.
Proof. reflexivity. Qed.

Lemma coerced_hour_Int c x :
  coerced_hour c = Ok x -> exists z, x = Int z.
Proof.
  unfold Crime.coerced_hour, fill. intros H.
  destruct (isna (to_numeric_cell c)); simpl in H; [inversion H; eauto|].
  destruct (to_numeric_cell c) as [|z|f|b|s|ns]; simpl in H;
    try discriminate; try (inversion H; eauto).
  destruct (float_trunc f); inversion H; eauto.
Qed.

Lemma coerced_hour_unparseable c x :
  unparseable c = true -> coerced_hour c = Ok x -> x = Int 0.
Proof.
  unfold Crime.unparseable, Crime.coerced_hour. intros Hu H.
  assert (isna (to_numeric_cell c) = true) as Hna.
  { destruct c as [|z|f|b|s|ns]; simpl in *; try done.
    destruct (decimal_text s); [done|]. by destruct (parse_number s). }
  unfold fill in H. rewrite Hna in H. simpl in H. by inversion H.
Qed.

Lemma coerced_hour_integer z : coerced_hour (Int z) = Ok (Int (wrap64 z)).
Proof. reflexivity. Qed.

Lemma coerced_hour_decimal s z :
  decimal_text s = Some z -> coerced_hour (Str s) = Ok (Int (wrap64 z)).
Proof. intros H. unfold Crime.coerced_hour. simpl. by rewrite H. Qed.

Lemma derived_hour c x :
  astype_int_cell (hour_cell c) = Ok x -> exists ns, c = Time ns /\ x = Int (hour_of ns).
Proof.
  destruct c as [|z|f|b|s|ns]; unfold hour_cell, Crime.astype_int_cell;
    rewrite ?float_trunc_nan; try discriminate.
  intros H. inversion H. exists ns. split; [done|].
  rewrite wrap64_small; [done|]. pose proof (hour_of_range ns). lia.
Qed.

(** The rows of [out], seen from the table the file held. *)
Lemma loaded_rows n cols out i :
  load_data (Table n cols) = Some out -> i ∈ index out ->
  (i < n)%nat /\
  exists df3,
    index df3 = seq 0 n /\
    (forall col, col <> "OFFENSE_DESCRIPTION" -> cell_at out col i = cell_at df3 col i) /\
    (forall col, col <> "SHOOTING" -> col <> "Is_Shooting" -> col <> "HOUR" ->
       cell_at df3 col i = match cols !! col with Some vs => vs !! i | None => None end) /\
    (exists la lo, cell_at df3 "Lat" i = Some la /\ cell_at df3 "Long" i = Some lo /\
       unlocated la lo = false) /\
    (exists h, columns df3 !! "HOUR" = Some (mkSeries None h) /\
       match cols !! "HOUR" with
       | Some hs => Forall2 (fun c x => coerced_hour c = Ok x) hs h
       | None => exists d, cols !! "OCCURRED_ON_DATE" = Some d /\
           Forall2 (fun c x => astype_int_cell (hour_cell c) = Ok x) d h
       end) /\
    (exists s, columns df3 !! "SHOOTING" = Some s /\
       columns df3 !! "Is_Shooting" = Some (mkSeries None (map indicator (values s))) /\
       values s = match cols !! "SHOOTING" with
                  | Some vs => map (fill (Str "N")) vs
                  | None => replicate n (Str "N")
                  end).
Proof.
  intros Hload Hi.
  apply load_data_inv in Hload
    as (n' & cols' & df1 & df2 & df3 & df4 & df5 & Hf & _ & H1 & H2 & H3 & H4 & H5 & ->).
  injection Hf as <- <-.
  rewrite ensure_description_index in Hi.
  pose proof (prepared_index _ _ _ _ _ H1 H2 H3) as Hidx.
  assert (NoDup (index df3)) as Hnd by (rewrite Hidx; apply NoDup_seq).
  destruct (retained_rows df3 df4 df5 i Hnd H4 H5 Hi)
    as (Hi3 & Hcells & la & lo & Hla & Hlo & Hna & Hno & Hm1 & H0).
  assert (i < n)%nat as Hlt by (rewrite Hidx in Hi3; apply elem_of_seq in Hi3; lia).
  split; [done|]. exists df3. split; [done|]. split.
  { intros col Hne. by rewrite ensure_description_cell_at. }
  split.
  { intros col ? ? ?. by apply (prepared_untouched _ _ _ _ _ H1 H2 H3). }
  split.
  { exists la, lo. unfold unlocated. by rewrite Hna, Hno, H0, Hm1. }
  split.
  - apply (prepared_hour _ _ _ _ _ H1 H2 H3).
  - apply (prepared_shooting _ _ _ _ _ H1 H2 H3).
Qed.

(** C3 (amended). Coordinate filtering: whenever the loader returns a frame
    for a parsed table, a row whose latitude or longitude is missing, or
    whose latitude compares equal to the number 0 or -1, is not among the
    rows of that frame, whatever its other fields hold, and the frame has no
    cell for it in any column.  In a Lat column read as text no cell equals
    a number: a row whose latitude is text is kept whenever its longitude is
    there, also when the text is 0 or -1. *)
Theorem unlocated_rows_are_dropped n cols out lat long i la lo :
  load_data (Table n cols) = Some out ->
  cols !! "Lat" = Some lat -> cols !! "Long" = Some long ->
  lat !! i = Some la -> long !! i = Some lo ->
  (unlocated la lo = true ->
   (i ∉ index out) /\ (forall col, cell_at out col i = None)) /\
  (forall t, la = Str t -> isna lo = false -> (i < n)%nat -> i ∈ index out).
Proof.
  intros Hload Hlat Hlong Hla Hlo. split.
  - intros Hun.
    assert (i ∉ index out) as Hout.
    { intros Hi.
      destruct (loaded_rows n cols out i Hload Hi)
        as (Hlt & df3 & _ & _ & Hcols & (la' & lo' & Hla' & Hlo' & Hloc) & _).
      rewrite Hcols, Hlat, Hla in Hla' by done.
      rewrite Hcols, Hlong, Hlo in Hlo' by done.
      injection Hla' as <-. injection Hlo' as <-. congruence. }
    split; [done|]. intros col. unfold cell_at.
    destruct (columns out !! col) as [s|]; [|done].
    destruct (row_at (index out) (values s) i) eqn:E; [|done].
    exfalso. apply Hout. eapply row_at_elem, E.
  - intros t -> Hlo_there Hi.
    destruct (load_data_inv _ _ Hload)
      as (n' & cols' & df1 & df2 & df3 & df4 & df5 & Hf & _ & H1 & H2 & H3 & H4 & H5 & ->).
    injection Hf as <- <-. rewrite ensure_description_index.
    pose proof (prepared_index _ _ _ _ _ H1 H2 H3) as Hidx.
    apply (kept_rows df3 df4 df5 i (Str t) lo); try done.
    + rewrite Hidx. apply NoDup_seq.
    + rewrite Hidx. apply elem_of_seq. lia.
    + rewrite (prepared_untouched _ _ _ _ _ H1 H2 H3) by done. by rewrite Hlat.
    + rewrite (prepared_untouched _ _ _ _ _ H1 H2 H3) by done. by rewrite Hlong.
    + unfold unlocated. simpl. by rewrite Hlo_there.
Qed.

(** C4 (amended). Every row of a frame the loader returns has a latitude and
    a longitude that are not missing, and its latitude does not compare
    equal to the number 0 or -1; an integer latitude is neither 0 nor -1.
    (The longitude is not compared with 0 or -1, and a latitude read as text
    equals no number.) *)
Theorem retained_rows_are_located file out i :
  load_data file = Some out -> i ∈ index out ->
  exists la lo, cell_at out "Lat" i = Some la /\ cell_at out "Long" i = Some lo /\
    isna la = false /\ isna lo = false /\
    eq_int la 0 = false /\ eq_int la (-1) = false /\
    (forall z, la = Int z -> z <> 0 /\ z <> -1).
Proof.
  intros Hload Hi.
  destruct (load_data_inv _ _ Hload) as (n & cols & _ & _ & _ & _ & _ & -> & _).
  destruct (loaded_rows n cols out i Hload Hi)
    as (_ & df3 & _ & Hout & _ & (la & lo & Hla & Hlo & Hloc) & _).
  exists la, lo. rewrite !Hout by done. unfold unlocated in Hloc.
  apply orb_false_iff in Hloc as [Hloc Hm]. apply orb_false_iff in Hloc as [Hloc Hz].
  apply orb_false_iff in Hloc as [? ?]. repeat (split; [done|]).
  intros z ->. simpl in Hz, Hm. lia.
Qed.

(** The HOUR cell of a retained row. *)
Lemma loaded_hour n cols out i :
  wf_table n cols ->
  load_data (Table n cols) = Some out -> i ∈ index out ->
  (forall hs, cols !! "HOUR" = Some hs ->
     exists c z, hs !! i = Some c /\ cell_at out "HOUR" i = Some (Int z) /\
       coerced_hour c = Ok (Int z) /\
       (unparseable c = true -> z = 0) /\
       (forall k, c = Int k -> z = wrap64 k /\ (in_int64 k = true -> z = k)) /\
       (forall s k, c = Str s -> decimal_text s = Some k -> z = k)) /\
  (cols !! "HOUR" = None ->
     exists dates ns, cols !! "OCCURRED_ON_DATE" = Some dates /\
       dates !! i = Some (Time ns) /\
       cell_at out "HOUR" i = Some (Int (hour_of ns))).
Proof.
  intros Hwf Hload Hi.
  destruct (loaded_rows n cols out i Hload Hi)
    as (Hlt & df3 & Hidx & Hout & _ & _ & (h & Hh & Hhour) & _).
  assert (cell_at out "HOUR" i = h !! i) as Hcell.
  { rewrite Hout by done. unfold cell_at. rewrite Hh, Hidx. simpl.
    apply (row_at_seq 0 n h i Hlt). }
  split.
  - intros hs Hhs. rewrite Hhs in Hhour.
    destruct (lookup_lt_is_Some_2 hs i) as [c Hc].
    { by rewrite (Hwf _ _ Hhs). }
    destruct (Forall2_lookup_l _ _ _ _ _ Hhour Hc) as (x & Hx & Hcx).
    destruct (coerced_hour_Int _ _ Hcx) as [z ->].
    exists c, z. rewrite Hcell.
    split; [done|]. split; [done|]. split; [done|]. split; [|split].
    + intros Hu. pose proof (coerced_hour_unparseable _ _ Hu Hcx). congruence.
    + intros k' ->. rewrite coerced_hour_integer in Hcx. injection Hcx as <-.
      split; [done|]. intros Hk. apply wrap64_small.
      unfold in_int64 in Hk. apply andb_true_iff in Hk as [? ?]. lia.
    + intros s k' -> Hk. rewrite (coerced_hour_decimal _ _ Hk) in Hcx.
      injection Hcx as <-. apply wrap64_small.
      pose proof (decimal_text_range _ _ Hk). lia.
  - intros Hnone. rewrite Hnone in Hhour. destruct Hhour as (d & Hd & Hhour).
    destruct (lookup_lt_is_Some_2 d i) as [c Hc].
    { by rewrite (Hwf _ _ Hd). }
    destruct (Forall2_lookup_l _ _ _ _ _ Hhour Hc) as (x & Hx & Hcx).
    destruct (derived_hour _ _ Hcx) as (ns & -> & ->).
    exists d, ns. by rewrite Hcell.
Qed.


(** C9 (amended). In a frame the loader returns for a well-formed table the
    HOUR of every retained row is an integer; it lies between 0 and 23 when
    the table has no HOUR column, so that the hour comes from the timestamp.
    (An HOUR column that is present is coerced, not range-checked.) *)
Theorem hour_is_an_integer n cols out i :
  wf_table n cols ->
  load_data (Table n cols) = Some out -> i ∈ index out ->
  exists z, cell_at out "HOUR" i = Some (Int z) /\
    (cols !! "HOUR" = None -> (0 <= z <= 23)).
Proof.
  intros Hwf Hload Hi.
  destruct (loaded_hour n cols out i Hwf Hload Hi) as (Hpresent & Habsent).
  destruct (cols !! "HOUR") as [hs|] eqn:Ehs.
  - destruct (Hpresent hs eq_refl) as (c & z & _ & Hz & _). exists z. done.
  - destruct (Habsent eq_refl) as (d & ns & _ & _ & Hz). exists (hour_of ns).
    split; [done|]. intros _. apply hour_of_range.
Qed.

Lemma distinct_keeps_text (l : list cell) t : In (Str t) l -> In (Str t) (distinct l).
Proof.
  induction l as [|c l IH]; intros Hin; simpl in *; [done|].
  destruct Hin as [->|Hin]; [by left|].
  destruct (cell_eqb c (Str t)) eqn:E.
  - left. destruct c as [|z|f|b|s|ns]; simpl in E; try discriminate.
    apply String.eqb_eq in E. by subst.
  - right. apply filter_In. split; [auto|]. by rewrite E.
Qed.

Lemma explicit_label_is_a_category vs t :
  Str t ∈ vs ->
  exists cats, categories (astype_category (mkSeries None vs)) = Some cats /\
    existsb (cell_eqb (Str t)) cats = true.
Proof.
  intros Hin%list_elem_of_In. unfold astype_category. simpl. eexists. split; [done|].
  apply existsb_exists. exists (Str t). split.
  - apply distinct_keeps_text, filter_In. by split.
  - simpl. apply String.eqb_refl.
Qed.

(** C1 (the defect). A table whose SHOOTING column holds the text N in
    some row makes the loader return no frame at all: N is then already a
    category, and [add_categories] refuses it. *)
Theorem explicit_no_flag_is_rejected n cols vs :
  cols !! "SHOOTING" = Some vs -> Str "N" ∈ vs ->
  load_data (Table n cols) = None.
Proof.
  intros Hvs Hin. unfold Crime.load_data, Crime.load_data_body. simpl.
  destruct (bool_decide _); simpl; [|done].
  set (df0 := mkFrame (seq 0 n) (mkSeries None <$> cols)).
  assert (normalize_shooting (coerce_categories df0) = Raise ValueError) as ->; [|done].
  destruct (explicit_label_is_a_category vs "N" Hin) as (cats & Hcats & Hex).
  unfold normalize_shooting, has_column, getitem.
  rewrite coerce_shooting. subst df0. simpl. rewrite lookup_fmap, Hvs. simpl.
  unfold add_categories. rewrite Hcats, Hex. done.
Qed.

Lemma missing_column_raises n cols col :
  col = "Lat" \/ col = "Long" -> cols !! col = None ->
  exists e, load_data_body (Table n cols) = Raise e.
Proof.
  intros Hcol Hnone. unfold Crime.load_data_body. simpl.
  destruct (bool_decide _); simpl; [|eauto].
  destruct (normalize_shooting _) as [df1|] eqn:H1; simpl; [|eauto].
  destruct (derive_is_shooting df1) as [df2|] eqn:H2; simpl; [|eauto].
  destruct (fix_hour df2) as [df3|] eqn:H3; simpl; [|eauto].
  assert (columns df3 !! col = None) as Hmiss.
  { apply (prepared_missing _ _ _ _ _ H1 H2 H3); [| | |done];
      destruct Hcol as [-> | ->]; done. }
  assert (dropna ["Lat"; "Long"] df3 = Raise KeyError) as ->; [|simpl; eauto].
  unfold dropna, getitem. simpl. destruct Hcol as [-> | ->].
  - by rewrite Hmiss.
  - rewrite Hmiss. by destruct (columns df3 !! "Lat").
Qed.

(** C2. Fail-soft policy: when the file the page loads is rejected by the
    parser, lacks the date column or a coordinate column, or makes any step
    of the body raise, [load_data] returns no frame (it does not raise), and
    the page shows the upload prompt and stops instead of the dashboard. *)
Theorem crime_loader_fails_soft uploaded_file crime_csv file :
  uploaded_file = Some file \/ (uploaded_file = None /\ crime_csv = Some file) ->
  (exists e, file = Malformed e) \/
  (exists n cols col, file = Table n cols /\ cols !! col = None /\
     (col = "OCCURRED_ON_DATE" \/ col = "Lat" \/ col = "Long")) \/
  (exists e, load_data_body file = Raise e) ->
  load_data file = None /\ main uploaded_file crime_csv = Stopped prompt.
Proof.
  intros Hsel Hfail.
  assert (exists e, load_data_body file = Raise e) as [e He].
  { destruct Hfail as [[e ->]|[(n & cols & col & -> & Hnone & Hcol)|H]]; [eauto| |done].
    destruct Hcol as [->|Hcol]; [|by eapply missing_column_raises].
    exists ValueError. unfold Crime.load_data_body. simpl.
    rewrite bool_decide_eq_false_2; [done|]. rewrite Hnone. by intros [? ?]. }
  assert (load_data file = None) as Hnone by (unfold Crime.load_data; by rewrite He).
  split; [done|]. unfold Crime.main.
  destruct Hsel as [-> | [-> ->]]; by rewrite Hnone.
Qed.

(** Without any file the page stops at the prompt as well. *)
Lemma no_file_stops : main None None = Stopped prompt.
Proof. reflexivity. Qed.

(** The dashboard is only reached with a frame the loader returned. *)
Lemma dashboard_needs_a_frame uploaded_file crime_csv df :
  main uploaded_file crime_csv = Dashboard df ->
  exists file, load_data file = Some df /\
    (uploaded_file = Some file \/ (uploaded_file = None /\ crime_csv = Some file)).
Proof.
  unfold Crime.main. intros H.
  destruct uploaded_file as [f|]; [|destruct crime_csv as [f|]; [|discriminate]];
    destruct (load_data f) as [df'|] eqn:E; try discriminate;
    injection H as ->; eauto.
Qed.

(** The flag and the indicator of a retained row: the flag is the field of
    the table with a missing field replaced by N (N throughout when the
    table has no SHOOTING column), it is never missing, and the indicator is
    1 when the flag is Y and 0 otherwise. *)
Theorem shooting_indicator n cols out i :
  wf_table n cols ->
  load_data (Table n cols) = Some out -> i ∈ index out ->
  exists flag, cell_at out "SHOOTING" i = Some flag /\
    cell_at out "Is_Shooting" i = Some (Int (if eq_str flag "Y" then 1 else 0)) /\
    isna flag = false /\
    match cols !! "SHOOTING" with
    | Some vs => exists c, vs !! i = Some c /\ flag = (if isna c then Str "N" else c)
    | None => flag = Str "N"
    end.
Proof.
  intros Hwf Hload Hi.
  destruct (loaded_rows n cols out i Hload Hi)
    as (Hlt & df3 & Hidx & Hout & _ & _ & _ & (s & Hs & His & Hv)).
  assert (exists flag, values s !! i = Some flag /\ isna flag = false /\
            match cols !! "SHOOTING" with
            | Some vs => exists c, vs !! i = Some c /\ flag = (if isna c then Str "N" else c)
            | None => flag = Str "N"
            end) as (flag & Hflag & Hna & Hsrc).
  { rewrite Hv. destruct (cols !! "SHOOTING") as [vs|] eqn:Evs.
    - destruct (lookup_lt_is_Some_2 vs i) as [c Hc]; [by rewrite (Hwf _ _ Evs)|].
      exists (fill (Str "N") c). rewrite list_lookup_fmap, Hc. simpl.
      split; [done|]. split; [|eauto].
      unfold fill. by destruct (isna c) eqn:E.
    - exists (Str "N"). rewrite lookup_replicate_2 by done. done. }
  exists flag. rewrite !Hout by done. unfold cell_at. rewrite Hs, His, Hidx. simpl.
  rewrite (row_at_seq 0 n _ i Hlt), (row_at_seq 0 n _ i Hlt).
  rewrite list_lookup_fmap, Hflag. simpl. unfold indicator.
  split; [done|]. split; [by destruct (eq_str flag "Y")|]. done.
Qed.

End Loader.
End CrimeSpec.

(** ** The crime loader on the sample files *)

Module CrimeExamples.
Import Crime CrimeSpec.

Ltac table_is_well_formed :=
  unfold wf_table; refine (bool_decide_unpack _ _); vm_compute; exact I.

Lemma explicit_no_flag_is_rejected_witness :
  load_data decimal_number saturate flagged_no = None.
Proof.
  apply (explicit_no_flag_is_rejected decimal_number saturate 1 flagged_cols [Str "N"]).
  - by_evaluation.
  - apply list_elem_of_here.
Defined.

Lemma crime_loader_fails_soft_witness :
  load_data decimal_number saturate undated = None /\
  main decimal_number saturate (Some undated) None = Stopped prompt.
Proof.
  apply (crime_loader_fails_soft decimal_number saturate (Some undated) None undated).
  - left. reflexivity.
  - right. left. exists 1%nat, undated_cols, "OCCURRED_ON_DATE".
    split; [reflexivity|]. split; [by_evaluation|]. left. reflexivity.
Defined.

Lemma unlocated_rows_are_dropped_witness :
  (exists out, load_data decimal_number saturate sample = Some out /\
     (1%nat ∉ index out) /\ (forall col, cell_at out col 1 = None)) /\
  (exists out, load_data decimal_number saturate text_lat = Some out /\
     0%nat ∈ index out).
Proof.
  split.
  - eexists. split; [by_evaluation|].
    refine (proj1 (unlocated_rows_are_dropped decimal_number saturate 5 sample_cols _
                     sample_lat sample_long 1 (Float (-1)) (Float (-1)) _ _ _ _ _) _);
      by_evaluation.
  - eexists. split; [by_evaluation|].
    refine (proj2 (unlocated_rows_are_dropped decimal_number saturate 3 text_lat_cols _
                     [Str "0"; Str "-1"; Str "north"] (replicate 3 (Float (-71)%float))
                     0 (Str "0") (Float (-71)) _ _ _ _ _) "0" _ _ _);
      first [by_evaluation | lia].
Defined.

Lemma retained_rows_are_located_witness :
  exists out, load_data decimal_number saturate sample = Some out /\
    exists la lo, cell_at out "Lat" 4 = Some la /\ cell_at out "Long" 4 = Some lo /\
      isna la = false /\ isna lo = false /\
      eq_int la 0 = false /\ eq_int la (-1) = false /\
      (forall z, la = Int z -> z <> 0 /\ z <> -1).
Proof.
  eexists. split; [by_evaluation|].
  apply (retained_rows_are_located decimal_number saturate sample).
  - by_evaluation.
  - vm_compute. apply list_elem_of_further, list_elem_of_here.
Defined.

(** C3 (as stated) fails: the Lat fields of the first two rows are 0 and
    -1, the third is no number, so the column is text, no cell equals a
    number, and the loader keeps all three rows. *)
Lemma text_latitude_is_retained :
  exists out,
    (forall parse_number cast_overflow,
       load_data parse_number cast_overflow text_lat = Some out) /\
    text_lat_cols !! "Lat" = Some [Str "0"; Str "-1"; Str "north"] /\
    index out = [0; 1; 2]%nat /\
    cell_at out "Lat" 0 = Some (Str "0") /\ cell_at out "Lat" 1 = Some (Str "-1").
Proof.
  eexists. split; [intros; by_evaluation|]. repeat split; by_evaluation.
Qed.

(** C4 (as stated) fails: row 4 of the sample has longitude -1 and latitude
    42.25, and the loader keeps it. *)
Lemma sentinel_longitude_is_retained :
  exists out,
    (forall parse_number cast_overflow,
       load_data parse_number cast_overflow sample = Some out) /\
    4%nat ∈ index out /\
    cell_at out "Long" 4 = Some (Float (-1)%float) /\
    eq_int (Float (-1)%float) (-1) = true.
Proof.
  eexists. split; [intros; by_evaluation|]. split.
  - vm_compute. apply list_elem_of_further, list_elem_of_here.
  - split; by_evaluation.
Qed.


Lemma hour_is_an_integer_witness :
  exists out, load_data decimal_number saturate sample = Some out /\
    exists z, cell_at out "HOUR" 0 = Some (Int z) /\
      (sample_cols !! "HOUR" = None -> (0 <= z <= 23)).
Proof.
  eexists. split; [by_evaluation|].
  apply (hour_is_an_integer decimal_number saturate 5 sample_cols).
  - table_is_well_formed.
  - by_evaluation.
  - vm_compute. apply list_elem_of_here.
Defined.

(** C9 (as stated) fails: an HOUR field of 99 is kept as it is. *)
Lemma hour_99_is_retained :
  exists out,
    (forall parse_number cast_overflow,
       load_data parse_number cast_overflow late_hour = Some out) /\
    0%nat ∈ index out /\ cell_at out "HOUR" 0 = Some (Int 99).
Proof.
  eexists. split; [intros; by_evaluation|]. split.
  - vm_compute. apply list_elem_of_here.
  - by_evaluation.
Qed.

Lemma shooting_indicator_witness :
  exists out, load_data decimal_number saturate sample = Some out /\
    exists flag, cell_at out "SHOOTING" 4 = Some flag /\
      cell_at out "Is_Shooting" 4 = Some (Int (if eq_str flag "Y" then 1 else 0)) /\
      isna flag = false /\
      match sample_cols !! "SHOOTING" with
      | Some vs => exists c, vs !! 4%nat = Some c /\ flag = (if isna c then Str "N" else c)
      | None => flag = Str "N"
      end.
Proof.
  eexists. split; [by_evaluation|].
  apply (shooting_indicator decimal_number saturate 5 sample_cols).
  - table_is_well_formed.
  - by_evaluation.
  - vm_compute. apply list_elem_of_further, list_elem_of_here.
Defined.

End CrimeExamples.

(** * The movie loader *)

Module MovieSpec.
Import Movie.

Lemma append_nil_l (s : string) : (EmptyString ++ s)%string = s.
Proof. reflexivity. Qed.

Lemma append_cons c (s t : string) : (String c s ++ t)%string = String c (s ++ t)%string.
Proof. reflexivity. Qed.

Lemma append_nil_r (s : string) : (s ++ EmptyString)%string = s.
Proof. induction s as [|c s IH]; [done|]. by rewrite append_cons, IH. Qed.

Lemma append_assoc (a b c : string) : ((a ++ b) ++ c)%string = (a ++ (b ++ c))%string.
Proof. induction a as [|x a IH]; [done|]. by rewrite !append_cons, IH. Qed.

(** ** Reading back what [repr] wrote *)

Lemma scan_body q acc items s rest :
  forallb plain_char (list_ascii_of_string s) = true ->
  contains q s = false ->
  scan (InStr q acc) items (s ++ String q rest)%string =
  scan AfterItem (items ++ [(acc ++ s)%string]) rest.
Proof.
  revert acc. induction s as [|c s IH]; intros acc Hplain Hq.
  - rewrite append_nil_r, append_nil_l. simpl. by rewrite Ascii.eqb_refl.
  - rewrite append_cons. simpl. unfold contains in Hq. simpl in Hq, Hplain.
    apply orb_false_iff in Hq as [Hc Hq]. apply andb_true_iff in Hplain as [Hp Hplain].
    rewrite Ascii.eqb_sym, Hc, Hp. rewrite IH by done.
    by rewrite append_assoc.
Qed.

Lemma quote_for_is_quote s : is_quote (quote_for s) = true /\ is_space (quote_for s) = false.
Proof. unfold quote_for. by destruct (_ && _). Qed.

Lemma quote_for_fresh s : plain_text s = true -> contains (quote_for s) s = false.
Proof.
  unfold plain_text, quote_for. intros [_ H]%andb_true_iff.
  destruct (contains "'" s) eqn:E1, (contains double_quote s) eqn:E2; simpl in *; done.
Qed.

Lemma plain_text_chars s :
  plain_text s = true -> forallb plain_char (list_ascii_of_string s) = true.
Proof. unfold plain_text. by intros [? _]%andb_true_iff. Qed.

Lemma scan_item items s rest :
  plain_text s = true ->
  scan Expect items (repr_str s ++ rest)%string = scan AfterItem (items ++ [s]) rest.
Proof.
  intros Hs. unfold repr_str. rewrite append_cons, append_assoc, append_cons, append_nil_l.
  simpl. destruct (quote_for_is_quote s) as [-> ->].
  rewrite scan_body by auto using plain_text_chars, quote_for_fresh. done.
Qed.

Lemma scan_items l items :
  Forall (fun s => plain_text s = true) l ->
  scan Expect items (repr_items l ++ "]")%string = Some (Ok (str_list (items ++ l))).
Proof.
  intros Hl. revert items. induction Hl as [|s l Hs Hl IH]; intros items.
  - simpl. by rewrite app_nil_r.
  - destruct l as [|s' l].
    + simpl repr_items. rewrite scan_item by done. by simpl.
    + change (repr_items (s :: s' :: l))
        with (repr_str s ++ ", " ++ repr_items (s' :: l))%string.
      rewrite !append_assoc. rewrite scan_item by done.
      rewrite !append_cons, append_nil_l. simpl scan.
      rewrite IH. by rewrite <- app_assoc.
Qed.

(** The fragment raises nothing but [SyntaxError]. *)
Lemma scan_raises s st items e : scan st items s = Some (Raise e) -> e = SyntaxError.
Proof.
  revert st items. induction s as [|c s IH]; intros st items H.
  - destruct st; simpl in H; congruence.
  - destruct st; simpl in H;
      repeat match type of H with
             | (if ?b then _ else _) = _ => destruct b
             end; try discriminate; eauto.
Qed.

Lemma literal_eval_raises s e : literal_eval s = Some (Raise e) -> e = SyntaxError.
Proof.
  unfold literal_eval. intros H.
  assert (forall t, (fun z => Ok (Atom (Int z))) <$> int_literal t
                    = Some (Raise e) -> False) as Hint.
  { intros t Ht. destruct (int_literal t); simpl in Ht; congruence. }
  destruct s as [|c s]; [by destruct (Hint _ H)|].
  destruct (Ascii.eqb_spec c "["%char) as [->|Hne].
  - by apply scan_raises in H.
  - exfalso. destruct c as [[] [] [] [] [] [] [] []]; try (by apply (Hint _ H)).
    by destruct Hne.
Qed.

(** [eval(repr(l)) == l] for a list of plain texts. *)
Lemma literal_eval_repr l :
  Forall (fun s => plain_text s = true) l ->
  literal_eval (py_repr l) = Some (Ok (str_list l)).
Proof.
  intros Hl. unfold py_repr. rewrite append_cons, append_nil_l. simpl.
  by rewrite scan_items.
Qed.

Section Loader.
Variable eval_other : string -> result obj.

#[local] Abbreviation py_eval := (Movie.py_eval eval_other).
#[local] Abbreviation eval_cell := (Movie.eval_cell eval_other).
#[local] Abbreviation decode_column := (Movie.decode_column eval_other).
#[local] Abbreviation load_data := (Movie.load_data eval_other).

Lemma py_eval_repr l :
  Forall (fun s => plain_text s = true) l -> py_eval (py_repr l) = Ok (str_list l).
Proof. intros Hl. unfold Movie.py_eval. by rewrite literal_eval_repr. Qed.

Lemma eval_cell_not_text v : is_str v = false -> eval_cell v = Raise TypeError.
Proof. by destruct v as [[| | | |s|]|]. Qed.

Lemma eval_cell_unfinished s e :
  literal_eval s = Some (Raise e) -> eval_cell (text s) = Raise SyntaxError.
Proof.
  intros H. simpl. unfold Movie.py_eval. rewrite H.
  by rewrite (literal_eval_raises s e H).
Qed.

(** What one decoding step does to each column. *)
Lemma decode_column_inv col df df' :
  decode_column col df = Ok df' ->
  (forall c, c <> col -> df' !! c = df !! c) /\
  match df !! col with
  | None => df' = df
  | Some [] => False
  | Some (v :: vs) =>
      if is_str v
      then exists vs', traverse eval_cell (v :: vs) = Ok vs' /\ df' = <[col := vs']> df
      else df' = df
  end.
Proof.
  unfold Movie.decode_column. intros H.
  destruct (df !! col) as [[|v vs]|] eqn:E; simpl in H; try discriminate.
  - destruct (is_str v).
    + apply bind_Ok in H as (vs' & Hvs' & H). injection H as <-.
      split; [|eauto]. intros c Hne. by rewrite lookup_insert_ne.
    + injection H as <-. done.
  - injection H as <-. done.
Qed.

Lemma decode_column_rows col df df' :
  decode_column col df = Ok df' ->
  forall c, length <$> df' !! c = length <$> df !! c.
Proof.
  intros H c. destruct (decode_column_inv _ _ _ H) as [Hother Hcol].
  destruct (decide (c = col)) as [->|Hne]; [|by rewrite Hother].
  destruct (df !! col) as [[|v vs]|] eqn:E; [done| |subst; by rewrite E].
  destruct (is_str v); [|subst; by rewrite E].
  destruct Hcol as (vs' & Hvs' & ->). rewrite lookup_insert_eq. simpl.
  by rewrite (traverse_length _ _ _ Hvs').
Qed.

Lemma decode_column_raises col df v0 vs v e :
  df !! col = Some (v0 :: vs) -> is_str v0 = true ->
  v ∈ v0 :: vs -> eval_cell v = Raise e ->
  exists e', decode_column col df = Raise e'.
Proof.
  intros Hcol Hstr Hin He.
  destruct (traverse_raise eval_cell (v0 :: vs) v e Hin He) as [e' He'].
  unfold Movie.decode_column. rewrite Hcol. cbn -[traverse].
  rewrite Hstr, He'. eauto.
Qed.

(** An exception of one decoding step is the [IndexError] of [.iloc[0]] or
    an exception of [eval] on a cell of the column. *)
Lemma decode_column_raised col df e :
  decode_column col df = Raise e ->
  e = IndexError \/
  exists cells v, df !! col = Some cells /\ v ∈ cells /\ eval_cell v = Raise e.
Proof.
  unfold Movie.decode_column. intros H.
  destruct (df !! col) as [[|v0 vs]|]; cbn -[traverse] in H;
    [left; congruence| |discriminate].
  destruct (is_str v0); [|discriminate].
  destruct (traverse eval_cell (v0 :: vs)) as [vs'|e'] eqn:E; cbn -[traverse] in H;
    [discriminate|].
  injection H as ->. right. destruct (traverse_raised eval_cell _ _ E) as (v & Hv & Hev). eauto.
Qed.

Lemma decode_column_zero_rows col df :
  map_Forall (fun _ vs => vs = []) df ->
  decode_column col df =
  match df !! col with Some _ => Raise IndexError | None => Ok df end.
Proof.
  intros Hz. unfold Movie.decode_column.
  destruct (df !! col) as [vs|] eqn:E; [|done]. by rewrite (Hz _ _ E).
Qed.

Lemma movie_load_data_inv file out :
  load_data file = Ok out ->
  exists df df1 df2, parse file = Ok df /\
    decode_column "castList" df = Ok df1 /\
    decode_column "directorList" df1 = Ok df2 /\
    decode_column "genreList" df2 = Ok out.
Proof.
  unfold Movie.load_data. intros H.
  apply bind_Ok in H as (df & Hdf & H). apply bind_Ok in H as (df1 & H1 & H).
  apply bind_Ok in H as (df2 & H2 & H). apply bind_Ok in H as (df3 & H3 & H).
  injection H as <-. eauto 10.
Qed.

(** A column of the parsed frame, after the load. *)
Lemma load_data_column file df out col :
  parse file = Ok df -> load_data file = Ok out -> col ∈ list_columns ->
  match df !! col with
  | None => out !! col = None
  | Some [] => False
  | Some (v :: vs) =>
      if is_str v
      then exists vs', traverse eval_cell (v :: vs) = Ok vs' /\ out !! col = Some vs'
      else out !! col = Some (v :: vs)
  end.
Proof.
  intros Hdf Hload Hcol.
  destruct (movie_load_data_inv _ _ Hload) as (df' & df1 & df2 & Hdf' & H1 & H2 & H3).
  rewrite Hdf in Hdf'. injection Hdf' as <-.
  destruct (decode_column_inv _ _ _ H1) as [O1 C1].
  destruct (decode_column_inv _ _ _ H2) as [O2 C2].
  destruct (decode_column_inv _ _ _ H3) as [O3 C3].
  assert (forall (d d' : gmap string (list obj)) c,
             match d !! c with
             | None => d' = d
             | Some [] => False
             | Some (v :: vs) =>
                 if is_str v
                 then exists vs', traverse eval_cell (v :: vs) = Ok vs' /\ d' = <[c := vs']> d
                 else d' = d
             end ->
             match d !! c with
             | None => d' !! c = None
             | Some [] => False
             | Some (v :: vs) =>
                 if is_str v
                 then exists vs', traverse eval_cell (v :: vs) = Ok vs' /\ d' !! c = Some vs'
                 else d' !! c = Some (v :: vs)
             end) as Hstep.
  { intros d d' c H. destruct (d !! c) as [[|v vs]|] eqn:E; [done| |by subst].
    destruct (is_str v); [|by subst].
    destruct H as (vs' & Hvs' & ->). exists vs'. by rewrite lookup_insert_eq. }
  apply Hstep in C1, C2, C3.
  repeat (apply elem_of_cons in Hcol as [->|Hcol]).
  - rewrite O3, O2 by done. exact C1.
  - rewrite O3 by done. rewrite O1 in C2 by done. exact C2.
  - rewrite O2, O1 in C3 by done. exact C3.
  - by apply elem_of_nil in Hcol.
Qed.

(** C10. A parsed frame without rows that has one of the three list-valued
    columns makes [load_data] raise the [IndexError] of [.iloc[0]]: no frame,
    not even an empty one, is returned. *)
Theorem empty_dataset_raises file df :
  parse file = Ok df ->
  map_Forall (fun _ vs => vs = []) df ->
  (exists col, col ∈ list_columns /\ is_Some (df !! col)) ->
  load_data file = Raise IndexError.
Proof.
  intros Hdf Hz (col & Hcol & Hsome). unfold Movie.load_data. rewrite Hdf. simpl.
  rewrite decode_column_zero_rows by done.
  destruct (df !! "castList") eqn:E1; [done|]. simpl.
  rewrite decode_column_zero_rows by done.
  destruct (df !! "directorList") eqn:E2; [done|]. simpl.
  rewrite decode_column_zero_rows by done.
  destruct (df !! "genreList") eqn:E3; [done|]. exfalso.
  repeat (apply elem_of_cons in Hcol as [->|Hcol]);
    try (by apply elem_of_nil in Hcol);
    destruct Hsome as [x Hx]; congruence.
Qed.

(** C5 (amended). Fail-fast: an error of the chosen parser is the error of
    the load; when a list-valued column is present and its first value is
    text, a value of that column on which [eval] raises makes the load
    raise, and the exception of the load is that of [eval] on a cell of a
    list-valued column (or the [IndexError] of an empty column); [eval]
    raises [TypeError] on a value that is not text and [SyntaxError] on a
    text that ends inside a bracket or a string literal; and a load that
    returns a frame has kept every row of every column.  (A column whose
    first value is not text is left as it is, whatever its other texts.) *)
Theorem movie_loader_fails_fast file :
  (forall e, parse file = Raise e -> load_data file = Raise e) /\
  (forall df col v0 vs v e,
     parse file = Ok df -> col ∈ list_columns ->
     df !! col = Some (v0 :: vs) -> is_str v0 = true ->
     v ∈ v0 :: vs -> eval_cell v = Raise e ->
     exists e', load_data file = Raise e' /\
       (e' = IndexError \/
        exists col' cells v',
          col' ∈ list_columns /\ df !! col' = Some cells /\ v' ∈ cells /\
          eval_cell v' = Raise e')) /\
  (forall v, is_str v = false -> eval_cell v = Raise TypeError) /\
  (forall s e, literal_eval s = Some (Raise e) -> eval_cell (text s) = Raise SyntaxError) /\
  (forall df out,
     parse file = Ok df -> load_data file = Ok out ->
     forall col, length <$> out !! col = length <$> df !! col).
Proof.
  split; [|split; [|split; [|split]]].
  - intros e He. unfold Movie.load_data. by rewrite He.
  - intros df col v0 vs v e Hdf Hcol Hlook Hstr Hin Hbad.
    destruct (load_data file) as [out|e'] eqn:Hload.
    { exfalso.
      pose proof (load_data_column file df out col Hdf Hload Hcol) as H.
      rewrite Hlook, Hstr in H. destruct H as (vs' & Hvs' & _).
      destruct (traverse_raise eval_cell (v0 :: vs) v e Hin Hbad) as [e' He'].
      congruence. }
    exists e'. split; [done|].
    assert ("castList" ∈ list_columns) as Hc by apply list_elem_of_here.
    assert ("directorList" ∈ list_columns) as Hd
      by apply list_elem_of_further, list_elem_of_here.
    assert ("genreList" ∈ list_columns) as Hg
      by apply list_elem_of_further, list_elem_of_further, list_elem_of_here.
    unfold Movie.load_data in Hload. rewrite Hdf in Hload. simpl in Hload.
    destruct (decode_column "castList" df) as [df1|e1] eqn:E1.
    2: { simpl in Hload. injection Hload as <-.
         destruct (decode_column_raised _ _ _ E1) as [?|(cells & v' & ? & ? & ?)];
           [by left|right; eauto 10]. }
    destruct (decode_column_inv _ _ _ E1) as [O1 _]. simpl in Hload.
    destruct (decode_column "directorList" df1) as [df2|e2] eqn:E2.
    2: { simpl in Hload. injection Hload as <-.
         destruct (decode_column_raised _ _ _ E2) as [?|(cells & v' & Hl & ? & ?)];
           [by left|right]. rewrite O1 in Hl by done. eauto 10. }
    destruct (decode_column_inv _ _ _ E2) as [O2 _]. simpl in Hload.
    destruct (decode_column "genreList" df2) as [df3|e3] eqn:E3; [discriminate|].
    simpl in Hload. injection Hload as <-.
    destruct (decode_column_raised _ _ _ E3) as [?|(cells & v' & Hl & ? & ?)];
      [by left|right]. rewrite O2, O1 in Hl by done. eauto 10.
  - apply eval_cell_not_text.
  - apply eval_cell_unfinished.
  - intros df out Hdf Hload col.
    destruct (movie_load_data_inv _ _ Hload) as (df' & df1 & df2 & Hdf' & H1 & H2 & H3).
    rewrite Hdf in Hdf'. injection Hdf' as <-.
    rewrite (decode_column_rows _ _ _ H3), (decode_column_rows _ _ _ H2).
    apply (decode_column_rows _ _ _ H1).
Qed.


(** ** One dataset as a delimited file and as a JSON array *)

Lemma forallb_plain l :
  forallb plain_text l = true -> Forall (fun s => plain_text s = true) l.
Proof.
  induction l as [|s l IH]; simpl; [constructor|].
  intros [? ?]%andb_true_iff. constructor; auto.
Qed.

Lemma traverse_texts ls :
  forallb (forallb plain_text) ls = true ->
  traverse eval_cell (texts_column ls) = Ok (lists_column ls).
Proof.
  unfold texts_column, lists_column.
  induction ls as [|l ls IH]; [done|]. cbn [forallb map].
  intros [Hl Hls]%andb_true_iff. cbn [traverse]. rewrite IH by done.
  cbn [text Movie.eval_cell]. by rewrite py_eval_repr by by apply forallb_plain.
Qed.

Section Formats.
Variables from_csv from_json : gmap string (list obj).
Hypothesis Hsame : same_records from_csv from_json.

(** One decoding step on the frame of the delimited file puts the column of
    the JSON frame in place. *)
Lemma decode_csv_column col F :
  col ∈ list_columns -> F !! col = from_csv !! col ->
  exists F', decode_column col F = Ok F' /\
    F' !! col = from_json !! col /\ (forall c, c <> col -> F' !! c = F !! c).
Proof using Hsame.
  intros Hcol HF. pose proof (Hsame col) as H.
  rewrite bool_decide_eq_true_2 in H by done.
  unfold Movie.decode_column. rewrite HF.
  destruct (from_json !! col) as [vs|].
  - destruct H as (ls & Hplain & -> & ->).
    destruct ls as [|l ls]; [discriminate|]. simpl in Hplain.
    pose proof (traverse_texts (l :: ls) Hplain) as Htr.
    cbn -[traverse] in *. rewrite Htr. simpl. eexists. split; [done|]. split.
    + by rewrite lookup_insert_eq.
    + intros c Hne. by rewrite lookup_insert_ne.
  - rewrite H. exists F. split; [done|]. split; [by rewrite HF|done].
Qed.

Lemma decode_json_column col :
  col ∈ list_columns -> decode_column col from_json = Ok from_json.
Proof using Hsame.
  intros Hcol. pose proof (Hsame col) as H.
  rewrite bool_decide_eq_true_2 in H by done.
  unfold Movie.decode_column. destruct (from_json !! col) as [vs|]; [|done].
  destruct H as (ls & Hplain & -> & _). by destruct ls as [|l ls].
Qed.


End Formats.

End Loader.

(** ** The movie loader on the sample files *)

(** C5 (as stated) fails: the cast list of the second row is cut short, and
    the load returns the frame with that text in place, because the first
    cast list is missing. *)
Lemma cut_short_text_is_loaded :
  literal_eval "['A'" = Some (Raise SyntaxError) /\
  (forall eval_other, Movie.load_data eval_other gap_upload = Ok gap_frame) /\
  gap_frame !! "castList" = Some [Atom NA; text "['A'"].
Proof. split; [by_evaluation|]. split; [intros; by_evaluation|by_evaluation]. Qed.

Lemma movie_loader_fails_fast_witness :
  Movie.load_data always_fails broken_upload = Raise SyntaxError /\
  exists e', Movie.load_data always_fails broken_upload = Raise e' /\
    (e' = IndexError \/
     exists col' cells v',
       col' ∈ list_columns /\ broken_frame !! col' = Some cells /\ v' ∈ cells /\
       Movie.eval_cell always_fails v' = Raise e').
Proof.
  split; [by_evaluation|].
  destruct (movie_loader_fails_fast always_fails broken_upload) as (_ & Hbad & _).
  apply (Hbad broken_frame "castList" (text "['A', 'B']") [text "['C'"] (text "['C'")
           SyntaxError).
  - by_evaluation.
  - apply list_elem_of_here.
  - by_evaluation.
  - reflexivity.
  - apply list_elem_of_further, list_elem_of_here.
  - by_evaluation.
Defined.




Lemma tidy_same_records : same_records tidy_csv tidy_json.
Proof.
  intros col.
  destruct (decide (col = "castList")) as [->|Nc].
  { exists [["Al Pacino"; "Robert De Niro"]; []]. repeat split; by_evaluation. }
  destruct (decide (col = "genreList")) as [->|Ng].
  { exists [["Crime"]; ["Animation"; "Adventure"]]. repeat split; by_evaluation. }
  destruct (decide (col = "directorList")) as [->|Nd]; [by_evaluation|].
  rewrite bool_decide_eq_false_2.
  2: { unfold list_columns. rewrite !elem_of_cons, elem_of_nil.
       intros [?|[?|[?|[]]]]; done. }
  unfold tidy_csv, tidy_json. cbn [list_to_map foldr uncurry fst snd].
  destruct (decide (col = "title")) as [->|Nt]; [by_evaluation|].
  destruct (decide (col = "year")) as [->|Ny]; [by_evaluation|].
  by rewrite !lookup_insert_ne, !lookup_empty by done.
Qed.


Lemma empty_dataset_raises_witness :
  Movie.load_data always_fails header_only_upload = Raise IndexError.
Proof.
  apply (empty_dataset_raises always_fails header_only_upload header_only).
  - by_evaluation.
  - refine (bool_decide_unpack _ _). vm_compute. exact I.
  - exists "castList". split; [apply list_elem_of_here|]. eexists. by_evaluation.
Defined.

End MovieSpec.

(** * More about the crime loader *)

Module CrimeMore.
Import Crime CrimeChecks CrimeSpec.

Lemma In_distinct (l : list cell) x : In x (distinct l) -> In x l.
Proof.
  induction l as [|c l IH]; simpl; [done|].
  intros [->|H]; [by left|]. right. apply IH. by apply filter_In in H as [? _].
Qed.

Lemma no_label_no_category vs t :
  existsb (fun c => eq_str c t) vs = false ->
  existsb (cell_eqb (Str t)) (distinct (List.filter notna vs)) = false.
Proof.
  apply existsb_subset. intros x Hx. apply In_distinct in Hx.
  by apply filter_In in Hx as [? _].
Qed.

Lemma normalize_shooting_total df :
  (forall s, columns df !! "SHOOTING" = Some s ->
     exists cats, categories s = Some cats /\
       existsb (cell_eqb (Str "N")) cats = false) ->
  exists df1, normalize_shooting df = Ok df1.
Proof.
  intros Hs. unfold normalize_shooting.
  destruct (has_column df "SHOOTING") eqn:Hc; [|eauto].
  apply has_column_true in Hc as [s Hcol].
  destruct (Hs s Hcol) as (cats & Hcats & Hno).
  unfold getitem. rewrite Hcol. simpl. unfold add_categories. rewrite Hcats, Hno.
  simpl. unfold fillna. simpl. rewrite existsb_app. simpl.
  rewrite orb_true_r. simpl. eauto.
Qed.

Section Loader.
Variable parse_number : string -> option number.
Variable cast_overflow : float -> Z.

#[local] Abbreviation astype_int_cell := (Crime.astype_int_cell cast_overflow).
#[local] Abbreviation to_numeric_cell := (Crime.to_numeric_cell parse_number).
#[local] Abbreviation coerced_hour := (Crime.coerced_hour parse_number cast_overflow).
#[local] Abbreviation fix_hour := (Crime.fix_hour parse_number cast_overflow).
#[local] Abbreviation derive_is_shooting := (Crime.derive_is_shooting cast_overflow).
#[local] Abbreviation load_data_body := (Crime.load_data_body parse_number cast_overflow).
#[local] Abbreviation load_data := (Crime.load_data parse_number cast_overflow).
#[local] Abbreviation castable := (CrimeChecks.castable parse_number).
#[local] Abbreviation hours_ok := (CrimeChecks.hours_ok parse_number).
#[local] Abbreviation accepted := (CrimeChecks.accepted parse_number).

Lemma to_numeric_cell_not_text c s : to_numeric_cell c <> Str s.
Proof.
  destruct c as [|z|f|b|t|ns]; simpl; try done.
  destruct (decimal_text t); [done|]. by destruct (parse_number t) as [[?|?]|].
Qed.

Lemma castable_iff c : castable c = is_ok (coerced_hour c).
Proof.
  unfold CrimeChecks.castable, Crime.coerced_hour, fill.
  pose proof (to_numeric_cell_not_text c) as Hnt.
  destruct (to_numeric_cell c) as [|z|f|b|t|ns]; simpl; try done.
  - destruct (PrimFloat.is_nan f); simpl; [done|].
    by destruct (float_trunc f) as [z|].
  - by destruct (Hnt t).
Qed.

Lemma derive_is_shooting_total df :
  is_Some (columns df !! "SHOOTING") -> exists df2, derive_is_shooting df = Ok df2.
Proof.
  intros [s Hs]. unfold Crime.derive_is_shooting, getitem. rewrite Hs. simpl.
  unfold Crime.astype_int, eq_scalar. cbn -[traverse].
  rewrite (astype_int_flags cast_overflow). simpl. eauto.
Qed.

Lemma fix_hour_dates df df3 :
  fix_hour df = Ok df3 -> columns df !! "HOUR" = None ->
  exists d, columns df !! "OCCURRED_ON_DATE" = Some d /\ values d <> [].
Proof.
  unfold Crime.fix_hour, has_column. intros H Hnone. rewrite Hnone in H.
  rewrite bool_decide_eq_false_2 in H by (by intros [? ?]).
  apply bind_Ok in H as (d & Hd & H). apply getitem_Ok in Hd.
  apply bind_Ok in H as (s2 & Hs2 & _). exists d. split; [done|].
  unfold dt_hour in Hs2. by destruct (values d).
Qed.

Lemma fix_hour_total df :
  match columns df !! "HOUR" with
  | Some s => forallb castable (values s) = true
  | None => exists d, columns df !! "OCCURRED_ON_DATE" = Some d /\
      values d <> [] /\ forallb is_time (values d) = true
  end ->
  exists df3, fix_hour df = Ok df3.
Proof.
  intros H. unfold Crime.fix_hour.
  destruct (columns df !! "HOUR") as [s|] eqn:Hs.
  - unfold has_column, getitem. rewrite Hs.
    rewrite bool_decide_eq_true_2 by eauto. cbn -[traverse].
    destruct (traverse_exists astype_int_cell
                (map (fill (Int 0)) (map to_numeric_cell (values s)))) as [h Hh].
    { apply Forall_forall. intros y Hy%list_elem_of_In.
      apply in_map_iff in Hy as (x & <- & Hx). apply in_map_iff in Hx as (c & <- & Hc).
      rewrite forallb_forall in H. specialize (H c Hc).
      by rewrite castable_iff in H. }
    unfold Crime.astype_int. cbn -[traverse]. rewrite Hh. simpl. eauto.
  - destruct H as (d & Hd & Hne & Ht). unfold has_column, getitem. rewrite Hs, Hd.
    rewrite bool_decide_eq_false_2 by (by intros [? ?]). cbn -[traverse].
    unfold dt_hour. destruct (values d) as [|c0 cs] eqn:Ed; [done|].
    rewrite <- Ed in *. clear Ed c0 cs.
    assert (forallb is_datetime (values d) = true) as ->.
    { apply forallb_forall. intros c Hc. rewrite forallb_forall in Ht.
      specialize (Ht c Hc). by destruct c. }
    cbn -[traverse].
    destruct (traverse_exists astype_int_cell (map hour_cell (values d))) as [h Hh].
    { apply Forall_forall. intros y Hy%list_elem_of_In.
      apply in_map_iff in Hy as (c & <- & Hc).
      rewrite forallb_forall in Ht. specialize (Ht c Hc). by destruct c. }
    unfold Crime.astype_int. cbn -[traverse]. rewrite Hh. simpl. eauto.
Qed.

Lemma coerce_lookup_values df col s :
  columns (coerce_categories df) !! col = Some s ->
  exists s0, columns df !! col = Some s0 /\ values s = values s0.
Proof.
  intros H. destruct (columns df !! col) as [s0|] eqn:E.
  - destruct (coerce_lookup_Some df col s0 E) as (s' & Hs' & Hv).
    exists s0. split; [done|]. congruence.
  - rewrite (coerce_lookup_None df col E) in H. discriminate.
Qed.

Lemma normalize_rejects_explicit_no n cols vs :
  cols !! "SHOOTING" = Some vs -> Str "N" ∈ vs ->
  normalize_shooting
    (coerce_categories (mkFrame (seq 0 n) (mkSeries None <$> cols))) = Raise ValueError.
Proof.
  intros Hvs Hin.
  destruct (explicit_label_is_a_category vs "N" Hin) as (cats & Hcats & Hex).
  unfold normalize_shooting, has_column, getitem.
  rewrite coerce_shooting. simpl. rewrite lookup_fmap, Hvs. simpl.
  unfold add_categories. by rewrite Hcats, Hex.
Qed.

(** The frame after lines 48-72: its columns, one by one. *)
Section Prepared.
Variables (n : nat) (cols : gmap string (list cell)) (df1 df2 df3 : DataFrame).
Hypothesis H1 :
  normalize_shooting
    (coerce_categories (mkFrame (seq 0 n) (mkSeries None <$> cols))) = Ok df1.
Hypothesis H2 : derive_is_shooting df1 = Ok df2.
Hypothesis H3 : fix_hour df2 = Ok df3.

Lemma prepared_lookup col :
  col <> "SHOOTING" -> col <> "Is_Shooting" -> col <> "HOUR" ->
  columns df3 !! col =
  columns (coerce_categories (mkFrame (seq 0 n) (mkSeries None <$> cols))) !! col.
Proof using H1 H2 H3.
  intros Hs His Hh.
  apply normalize_shooting_inv in H1 as (_ & Hc1 & _).
  apply derive_is_shooting_inv in H2 as (s & _ & ->).
  apply fix_hour_inv in H3 as (h & -> & _). simpl.
  rewrite !lookup_insert_ne by done. by apply Hc1.
Qed.

Lemma prepared_present col vs :
  col <> "SHOOTING" -> col <> "Is_Shooting" -> col <> "HOUR" ->
  cols !! col = Some vs ->
  exists s, columns df3 !! col = Some s /\ values s = vs.
Proof using H1 H2 H3.
  intros Hs His Hh Hcol. rewrite prepared_lookup by done.
  apply (coerce_lookup_Some (mkFrame (seq 0 n) (mkSeries None <$> cols)) col
           (mkSeries None vs)).
  simpl. by rewrite lookup_fmap, Hcol.
Qed.

Lemma prepared_column col s :
  columns df3 !! col = Some s ->
  col = "SHOOTING" \/ col = "Is_Shooting" \/ col = "HOUR" \/
  exists vs, cols !! col = Some vs /\ values s = vs.
Proof using H1 H2 H3.
  intros Hcol.
  destruct (decide (col = "SHOOTING")); [by left|].
  destruct (decide (col = "Is_Shooting")); [by right; left|].
  destruct (decide (col = "HOUR")); [by right; right; left|].
  right. right. right. rewrite prepared_lookup in Hcol by done.
  apply coerce_lookup_values in Hcol as (s0 & Hs0 & Hv). simpl in Hs0.
  rewrite lookup_fmap in Hs0. destruct (cols !! col) as [vs|]; [|discriminate].
  injection Hs0 as <-. eauto.
Qed.

Lemma prepared_lengths col s :
  wf_table n cols -> columns df3 !! col = Some s -> length (values s) = n.
Proof using H1 H2 H3.
  intros Hwf Hcol.
  destruct (prepared_shooting parse_number cast_overflow _ _ _ _ _ H1 H2 H3)
    as (s1 & Hs1 & His & Hv).
  assert (length (values s1) = n) as Hlen1.
  { rewrite Hv. destruct (cols !! "SHOOTING") as [vs|] eqn:E.
    - rewrite length_map. apply (Hwf _ _ E).
    - apply length_replicate. }
  destruct (prepared_hour parse_number cast_overflow _ _ _ _ _ H1 H2 H3)
    as (h & Hh & Hhour).
  assert (length h = n) as Hlenh.
  { destruct (cols !! "HOUR") as [hs|] eqn:E.
    - rewrite <- (Forall2_length _ _ _ Hhour). apply (Hwf _ _ E).
    - destruct Hhour as (d & Hd & HF). rewrite <- (Forall2_length _ _ _ HF).
      apply (Hwf _ _ Hd). }
  destruct (prepared_column col s Hcol) as [->|[->|[->|(vs & Hvs & Hval)]]].
  - congruence.
  - rewrite His in Hcol. injection Hcol as <-. simpl. by rewrite length_map.
  - rewrite Hh in Hcol. by injection Hcol as <-.
  - rewrite Hval. apply (Hwf _ _ Hvs).
Qed.

End Prepared.

(** The frame a load returns, as the prepared frame filtered twice. *)
Lemma loaded_shape n cols out :
  load_data (Table n cols) = Some out ->
  exists df1 df2 df3 lat long m1 m2,
    normalize_shooting
      (coerce_categories (mkFrame (seq 0 n) (mkSeries None <$> cols))) = Ok df1 /\
    derive_is_shooting df1 = Ok df2 /\ fix_hour df2 = Ok df3 /\
    index df3 = seq 0 n /\
    cols !! "Lat" = Some lat /\ cols !! "Long" = Some long /\
    m1 = zip_with andb (map notna lat)
           (zip_with andb (map notna long) (replicate n true)) /\
    m2 = zip_with andb (map (fun c => negb (eq_int c (-1))) (mask_filter m1 lat))
           (map (fun c => negb (eq_int c 0)) (mask_filter m1 lat)) /\
    out = ensure_description (filter_rows m2 (filter_rows m1 df3)).
Proof.
  intros Hload.
  apply (load_data_inv parse_number cast_overflow) in Hload
    as (n' & cols' & df1 & df2 & df3 & df4 & df5 & Hf & _ & H1 & H2 & H3 & H4 & H5 & ->).
  injection Hf as <- <-.
  pose proof (prepared_index parse_number cast_overflow _ _ _ _ _ H1 H2 H3) as Hidx.
  apply dropna_inv in H4 as (lat3 & long3 & Hlat3 & Hlong3 & ->).
  apply drop_sentinel_inv in H5 as (lat4 & Hlat4 & ->).
  destruct (prepared_column _ _ _ _ _ H1 H2 H3 _ _ Hlat3)
    as [?|[?|[?|(lat & Hlat & Hvlat)]]]; try discriminate.
  destruct (prepared_column _ _ _ _ _ H1 H2 H3 _ _ Hlong3)
    as [?|[?|[?|(long & Hlong & Hvlong)]]]; try discriminate.
  simpl in Hlat4. rewrite lookup_fmap, Hlat3 in Hlat4. simpl in Hlat4.
  injection Hlat4 as <-. unfold ne_scalar. simpl.
  rewrite Hidx, length_seq, Hvlat, Hvlong.
  exists df1, df2, df3, lat, long. eexists _, _. repeat split; try done.
Qed.

(** The loader returns a frame exactly for the accepted tables: the date
    column and both coordinate columns are there, no SHOOTING field is the
    text N, and the hour of every row can be computed (without an HOUR
    column that takes at least one data row, all of them dated). *)
Theorem load_succeeds_iff_accepted n cols :
  is_Some (load_data (Table n cols)) <-> accepted cols = true.
Proof.
  unfold CrimeChecks.accepted. split.
  - intros [out Hload].
    destruct (load_data_inv parse_number cast_overflow _ _ Hload)
      as (n' & cols' & df1 & df2 & df3 & df4 & df5 & Hf & Hdate & H1 & H2 & H3 & _).
    injection Hf as <- <-.
    destruct (loaded_shape n cols out Hload)
      as (_ & _ & _ & lat & long & _ & _ & _ & _ & _ & _ & Hlat & Hlong & _).
    rewrite !bool_decide_eq_true_2 by eauto. rewrite !andb_true_r. simpl.
    apply andb_true_iff. split.
    + unfold explicit_no. destruct (cols !! "SHOOTING") as [vs|] eqn:Evs; [|done].
      apply negb_true_iff. destruct (existsb _ vs) eqn:Ex; [|done]. exfalso.
      apply existsb_exists in Ex as (c & Hc & Hn).
      destruct c as [| | | |t|]; simpl in Hn; try discriminate.
      apply String.eqb_eq in Hn as ->. apply list_elem_of_In in Hc.
      rewrite (normalize_rejects_explicit_no n cols vs Evs Hc) in H1. discriminate.
    + destruct (prepared_hour parse_number cast_overflow _ _ _ _ _ H1 H2 H3)
        as (h & _ & Hhour).
      unfold CrimeChecks.hours_ok. destruct (cols !! "HOUR") as [hs|] eqn:Ehs.
      * apply forallb_forall. intros c Hc%list_elem_of_In.
        apply list_elem_of_lookup in Hc as [k Hk].
        destruct (Forall2_lookup_l _ _ _ _ _ Hhour Hk) as (x & _ & Hx).
        rewrite castable_iff. unfold Crime.coerced_hour in *. by rewrite Hx.
      * destruct Hhour as (d & Hd & HF).
        assert (d <> []) as Hne.
        { destruct (normalize_shooting_inv _ _ H1) as (_ & Hc1 & _).
          destruct (derive_is_shooting_inv cast_overflow _ _ H2) as (s2 & _ & Hdf2).
          destruct (fix_hour_dates df2 df3 H3) as (sd & Hsd & Hnil).
          { rewrite Hdf2. simpl. rewrite lookup_insert_ne by done.
            rewrite Hc1 by done. apply coerce_lookup_None. simpl.
            by rewrite lookup_fmap, Ehs. }
          rewrite Hdf2 in Hsd. simpl in Hsd. rewrite lookup_insert_ne in Hsd by done.
          rewrite Hc1 in Hsd by done.
          destruct (coerce_lookup_Some (mkFrame (seq 0 n) (mkSeries None <$> cols))
                      "OCCURRED_ON_DATE" (mkSeries None d)) as (s' & Hs' & Hv).
          { simpl. by rewrite lookup_fmap, Hd. }
          rewrite Hs' in Hsd. injection Hsd as <-. by rewrite Hv in Hnil. }
        rewrite Hd. destruct d as [|d0 d]; [done|]. apply forallb_forall.
        intros c Hc%list_elem_of_In. apply list_elem_of_lookup in Hc as [k Hk].
        destruct (Forall2_lookup_l _ _ _ _ _ HF Hk) as (x & _ & Hx).
        by destruct (derived_hour cast_overflow _ _ Hx) as (ns & -> & _).
  - intros H. apply andb_true_iff in H as [H Hlong].
    apply andb_true_iff in H as [H Hlat]. apply andb_true_iff in H as [H Hhours].
    apply andb_true_iff in H as [Hdate Hno].
    apply bool_decide_eq_true in Hlong as [long Hlong].
    apply bool_decide_eq_true in Hlat as [lat Hlat].
    apply negb_true_iff in Hno.
    set (df0 := mkFrame (seq 0 n) (mkSeries None <$> cols)).
    destruct (normalize_shooting_total (coerce_categories df0)) as [df1 H1].
    { intros s Hs. rewrite coerce_shooting in Hs. subst df0. simpl in Hs.
      rewrite lookup_fmap in Hs. unfold explicit_no in Hno.
      destruct (cols !! "SHOOTING") as [vs|]; [|discriminate].
      injection Hs as <-. eexists. split; [done|]. by apply no_label_no_category. }
    destruct (normalize_shooting_inv _ _ H1) as (_ & Hc1 & s1 & Hs1 & _).
    destruct (derive_is_shooting_total df1) as [df2 H2]; [eauto|].
    destruct (derive_is_shooting_inv cast_overflow _ _ H2) as (s & _ & Hdf2).
    assert (forall col, col <> "SHOOTING" -> col <> "Is_Shooting" ->
              columns df2 !! col = columns (coerce_categories df0) !! col) as Hc2.
    { intros col ? ?. rewrite Hdf2. simpl. rewrite lookup_insert_ne by done.
      by apply Hc1. }
    destruct (fix_hour_total df2) as [df3 H3].
    { rewrite !Hc2 by done. unfold CrimeChecks.hours_ok in Hhours.
      destruct (cols !! "HOUR") as [hs|] eqn:Ehs.
      - destruct (coerce_lookup_Some df0 "HOUR" (mkSeries None hs))
          as (s' & -> & ->); [|done]. subst df0. simpl. by rewrite lookup_fmap, Ehs.
      - rewrite (coerce_lookup_None df0 "HOUR")
          by (subst df0; simpl; by rewrite lookup_fmap, Ehs).
        destruct (cols !! "OCCURRED_ON_DATE") as [ds|] eqn:Eds; [|discriminate].
        destruct (coerce_lookup_Some df0 "OCCURRED_ON_DATE" (mkSeries None ds))
          as (s' & Hs' & Hv); [subst df0; simpl; by rewrite lookup_fmap, Eds|].
        exists s'. split; [done|]. rewrite Hv. simpl.
        destruct ds as [|d0 ds]; [discriminate|]. done. }
    destruct (prepared_present _ _ _ _ _ H1 H2 H3 "Lat" lat) as (lat3 & Hlat3 & _);
      try done.
    destruct (prepared_present _ _ _ _ _ H1 H2 H3 "Long" long) as (long3 & Hlong3 & _);
      try done.
    unfold Crime.load_data, Crime.load_data_body, read_csv.
    cbn [forallb]. rewrite Hdate.
    cbn [andb mbind result_bind]. fold df0. rewrite H1. simpl. rewrite H2. simpl. rewrite H3. simpl.
    unfold dropna, getitem. simpl. rewrite Hlat3, Hlong3. simpl.
    unfold drop_sentinel, getitem. simpl. rewrite lookup_fmap, Hlat3. simpl. eauto.
Qed.

(** A row of the table is a row of the returned frame exactly when latitude
    and longitude are there and the latitude does not compare equal to the
    number 0 or -1.  Nothing else decides whether a row is kept; a row whose
    latitude is text (the column was read as text) is kept whenever both
    fields are there, also when the text is 0 or -1. *)
Theorem kept_iff_located n cols out lat long i la lo :
  load_data (Table n cols) = Some out ->
  cols !! "Lat" = Some lat -> cols !! "Long" = Some long ->
  (i < n)%nat -> lat !! i = Some la -> long !! i = Some lo ->
  (i ∈ index out <-> unlocated la lo = false) /\
  (forall t, la = Str t -> (i ∈ index out <-> isna lo = false)).
Proof.
  intros Hload Hlat Hlong Hi Hla Hlo.
  assert (i ∈ index out <-> unlocated la lo = false) as Hiff; [|split; [done|]].
  2: { intros t ->. rewrite Hiff. unfold unlocated. simpl.
       rewrite !orb_false_r. done. }
  split.
  - intros Hin.
    destruct (loaded_rows parse_number cast_overflow n cols out i Hload Hin)
      as (_ & df3 & _ & _ & Hcols & (la' & lo' & Hla' & Hlo' & Hloc) & _).
    rewrite Hcols, Hlat, Hla in Hla' by done.
    rewrite Hcols, Hlong, Hlo in Hlo' by done. congruence.
  - intros Hloc.
    destruct (loaded_shape n cols out Hload)
      as (df1 & df2 & df3 & lat' & long' & m1 & m2 & H1 & H2 & H3 & Hidx
          & Hlat' & Hlong' & Hm1 & Hm2 & ->).
    rewrite Hlat in Hlat'. injection Hlat' as <-.
    rewrite Hlong in Hlong'. injection Hlong' as <-.
    unfold unlocated in Hloc. apply orb_false_iff in Hloc as [Hloc Hm].
    apply orb_false_iff in Hloc as [Hloc Hz]. apply orb_false_iff in Hloc as [Hna Hno].
    rewrite ensure_description_index. simpl. rewrite Hidx.
    assert (i ∈ seq 0 n) as Hseq by (apply elem_of_seq; lia).
    assert (row_at (seq 0 n) lat i = Some la) as Rla
      by (rewrite <- Hla; apply (row_at_seq 0 n lat i Hi)).
    assert (row_at (seq 0 n) long i = Some lo) as Rlo
      by (rewrite <- Hlo; apply (row_at_seq 0 n long i Hi)).
    assert (i ∈ mask_filter m1 (seq 0 n)) as Hin1.
    { apply row_at_mask_elem. rewrite Hm1.
      rewrite !row_at_zip_with, !row_at_map, Rla, Rlo.
      rewrite row_at_replicate by (rewrite ?length_seq; done). simpl.
      unfold notna. by rewrite Hna, Hno. }
    apply row_at_mask_elem. rewrite Hm2.
    rewrite row_at_zip_with, !row_at_map.
    rewrite row_at_mask_filter by (try apply NoDup_seq; done).
    rewrite Rla. simpl. by rewrite Hz, Hm.
Qed.

(** Lines 79-80: a description column the file has is left as it is, also
    where a field is missing; without one every retained row gets the text
    Unknown. *)
Theorem description_is_defaulted n cols out i :
  load_data (Table n cols) = Some out -> i ∈ index out ->
  cell_at out "OFFENSE_DESCRIPTION" i =
  match cols !! "OFFENSE_DESCRIPTION" with
  | Some vs => vs !! i
  | None => Some (Str "Unknown")
  end.
Proof.
  intros Hload Hin.
  destruct (loaded_rows parse_number cast_overflow n cols out i Hload Hin) as (Hlt & _).
  destruct (loaded_shape n cols out Hload)
    as (df1 & df2 & df3 & lat & long & m1 & m2 & H1 & H2 & H3 & Hidx & _ & _ & _ & _ & ->).
  rewrite ensure_description_index in Hin.
  set (df5 := filter_rows m2 (filter_rows m1 df3)) in *.
  assert (NoDup (index df3)) as Hnd by (rewrite Hidx; apply NoDup_seq).
  assert (forall col, cell_at df5 col i = cell_at df3 col i) as Hcells.
  { intros col. unfold df5. rewrite cell_at_filter_rows.
    - apply cell_at_filter_rows; [done|]. eapply elem_of_mask_filter, Hin.
    - by apply NoDup_mask_filter.
    - done. }
  unfold ensure_description.
  destruct (cols !! "OFFENSE_DESCRIPTION") as [vs|] eqn:E.
  - destruct (prepared_present _ _ _ _ _ H1 H2 H3 "OFFENSE_DESCRIPTION" vs)
      as (s & Hs & Hv); try done.
    assert (has_column df5 "OFFENSE_DESCRIPTION" = true) as ->.
    { unfold has_column, df5. simpl. by rewrite !lookup_fmap, Hs. }
    rewrite Hcells. unfold cell_at. rewrite Hs, Hv, Hidx.
    apply (row_at_seq 0 n vs i Hlt).
  - pose proof (prepared_missing parse_number cast_overflow _ _ _ _ _ H1 H2 H3
                  "OFFENSE_DESCRIPTION") as Hmiss.
    assert (has_column df5 "OFFENSE_DESCRIPTION" = false) as ->.
    { unfold has_column, df5. simpl. by rewrite !lookup_fmap, Hmiss. }
    unfold setitem_scalar. rewrite cell_at_setitem_eq. simpl.
    by apply row_at_replicate.
Qed.

Lemma loaded_column_names n cols out col :
  load_data (Table n cols) = Some out ->
  is_Some (columns out !! col) <-> col ∈ synthesized \/ is_Some (cols !! col).
Proof.
  intros Hload.
  destruct (loaded_shape n cols out Hload)
    as (df1 & df2 & df3 & lat & long & m1 & m2 & H1 & H2 & H3 & Hidx & _ & _ & _ & _ & ->).
  set (df5 := filter_rows m2 (filter_rows m1 df3)).
  assert (forall c, is_Some (columns df5 !! c) <-> is_Some (columns df3 !! c)) as H5.
  { intros c. unfold df5. simpl. rewrite !lookup_fmap.
    destruct (columns df3 !! c); simpl; split; intros [? ?]; eauto; discriminate. }
  assert (forall c, is_Some (columns df3 !! c) <->
            c = "SHOOTING" \/ c = "Is_Shooting" \/ c = "HOUR" \/ is_Some (cols !! c))
    as H3'.
  { intros c. split.
    - intros [s Hs].
      destruct (prepared_column _ _ _ _ _ H1 H2 H3 c s Hs)
        as [?|[?|[?|(vs & Hvs & _)]]]; eauto.
    - destruct (prepared_shooting parse_number cast_overflow _ _ _ _ _ H1 H2 H3)
        as (s1 & Hs1 & His & _).
      destruct (prepared_hour parse_number cast_overflow _ _ _ _ _ H1 H2 H3)
        as (h & Hh & _).
      intros [->|[->|[->|[vs Hvs]]]]; eauto.
      destruct (decide (c = "SHOOTING")) as [->|?]; [eauto|].
      destruct (decide (c = "Is_Shooting")) as [->|?]; [eauto|].
      destruct (decide (c = "HOUR")) as [->|?]; [eauto|].
      destruct (prepared_present _ _ _ _ _ H1 H2 H3 c vs) as (s & Hs & _); eauto. }
  unfold ensure_description, synthesized.
  rewrite !elem_of_cons, elem_of_nil.
  destruct (has_column df5 "OFFENSE_DESCRIPTION") eqn:Hc.
  - apply has_column_true in Hc as [s Hs].
    rewrite H5, H3'. split; [tauto|].
    intros [[->|[->|[->|[->|[]]]]]|?]; eauto.
    assert (is_Some (columns df5 !! "OFFENSE_DESCRIPTION")) as Hod by eauto.
    apply H5, H3' in Hod as [?|[?|[?|?]]]; try discriminate. eauto.
  - unfold setitem_scalar, setitem. cbn [columns].
    destruct (decide (col = "OFFENSE_DESCRIPTION")) as [->|Hne].
    + rewrite lookup_insert_eq. split; [intros _; left; tauto|eauto].
    + rewrite lookup_insert_ne by done. rewrite H5, H3'. split; [tauto|].
      intros [[->|[->|[->|[->|[]]]]]|?]; eauto. done.
Qed.

Lemma missing_column_raises_KeyError n cols out col :
  load_data (Table n cols) = Some out ->
  col ∉ synthesized -> cols !! col = None -> getitem out col = Raise KeyError.
Proof.
  intros Hload Hsyn Hnone. unfold getitem.
  destruct (columns out !! col) eqn:E; [|done].
  exfalso. destruct (loaded_column_names n cols out col Hload) as [Hiff _].
  destruct Hiff as [?|[? ?]]; [eauto|done|congruence].
Qed.

(** The columns of the returned frame are the columns of the file and the
    four the loader writes (SHOOTING, Is_Shooting, HOUR,
    OFFENSE_DESCRIPTION): no column is removed and no other is added, so
    a column the file lacks is still lacking and [df[col]] raises. *)
Theorem loaded_columns n cols out col :
  load_data (Table n cols) = Some out ->
  (is_Some (columns out !! col) <-> col ∈ synthesized \/ is_Some (cols !! col)) /\
  (col ∉ synthesized -> cols !! col = None -> getitem out col = Raise KeyError).
Proof.
  intros Hload. split.
  - by apply (loaded_column_names n).
  - by apply (missing_column_raises_KeyError n).
Qed.

(** The returned frame is well formed: its labels are rows of the table,
    none repeated, and every column has one cell per label. *)
Theorem loaded_frame_is_well_formed n cols out :
  wf_table n cols -> load_data (Table n cols) = Some out ->
  NoDup (index out) /\
  (forall i, i ∈ index out -> (i < n)%nat) /\
  (forall col s, columns out !! col = Some s ->
     length (values s) = length (index out)).
Proof.
  intros Hwf Hload.
  destruct (loaded_shape n cols out Hload)
    as (df1 & df2 & df3 & lat & long & m1 & m2 & H1 & H2 & H3 & Hidx & _ & _ & _ & _ & ->).
  rewrite ensure_description_index. simpl. rewrite Hidx.
  split; [by apply NoDup_mask_filter, NoDup_mask_filter, NoDup_seq|]. split.
  { intros i Hi. apply elem_of_mask_filter, elem_of_mask_filter in Hi.
    apply elem_of_seq in Hi. lia. }
  assert (forall col s, columns (filter_rows m2 (filter_rows m1 df3)) !! col = Some s ->
            length (values s) = length (mask_filter m2 (mask_filter m1 (seq 0 n))))
    as H5.
  { intros col s Hs. simpl in Hs. rewrite !lookup_fmap in Hs.
    destruct (columns df3 !! col) as [s3|] eqn:E; [|discriminate].
    simpl in Hs. injection Hs as <-. simpl.
    apply length_mask_filter, length_mask_filter.
    rewrite (prepared_lengths _ _ _ _ _ H1 H2 H3 col s3 Hwf E). by rewrite length_seq. }
  intros col s Hs. unfold ensure_description in Hs.
  destruct (has_column _ "OFFENSE_DESCRIPTION"); [by apply (H5 col)|].
  simpl in Hs. destruct (decide (col = "OFFENSE_DESCRIPTION")) as [->|Hne].
  - rewrite lookup_insert_eq in Hs. injection Hs as <-. simpl.
    by rewrite length_replicate, Hidx.
  - rewrite lookup_insert_ne in Hs by done. by apply (H5 col).
Qed.

End Loader.
End CrimeMore.

Module CrimeMoreExamples.
Import Crime CrimeChecks CrimeSpec CrimeMore.

Ltac well_formed_table :=
  unfold wf_table; refine (bool_decide_unpack _ _); vm_compute; exact I.

Lemma kept_iff_located_witness :
  exists out, load_data decimal_number saturate text_lat = Some out /\
    (0%nat ∈ index out <-> unlocated (Str "0") (Float (-71)) = false) /\
    (forall t, Str "0" = Str t -> (0%nat ∈ index out <-> isna (Float (-71)) = false)).
Proof.
  eexists. split; [by_evaluation|].
  apply (kept_iff_located decimal_number saturate 3 text_lat_cols _
           [Str "0"; Str "-1"; Str "north"] (replicate 3 (Float (-71)%float)) 0);
    first [by_evaluation | lia].
Defined.

Lemma description_is_defaulted_witness :
  exists out, load_data decimal_number saturate sample = Some out /\
    cell_at out "OFFENSE_DESCRIPTION" 4 =
    match sample_cols !! "OFFENSE_DESCRIPTION" with
    | Some vs => vs !! 4%nat
    | None => Some (Str "Unknown")
    end.
Proof.
  eexists. split; [by_evaluation|].
  apply (description_is_defaulted decimal_number saturate 5 sample_cols).
  - by_evaluation.
  - vm_compute. apply list_elem_of_further, list_elem_of_here.
Defined.

Lemma loaded_columns_witness :
  exists out, load_data decimal_number saturate sample = Some out /\
    (is_Some (columns out !! "DISTRICT") <->
       "DISTRICT" ∈ synthesized \/ is_Some (sample_cols !! "DISTRICT")) /\
    ("DISTRICT" ∉ synthesized -> sample_cols !! "DISTRICT" = None ->
     getitem out "DISTRICT" = Raise KeyError).
Proof.
  eexists. split; [by_evaluation|].
  apply (loaded_columns decimal_number saturate 5 sample_cols). by_evaluation.
Defined.

Lemma loaded_frame_is_well_formed_witness :
  exists out, load_data decimal_number saturate sample = Some out /\
    NoDup (index out) /\
    (forall i, i ∈ index out -> (i < 5)%nat) /\
    (forall col s, columns out !! col = Some s ->
       length (values s) = length (index out)).
Proof.
  eexists. split; [by_evaluation|].
  apply (loaded_frame_is_well_formed decimal_number saturate 5 sample_cols).
  - well_formed_table.
  - by_evaluation.
Defined.

End CrimeMoreExamples.

(** * The crime dashboard page *)

Lemma row_at_In {A : Type} idx (l : list A) i x : row_at idx l i = Some x -> In x l.
Proof.
  revert l. induction idx as [|k idx IH]; intros [|y l] H; simpl in H; try discriminate.
  destruct (Nat.eqb k i); [injection H as ->; by left|right; eauto].
Qed.

Lemma mask_filter_In {A : Type} mask (l : list A) x : In x (mask_filter mask l) -> In x l.
Proof. intros H%list_elem_of_In%elem_of_mask_filter. by apply list_elem_of_In. Qed.

Lemma mask_filter_length_le {A : Type} mask (l : list A) :
  (length (mask_filter mask l) <= length l)%nat.
Proof.
  revert l. induction mask as [|b mask IH]; intros [|x l]; simpl; try lia.
  specialize (IH l). destruct b; simpl; lia.
Qed.

Lemma mask_filter_none {A : Type} mask (l : list A) :
  Forall (fun b => b = false) mask -> mask_filter mask l = [].
Proof.
  intros H. revert l. induction H as [|b mask -> _ IH]; intros [|x l]; simpl; auto.
Qed.

Lemma foldr_min_le t ts x : In x (t :: ts) -> foldr Z.min t ts <= x.
Proof.
  induction ts as [|y ts IH]; simpl.
  - intros [->|[]]. lia.
  - intros [->|[->|H]]; [specialize (IH (or_introl eq_refl))| |specialize (IH (or_intror H))];
      lia.
Qed.

Lemma foldr_max_ge t ts x : In x (t :: ts) -> x <= foldr Z.max t ts.
Proof.
  induction ts as [|y ts IH]; simpl.
  - intros [->|[]]. lia.
  - intros [->|[->|H]]; [specialize (IH (or_introl eq_refl))| |specialize (IH (or_intror H))];
      lia.
Qed.

Module CrimePageSpec.
Import Crime CrimeChecks CrimePage CrimeSpec CrimeMore.

Lemma date_of_mono a b : a <= b -> date_of a <= date_of b.
Proof. intros H. unfold date_of. apply Z.div_le_mono; [by_evaluation|done]. Qed.

Lemma timestamps_In vs ns : In (Time ns) vs -> In ns (timestamps vs).
Proof.
  intros H%list_elem_of_In. apply list_elem_of_In. unfold timestamps.
  apply list_elem_of_omap. by exists (Time ns).
Qed.

Lemma date_bounds_cover s range ns :
  date_bounds s = Some range -> In (Time ns) (values s) ->
  fst range <= date_of ns <= snd range.
Proof.
  unfold date_bounds. intros H Hin. apply timestamps_In in Hin.
  destruct (forallb is_datetime (values s)); [|discriminate].
  destruct (timestamps (values s)) as [|t ts]; [discriminate|].
  injection H as <-. simpl. split; apply date_of_mono.
  - by apply foldr_min_le.
  - by apply foldr_max_ge.
Qed.

Lemma date_bounds_ordered s d0 d1 : date_bounds s = Some (d0, d1) -> d0 <= d1.
Proof.
  unfold date_bounds. destruct (forallb is_datetime (values s)); [|discriminate].
  destruct (timestamps (values s)) as [|t ts]; [discriminate|].
  intros H. injection H as <- <-.
  pose proof (foldr_min_le t ts t (or_introl eq_refl)).
  pose proof (foldr_max_ge t ts t (or_introl eq_refl)).
  apply date_of_mono. lia.
Qed.

Lemma integers_Int zs : integers (map Int zs) = Some zs.
Proof.
  unfold integers. induction zs as [|z zs IH]; [done|].
  cbn. cbn in IH. by rewrite IH.
Qed.

Lemma sum_indicators l :
  foldr Z.add 0 (map (fun c => Z.b2z (eq_str c "Y")) l) =
  Z.of_nat (length (List.filter (fun c => eq_str c "Y") l)).
Proof.
  induction l as [|c l IH]; [done|]. cbn [map foldr List.filter]. rewrite IH.
  destruct (eq_str c "Y"); cbn [Z.b2z length]; lia.
Qed.

(** The first of the modes is a most frequent value, and the smallest of
    them. *)
Lemma front_runner all l :
  match foldr (fun x best =>
                 match best with
                 | None => Some x
                 | Some y => if ahead all x y then Some x else Some y
                 end) None l with
  | None => l = []
  | Some h =>
      In h l /\
      forall x, In x l ->
        (count_of x all <= count_of h all)%nat /\
        (count_of x all = count_of h all -> h <= x)
  end.
Proof.
  induction l as [|x l IH]; [done|]. cbn [foldr].
  destruct (foldr _ None l) as [y|].
  - destruct IH as [Hy IH]. unfold ahead.
    destruct (Nat.ltb_spec (count_of y all) (count_of x all)) as [Hlt|Hge]; cbn [orb].
    + split; [by left|]. intros z [<-|Hz]; [lia|]. specialize (IH z Hz). lia.
    + destruct (Nat.eqb_spec (count_of x all) (count_of y all)) as [Heq|Hne];
        cbn [andb].
      * destruct (Z.ltb_spec x y) as [Hxy|Hxy].
        -- split; [by left|]. intros z [<-|Hz]; [lia|]. specialize (IH z Hz). lia.
        -- split; [by right|]. intros z [<-|Hz]; [lia|]. by apply IH.
      * split; [by right|]. intros z [<-|Hz]; [lia|]. by apply IH.
  - subst l. split; [by left|]. intros z [<-|[]]. lia.
Qed.

Lemma int_mode_spec l :
  match int_mode l with
  | None => l = []
  | Some h =>
      In h l /\
      forall x, In x l ->
        (count_of x l <= count_of h l)%nat /\ (count_of x l = count_of h l -> h <= x)
  end.
Proof. apply front_runner. Qed.

Lemma coerce_categorical df col :
  col ∈ categorical_cols ->
  columns (coerce_categories df) !! col = astype_category <$> columns df !! col.
Proof.
  unfold coerce_categories, categorical_cols. rewrite !elem_of_cons, elem_of_nil.
  cbn [foldl].
  intros [->|[->|[->|[->|[->|[]]]]]];
    rewrite ?coerce_column_lookup_ne by done;
    rewrite coerce_column_lookup_eq;
    by rewrite ?coerce_column_lookup_ne by done.
Qed.

Section Loader.
Variable parse_number : string -> option number.
Variable cast_overflow : float -> Z.
Variable sum_other : list cell -> result cell.
Variable mode_other : list cell -> result cell.

#[local] Abbreviation load_data := (Crime.load_data parse_number cast_overflow).
#[local] Abbreviation confirmed_shootings := (CrimePage.confirmed_shootings sum_other).
#[local] Abbreviation peak_hour := (CrimePage.peak_hour mode_other).

(** The columns of a loaded frame, as columns of the table: the rows that
    are kept are picked by two masks, the same for every column. *)
Lemma loaded_series n cols out :
  load_data (Table n cols) = Some out ->
  exists m1 m2,
    index out = mask_filter m2 (mask_filter m1 (seq 0 n)) /\
    (forall col vs,
       col <> "SHOOTING" -> col <> "Is_Shooting" -> col <> "HOUR" ->
       cols !! col = Some vs ->
       exists s, columns out !! col = Some s /\
         values s = mask_filter m2 (mask_filter m1 vs) /\
         (col ∈ categorical_cols ->
          categories s = Some (distinct (List.filter notna vs)))) /\
    (exists flags,
       columns out !! "SHOOTING" = Some flags /\
       columns out !! "Is_Shooting" = Some (mkSeries None (map indicator (values flags))) /\
       (length (values flags) <= match cols !! "SHOOTING" with
                                 | Some vs => length vs
                                 | None => n
                                 end)%nat) /\
    (exists hours,
       columns out !! "HOUR" = Some (mkSeries None (map Int hours))).
Proof.
  intros Hload.
  destruct (CrimeMore.loaded_shape parse_number cast_overflow n cols out Hload)
    as (df1 & df2 & df3 & lat & long & m1 & m2 & H1 & H2 & H3 & Hidx & _ & _ & _ & _ & ->).
  exists m1, m2.
  assert (forall col, col <> "OFFENSE_DESCRIPTION" ->
            columns (ensure_description (filter_rows m2 (filter_rows m1 df3))) !! col =
            (fun s => mkSeries (categories s) (mask_filter m2 (mask_filter m1 (values s))))
              <$> columns df3 !! col) as Hcol.
  { intros col Hne. unfold ensure_description.
    destruct (has_column _ "OFFENSE_DESCRIPTION").
    - simpl. rewrite !lookup_fmap. by destruct (columns df3 !! col).
    - unfold setitem_scalar, setitem. cbn [columns]. rewrite lookup_insert_ne by done.
      simpl. rewrite !lookup_fmap. by destruct (columns df3 !! col). }
  split; [rewrite ensure_description_index; simpl; by rewrite Hidx|].
  split; [|split].
  - intros col vs Hs His Hh Hvs.
    pose proof (CrimeMore.prepared_lookup parse_number cast_overflow _ _ _ _ _ H1 H2 H3
                  col Hs His Hh) as Hl.
    destruct (coerce_lookup_Some (mkFrame (seq 0 n) (mkSeries None <$> cols)) col
                (mkSeries None vs)) as (s3 & Hs3 & Hv3).
    { simpl. by rewrite lookup_fmap, Hvs. }
    simpl in Hv3.
    destruct (decide (col = "OFFENSE_DESCRIPTION")) as [->|Hne].
    + unfold ensure_description.
      assert (has_column (filter_rows m2 (filter_rows m1 df3)) "OFFENSE_DESCRIPTION" = true)
        as ->.
      { unfold has_column. simpl. by rewrite !lookup_fmap, Hl, Hs3. }
      simpl. rewrite !lookup_fmap, Hl, Hs3. simpl. eexists. split; [done|]. simpl.
      split; [by rewrite Hv3|]. unfold categorical_cols.
      rewrite !elem_of_cons, elem_of_nil. intros [?|[?|[?|[?|[?|[]]]]]]; discriminate.
    + rewrite Hcol, Hl, Hs3 by done. simpl. eexists. split; [done|]. simpl.
      split; [by rewrite Hv3|]. intros Hcat.
      rewrite (coerce_categorical _ col Hcat) in Hs3. simpl in Hs3.
      rewrite lookup_fmap, Hvs in Hs3. simpl in Hs3. by injection Hs3 as <-.
  - destruct (prepared_shooting parse_number cast_overflow _ _ _ _ _ H1 H2 H3)
      as (s & Hs & His & Hv).
    rewrite !Hcol, Hs, His by done. simpl.
    eexists. split; [done|]. simpl. split.
    + by rewrite !mask_filter_map.
    + etrans; [apply mask_filter_length_le|]. etrans; [apply mask_filter_length_le|].
      rewrite Hv. destruct (cols !! "SHOOTING").
      * by rewrite length_map.
      * by rewrite length_replicate.
  - destruct (prepared_hour parse_number cast_overflow _ _ _ _ _ H1 H2 H3)
      as (h & Hh & Hhour).
    assert (exists zs, h = map Int zs) as [zs ->].
    { assert (Forall (fun x => exists z, x = Int z) h) as HF.
      { destruct (cols !! "HOUR") as [hs|].
        - apply Forall_forall. intros x Hx%list_elem_of_lookup. destruct Hx as [k Hk].
          destruct (Forall2_lookup_r _ _ _ _ _ Hhour Hk) as (c & _ & Hc).
          by apply (coerced_hour_Int parse_number cast_overflow c).
        - destruct Hhour as (d & _ & HF). apply Forall_forall.
          intros x Hx%list_elem_of_lookup. destruct Hx as [k Hk].
          destruct (Forall2_lookup_r _ _ _ _ _ HF Hk) as (c & _ & Hc).
          destruct (derived_hour cast_overflow _ _ Hc) as (ns & _ & ->). eauto. }
      clear -HF. induction HF as [|x h [z ->] _ [zs ->]].
      - by exists [].
      - by exists (z :: zs). }
    rewrite Hcol, Hh by done. simpl. rewrite !mask_filter_map. eauto.
Qed.

Lemma dt_date_Ok s dates :
  dt_date s = Ok dates -> dates = map date_cell (values s).
Proof. unfold dt_date. destruct (forallb _ _); [congruence|discriminate]. Qed.

Lemma page_filter_inv df d0 d1 selected df_filtered :
  page_filter df (d0, d1) selected = Ok df_filtered ->
  exists a d,
    columns df !! "OCCURRED_ON_DATE" = Some a /\ columns df !! "DISTRICT" = Some d /\
    df_filtered =
    filter_rows
      (zip_with andb
         (zip_with andb (ge_date d0 (map date_cell (values a)))
            (le_date d1 (map date_cell (values a))))
         (isin d selected)) df.
Proof.
  unfold page_filter. intros H.
  apply bind_Ok in H as (a & Ha & H). apply bind_Ok in H as (da & Hda & H).
  apply bind_Ok in H as (b & Hb & H). apply bind_Ok in H as (db & Hdb & H).
  apply bind_Ok in H as (d & Hd & H).
  apply getitem_Ok in Ha, Hb, Hd. rewrite Ha in Hb. injection Hb as <-.
  apply dt_date_Ok in Hda, Hdb. subst da db. simpl in H. injection H as <-.
  by exists a, d.
Qed.

Lemma page_mask_row idx d0 d1 selected (a d : list cell) i :
  row_at idx
    (zip_with andb
       (zip_with andb (ge_date d0 (map date_cell a)) (le_date d1 (map date_cell a)))
       (map (is_in selected) d)) i =
  match row_at idx a i, row_at idx d i with
  | Some x, Some c =>
      Some (match date_cell x with
            | Some v => (d0 <=? v) && (v <=? d1)
            | None => false
            end && is_in selected c)
  | _, _ => None
  end.
Proof.
  unfold ge_date, le_date. rewrite !row_at_zip_with, !row_at_map.
  destruct (row_at idx a i) as [x|]; simpl; [|done].
  destruct (row_at idx d i) as [c|]; simpl; [|done].
  by destruct (date_cell x).
Qed.

Lemma filtered_index df d0 d1 selected df_filtered :
  NoDup (index df) ->
  page_filter df (d0, d1) selected = Ok df_filtered ->
  forall i, i ∈ index df_filtered <->
    exists ns c,
      cell_at df "OCCURRED_ON_DATE" i = Some (Time ns) /\
      d0 <= date_of ns <= d1 /\
      cell_at df "DISTRICT" i = Some c /\ is_in selected c = true.
Proof.
  intros Hnd H. apply page_filter_inv in H as (a & d & Ha & Hd & ->).
  intros i. unfold cell_at. rewrite Ha, Hd. simpl. split.
  - intros Hin. apply (row_at_mask_true _ _ _ Hnd) in Hin.
    unfold isin in Hin. rewrite page_mask_row in Hin.
    destruct (row_at (index df) (values a) i) as [x|]; [|discriminate].
    destruct (row_at (index df) (values d) i) as [c|]; [|discriminate].
    injection Hin as Hin. apply andb_true_iff in Hin as [Hdate Hsel].
    destruct x as [| | | | |ns]; simpl in Hdate; try discriminate.
    apply andb_true_iff in Hdate as [H0 H1]. exists ns, c. repeat split; try done; lia.
  - intros (ns & c & Hx & [H0 H1] & Hc & Hsel).
    apply row_at_mask_elem. unfold isin. rewrite page_mask_row, Hx, Hc. simpl.
    rewrite Hsel. f_equal. apply andb_true_iff. split; [|done].
    apply andb_true_iff. split; lia.
Qed.

(** Lines 116-121. The rows on display are exactly the rows whose date is a
    timestamp on a day of the chosen range, ends included, and whose
    district is one of the chosen ones; a row without a date is never
    shown.  The rows that are shown keep their labels and their cells. *)
Theorem displayed_rows df d0 d1 selected df_filtered :
  NoDup (index df) ->
  page_filter df (d0, d1) selected = Ok df_filtered ->
  (forall i, i ∈ index df_filtered <->
     exists ns c,
       cell_at df "OCCURRED_ON_DATE" i = Some (Time ns) /\
       d0 <= date_of ns <= d1 /\
       cell_at df "DISTRICT" i = Some c /\ is_in selected c = true) /\
  (forall i col, i ∈ index df_filtered -> cell_at df_filtered col i = cell_at df col i).
Proof.
  intros Hnd H. split; [by apply filtered_index|].
  apply page_filter_inv in H as (a & d & Ha & Hd & ->).
  intros i col Hi. by apply cell_at_filter_rows.
Qed.

Lemma no_missing_category vs : existsb isna (distinct (List.filter notna vs)) = false.
Proof.
  destruct (existsb _ _) eqn:E; [|done].
  apply existsb_exists in E as (x & Hx & Hna). apply In_distinct in Hx.
  apply filter_In in Hx as [_ Hx]. unfold notna in Hx. by rewrite Hna in Hx.
Qed.

(** Line 113. The districts on offer are the districts of the whole file,
    also those of rows the loader dropped; a missing district is not among
    them.  Without a DISTRICT column the page raises. *)
Theorem district_choices n cols out :
  load_data (Table n cols) = Some out ->
  match cols !! "DISTRICT" with
  | Some vs =>
      exists choices,
        all_districts out = Ok choices /\
        (forall t, Str t ∈ choices <-> Str t ∈ vs) /\
        (forall c, c ∈ choices -> isna c = false /\ c ∈ vs)
  | None => all_districts out = Raise KeyError
  end.
Proof.
  intros Hload. unfold all_districts. destruct (cols !! "DISTRICT") as [vs|] eqn:E.
  - destruct (loaded_series n cols out Hload) as (m1 & m2 & _ & Hcols & _).
    destruct (Hcols "DISTRICT" vs) as (s & Hs & _ & Hcat); try done.
    unfold getitem. rewrite Hs. simpl.
    rewrite Hcat by (unfold categorical_cols; apply list_elem_of_here).
    eexists. split; [done|].
    assert (forall c, c ∈ distinct (List.filter notna vs) -> isna c = false /\ c ∈ vs)
      as Hsub.
    { intros c Hc%list_elem_of_In%In_distinct. apply filter_In in Hc as [Hin Hna].
      split; [by apply negb_true_iff in Hna|by apply list_elem_of_In]. }
    split; [|done]. intros t. split; [by intros [_ ?]%Hsub|].
    intros Ht%list_elem_of_In. apply list_elem_of_In, distinct_keeps_text, filter_In.
    by split.
  - rewrite (CrimeMore.missing_column_raises_KeyError parse_number cast_overflow
               n cols out "DISTRICT" Hload); [done| |done].
    unfold synthesized.
    rewrite !elem_of_cons, elem_of_nil. intros [?|[?|[?|[?|[]]]]]; discriminate.
Qed.

(** Lines 107-121 with the widgets left as they come up (the whole range of
    dates, every district).  When the dates of the loaded rows span more
    than one day, the page shows the loaded rows that have a district: a row
    whose DISTRICT field is empty is hidden and counted nowhere, although
    nothing was deselected.  When all loaded rows are of one day, the slider
    of line 109 raises and nothing is shown. *)
Theorem default_view_needs_a_district n cols out dates ds s d0 d1 :
  wf_table n cols ->
  load_data (Table n cols) = Some out ->
  cols !! "OCCURRED_ON_DATE" = Some dates -> forallb is_time dates = true ->
  cols !! "DISTRICT" = Some ds -> forallb labelled ds = true ->
  columns out !! "OCCURRED_ON_DATE" = Some s -> date_bounds s = Some (d0, d1) ->
  match timeline d0 d1 with
  | Ok range =>
      d0 < d1 /\
      exists choices df_filtered,
        all_districts out = Ok choices /\
        page_filter out range choices = Ok df_filtered /\
        forall i, i ∈ index df_filtered <->
          i ∈ index out /\ exists t, ds !! i = Some (Str t)
  | Raise e => e = StreamlitAPIException /\ d0 = d1
  end.
Proof.
  intros Hwf Hload Hdates Htime Hds Hlab Hs Hrange.
  destruct (loaded_series n cols out Hload) as (m1 & m2 & Hidx & Hcols & _).
  destruct (Hcols "OCCURRED_ON_DATE" dates) as (s' & Hs' & Hv & _); try done.
  rewrite Hs in Hs'. injection Hs' as <-.
  destruct (Hcols "DISTRICT" ds) as (d & Hd & Hvd & Hcat); try done.
  specialize (Hcat (list_elem_of_here _ _)).
  assert (Forall (fun c => is_time c = true) (values s)) as Hts.
  { rewrite Hv. apply Forall_mask_filter, Forall_mask_filter.
    apply Forall_forall. intros c Hc%list_elem_of_In.
    rewrite forallb_forall in Htime. by apply Htime. }
  assert (forallb is_datetime (values s) = true) as Hdt.
  { apply forallb_forall. intros c Hc%list_elem_of_In.
    rewrite Forall_forall in Hts. specialize (Hts c Hc). by destruct c. }
  unfold timeline. destruct (Z.ltb_spec d0 d1) as [Hspan|Hge].
  2: { split; [done|]. pose proof (date_bounds_ordered s d0 d1 Hrange). lia. }
  split; [done|].
  assert (page_filter out (d0, d1) (distinct (List.filter notna ds)) =
          Ok (filter_rows
                (zip_with andb
                   (zip_with andb (ge_date d0 (map date_cell (values s)))
                      (le_date d1 (map date_cell (values s))))
                   (isin d (distinct (List.filter notna ds)))) out)) as Hpage.
  { unfold page_filter, getitem. rewrite Hs, Hd. simpl. unfold dt_date.
    rewrite Hdt. simpl. by rewrite ?Hdt. }
  exists (distinct (List.filter notna ds)). eexists. split; [|split].
  - unfold all_districts, getitem. rewrite Hd. simpl. by rewrite Hcat.
  - exact Hpage.
  - intros i.
    assert (NoDup (index out)) as Hnd.
    { rewrite Hidx. by apply NoDup_mask_filter, NoDup_mask_filter, NoDup_seq. }
    rewrite (filtered_index _ _ _ _ _ Hnd Hpage). clear Hpage. split.
    + intros (ns & c & Hx & _ & Hc & Hsel).
      assert (i ∈ index out) as Hin.
      { unfold cell_at in Hc. rewrite Hd in Hc. by apply row_at_elem in Hc. }
      split; [done|].
      destruct (loaded_rows parse_number cast_overflow n cols out i Hload Hin)
        as (Hlt & df3 & _ & Hout & Hcells & _).
      rewrite Hout, Hcells, Hds in Hc by done.
      rewrite forallb_forall in Hlab.
      assert (labelled c = true) as Hl.
      { apply Hlab. apply list_elem_of_In. by apply list_elem_of_lookup_2 in Hc. }
      destruct c as [| | | |t|]; try discriminate; [|eauto].
      unfold is_in in Hsel. simpl in Hsel. by rewrite no_missing_category in Hsel.
    + intros (Hin & t & Ht).
      destruct (loaded_rows parse_number cast_overflow n cols out i Hload Hin)
        as (Hlt & df3 & _ & Hout & Hcells & _).
      assert (exists x, dates !! i = Some x) as [x Hx].
      { apply lookup_lt_is_Some. by rewrite (Hwf _ _ Hdates). }
      assert (is_time x = true) as Hxt.
      { rewrite forallb_forall in Htime. apply Htime, list_elem_of_In.
        by apply list_elem_of_lookup_2 in Hx. }
      destruct x as [| | | | |ns]; try discriminate.
      assert (cell_at out "OCCURRED_ON_DATE" i = Some (Time ns)) as Hcx.
      { by rewrite Hout, Hcells, Hdates. }
      exists ns, (Str t). split; [done|]. split.
      { apply (date_bounds_cover s (d0, d1) ns Hrange).
        unfold cell_at in Hcx. rewrite Hs in Hcx. by apply row_at_In in Hcx. }
      split; [by rewrite Hout, Hcells, Hds|].
      unfold is_in. simpl. apply existsb_exists. exists (Str t). split.
      * apply distinct_keeps_text, filter_In. split; [|done].
        apply list_elem_of_In. by apply list_elem_of_lookup_2 in Ht.
      * simpl. apply String.eqb_refl.
Qed.

Lemma indicators_are_integers l :
  map indicator l = map Int (map (fun c => Z.b2z (eq_str c "Y")) l).
Proof. by rewrite map_map. Qed.

(** Line 139. Whatever rows are on display, Confirmed Shootings is the
    number of them whose SHOOTING flag is Y. *)
Theorem confirmed_shootings_counts_flags n cols out mask :
  wf_table n cols -> Z.of_nat n < 2 ^ 63 ->
  load_data (Table n cols) = Some out ->
  exists flags,
    columns (filter_rows mask out) !! "SHOOTING" = Some flags /\
    confirmed_shootings (filter_rows mask out) =
    Ok (Int (Z.of_nat (length (List.filter (fun c => eq_str c "Y") (values flags))))).
Proof.
  intros Hwf Hn Hload.
  destruct (loaded_series n cols out Hload)
    as (m1 & m2 & _ & _ & (flags & Hflags & His & Hlen) & _).
  eexists. split; [simpl; by rewrite lookup_fmap, Hflags|]. simpl.
  unfold CrimePage.confirmed_shootings, getitem. simpl.
  rewrite lookup_fmap, His. simpl. unfold series_sum. simpl.
  rewrite mask_filter_map, indicators_are_integers, integers_Int, sum_indicators.
  rewrite wrap64_small; [done|].
  pose proof (filter_length_le (fun c => eq_str c "Y") (mask_filter mask (values flags))).
  pose proof (mask_filter_length_le mask (values flags)).
  assert (length (values flags) <= n)%nat.
  { destruct (cols !! "SHOOTING") as [vs|] eqn:E; [|done]. by rewrite <- (Hwf _ _ E). }
  lia.
Qed.

(** Line 144. Whatever rows are on display, Peak Activity Hour is an hour
    that occurs most often among them, the smallest one when several hours
    tie; with no row on display the expression raises [KeyError]. *)
Theorem peak_hour_is_the_smallest_mode n cols out mask :
  load_data (Table n cols) = Some out ->
  exists hours,
    columns (filter_rows mask out) !! "HOUR" = Some (mkSeries None (map Int hours)) /\
    match hours with
    | [] => peak_hour (filter_rows mask out) = Raise KeyError
    | _ :: _ =>
        exists h, peak_hour (filter_rows mask out) = Ok (Int h) /\ In h hours /\
          forall x, In x hours ->
            (count_of x hours <= count_of h hours)%nat /\
            (count_of x hours = count_of h hours -> h <= x)
    end.
Proof.
  intros Hload.
  destruct (loaded_series n cols out Hload) as (m1 & m2 & _ & _ & _ & (hours & Hh)).
  exists (mask_filter mask hours).
  assert (columns (filter_rows mask out) !! "HOUR" =
          Some (mkSeries None (map Int (mask_filter mask hours)))) as Hcol.
  { simpl. rewrite lookup_fmap, Hh. simpl. by rewrite mask_filter_map. }
  split; [done|].
  unfold CrimePage.peak_hour, getitem. rewrite Hcol. simpl. unfold mode0. simpl.
  rewrite integers_Int. pose proof (int_mode_spec (mask_filter mask hours)) as Hm.
  destruct (int_mode (mask_filter mask hours)) as [h|].
  - destruct (mask_filter mask hours) as [|z zs] eqn:E; [by destruct Hm|].
    exists h. by split.
  - by rewrite Hm.
Qed.

Lemma zip_with_andb_false (l1 l2 : list bool) :
  Forall (fun b => b = false) l2 -> Forall (fun b => b = false) (zip_with andb l1 l2).
Proof.
  intros H. revert l1. induction H as [|b l2 -> _ IH]; intros [|a l1]; simpl;
    constructor; auto using andb_false_r.
Qed.

(** With every district deselected no row is on display: Total Incidents
    and Confirmed Shootings are 0, and the Peak Activity Hour of line 144
    raises [KeyError]. *)
Theorem no_district_selected n cols out range df_filtered :
  load_data (Table n cols) = Some out ->
  page_filter out range [] = Ok df_filtered ->
  total_incidents df_filtered = 0%nat /\
  confirmed_shootings df_filtered = Ok (Int 0) /\
  peak_hour df_filtered = Raise KeyError.
Proof.
  intros Hload Hpage. destruct range as [d0 d1].
  apply page_filter_inv in Hpage as (a & d & _ & _ & ->).
  destruct (loaded_series n cols out Hload)
    as (m1 & m2 & _ & _ & (flags & _ & His & _) & (hours & Hh)).
  match goal with |- context [filter_rows ?m out] => set (mask := m) end.
  assert (forall A (l : list A), mask_filter mask l = []) as Hnone.
  { intros A l. apply mask_filter_none. unfold mask. apply zip_with_andb_false.
    unfold isin. apply Forall_forall. intros b Hb%list_elem_of_In.
    apply in_map_iff in Hb as (c & <- & _). unfold is_in. by destruct (isna c). }
  split; [unfold total_incidents; simpl; by rewrite Hnone|]. split.
  - unfold CrimePage.confirmed_shootings, getitem. simpl.
    rewrite lookup_fmap, His. simpl. unfold series_sum. simpl. by rewrite Hnone.
  - unfold CrimePage.peak_hour, getitem. simpl.
    rewrite lookup_fmap, Hh. simpl. unfold mode0. simpl. by rewrite Hnone.
Qed.

End Loader.
End CrimePageSpec.

Module CrimePageExamples.
Import Crime CrimeChecks CrimePage CrimeSpec CrimePageSpec.

Ltac whole_table :=
  unfold wf_table; refine (bool_decide_unpack _ _); vm_compute; exact I.

Ltac distinct_labels := refine (bool_decide_unpack _ _); vm_compute; exact I.

Lemma displayed_rows_witness :
  exists out df_filtered,
    load_data decimal_number saturate with_districts = Some out /\
    page_filter out
      (date_of (timestamp 2024 3 1 0 0 0), date_of (timestamp 2024 3 2 0 0 0))
      [Str "B2"] = Ok df_filtered /\
    (forall i, i ∈ index df_filtered <->
       exists ns c,
         cell_at out "OCCURRED_ON_DATE" i = Some (Time ns) /\
         date_of (timestamp 2024 3 1 0 0 0) <= date_of ns
           <= date_of (timestamp 2024 3 2 0 0 0) /\
         cell_at out "DISTRICT" i = Some c /\ is_in [Str "B2"] c = true) /\
    (forall i col, i ∈ index df_filtered -> cell_at df_filtered col i = cell_at out col i).
Proof.
  eexists. eexists. split; [by_evaluation|]. split; [by_evaluation|].
  apply displayed_rows.
  - distinct_labels.
  - by_evaluation.
Defined.

Lemma district_choices_witness :
  exists out,
    load_data decimal_number saturate with_districts = Some out /\
    match district_cols !! "DISTRICT" with
    | Some vs =>
        exists choices,
          all_districts out = Ok choices /\
          (forall t, Str t ∈ choices <-> Str t ∈ vs) /\
          (forall c, c ∈ choices -> isna c = false /\ c ∈ vs)
    | None => all_districts out = Raise KeyError
    end.
Proof.
  eexists. split; [by_evaluation|].
  apply (district_choices decimal_number saturate 5 district_cols). by_evaluation.
Defined.

Lemma default_view_needs_a_district_witness :
  exists out,
    load_data decimal_number saturate with_districts = Some out /\
    match timeline (date_of (timestamp 2024 3 1 0 0 0))
            (date_of (timestamp 2024 3 3 0 0 0)) with
    | Ok range =>
        date_of (timestamp 2024 3 1 0 0 0) < date_of (timestamp 2024 3 3 0 0 0) /\
        exists choices df_filtered,
          all_districts out = Ok choices /\
          page_filter out range choices = Ok df_filtered /\
          forall i, i ∈ index df_filtered <->
            i ∈ index out /\
            exists t, [Str "B2"; NA; Str "C11"; Str "B2"; Str "A1"] !! i = Some (Str t)
    | Raise e =>
        e = StreamlitAPIException /\
        date_of (timestamp 2024 3 1 0 0 0) = date_of (timestamp 2024 3 3 0 0 0)
    end.
Proof.
  eexists. split; [by_evaluation|].
  eapply (default_view_needs_a_district decimal_number saturate 5 district_cols _
            sample_dates).
  - whole_table.
  - by_evaluation.
  - by_evaluation.
  - by_evaluation.
  - by_evaluation.
  - by_evaluation.
  - by_evaluation.
  - by_evaluation.
Defined.

Lemma confirmed_shootings_counts_flags_witness :
  exists out,
    load_data decimal_number saturate with_districts = Some out /\
    exists flags,
      columns (filter_rows [true; true; false; true; true] out) !! "SHOOTING"
        = Some flags /\
      confirmed_shootings no_other (filter_rows [true; true; false; true; true] out) =
      Ok (Int (Z.of_nat (length (List.filter (fun c => eq_str c "Y") (values flags))))).
Proof.
  eexists. split; [by_evaluation|].
  apply (confirmed_shootings_counts_flags decimal_number saturate no_other 5 district_cols).
  - whole_table.
  - by_evaluation.
  - by_evaluation.
Defined.

Lemma peak_hour_is_the_smallest_mode_witness :
  exists out,
    load_data decimal_number saturate with_districts = Some out /\
    exists hours,
      columns (filter_rows [true; true; false; true; true] out) !! "HOUR"
        = Some (mkSeries None (map Int hours)) /\
      match hours with
      | [] => peak_hour no_other (filter_rows [true; true; false; true; true] out)
              = Raise KeyError
      | _ :: _ =>
          exists h,
            peak_hour no_other (filter_rows [true; true; false; true; true] out)
              = Ok (Int h) /\ In h hours /\
            forall x, In x hours ->
              (count_of x hours <= count_of h hours)%nat /\
              (count_of x hours = count_of h hours -> h <= x)
      end.
Proof.
  eexists. split; [by_evaluation|].
  apply (peak_hour_is_the_smallest_mode decimal_number saturate no_other 5 district_cols).
  by_evaluation.
Defined.

Lemma no_district_selected_witness :
  exists out df_filtered,
    load_data decimal_number saturate with_districts = Some out /\
    page_filter out
      (date_of (timestamp 2024 3 1 0 0 0), date_of (timestamp 2024 3 3 0 0 0)) []
      = Ok df_filtered /\
    total_incidents df_filtered = 0%nat /\
    confirmed_shootings no_other df_filtered = Ok (Int 0) /\
    peak_hour no_other df_filtered = Raise KeyError.
Proof.
  eexists. eexists. split; [by_evaluation|]. split; [by_evaluation|].
  eapply (no_district_selected decimal_number saturate no_other no_other 5 district_cols
            _ (date_of (timestamp 2024 3 1 0 0 0), date_of (timestamp 2024 3 3 0 0 0))).
  - by_evaluation.
  - by_evaluation.
Defined.

End CrimePageExamples.

(** * More about the movie loader *)

Module MovieMore.
Import Movie MovieSpec.

Section Loader.
Variable eval_other : string -> result obj.

#[local] Abbreviation load_data := (Movie.load_data eval_other).

(** Lines 85-90 touch the three list-valued columns only: every other
    column of the parsed frame is returned as it was read, no column is
    added or removed, and a list-valued column whose first cell is not text
    is returned as it was read, too. *)
Theorem movie_loader_keeps_other_columns file df out :
  parse file = Ok df -> load_data file = Ok out ->
  (forall col, col ∉ list_columns -> out !! col = df !! col) /\
  (forall col, is_Some (out !! col) <-> is_Some (df !! col)) /\
  (forall col v vs, df !! col = Some (v :: vs) -> is_str v = false ->
     out !! col = Some (v :: vs)).
Proof.
  intros Hdf Hload.
  assert (forall col, col ∉ list_columns -> out !! col = df !! col) as Hother.
  { intros col Hcol.
    destruct (movie_load_data_inv eval_other _ _ Hload)
      as (df' & df1 & df2 & Hdf' & H1 & H2 & H3).
    rewrite Hdf in Hdf'. injection Hdf' as <-.
    destruct (decode_column_inv eval_other _ _ _ H1) as [O1 _].
    destruct (decode_column_inv eval_other _ _ _ H2) as [O2 _].
    destruct (decode_column_inv eval_other _ _ _ H3) as [O3 _].
    unfold list_columns in Hcol. rewrite !not_elem_of_cons in Hcol.
    destruct Hcol as (? & ? & ? & _).
    rewrite O3, O2, O1 by done. done. }
  split; [done|]. split.
  - intros col. destruct (decide (col ∈ list_columns)) as [Hcol|Hcol].
    + pose proof (load_data_column eval_other file df out col Hdf Hload Hcol) as H.
      destruct (df !! col) as [[|v vs]|]; [done| |by rewrite H].
      destruct (is_str v).
      * destruct H as (vs' & _ & ->). split; eauto.
      * rewrite H. done.
    + by rewrite Hother.
  - intros col v vs Hcol Hv. destruct (decide (col ∈ list_columns)) as [Hin|Hnot].
    + pose proof (load_data_column eval_other file df out col Hdf Hload Hin) as H.
      by rewrite Hcol, Hv in H.
    + by rewrite Hother.
Qed.

End Loader.

Lemma movie_loader_keeps_other_columns_witness :
  load_data always_fails odd_upload = Ok odd_loaded /\
  (forall col, col ∉ list_columns -> odd_loaded !! col = odd_frame !! col) /\
  (forall col, is_Some (odd_loaded !! col) <-> is_Some (odd_frame !! col)) /\
  (forall col v vs, odd_frame !! col = Some (v :: vs) -> is_str v = false ->
     odd_loaded !! col = Some (v :: vs)).
Proof.
  assert (load_data always_fails odd_upload = Ok odd_loaded) as Hload by by_evaluation.
  split; [done|].
  apply (movie_loader_keeps_other_columns always_fails odd_upload odd_frame odd_loaded);
    [by_evaluation|done].
Defined.

End MovieMore.

(** * The movie explorer page *)

Module MoviePageSpec.
Import MoviePage.

Lemma dict_get_set d k v k' x :
  dict_get (dict_set d k v) k' x = if String.eqb k k' then v else dict_get d k' x.
Proof.
  induction d as [|[k0 v0] d IH]; simpl.
  - done.
  - destruct (String.eqb_spec k0 k) as [->|Hne]; simpl.
    + by destruct (String.eqb_spec k k').
    + rewrite IH. destruct (String.eqb_spec k0 k') as [->|?]; [|done].
      by destruct (String.eqb_spec k k') as [->|?].
Qed.

Lemma dict_keys_set d k v a :
  a ∈ dict_keys (dict_set d k v) <-> a = k \/ a ∈ dict_keys d.
Proof.
  unfold dict_keys. induction d as [|[k0 v0] d IH]; simpl.
  - rewrite list_elem_of_singleton, elem_of_nil. tauto.
  - destruct (String.eqb_spec k0 k) as [->|Hne]; simpl; rewrite !elem_of_cons.
    + tauto.
    + rewrite IH. tauto.
Qed.

Lemma dict_set_NoDup d k v : NoDup (dict_keys d) -> NoDup (dict_keys (dict_set d k v)).
Proof.
  unfold dict_keys. induction d as [|[k0 v0] d IH]; simpl; intros Hnd.
  - apply NoDup_singleton.
  - apply NoDup_cons in Hnd as [Hnot Hnd].
    destruct (String.eqb_spec k0 k) as [->|Hne]; simpl; apply NoDup_cons.
    + done.
    + split; [|auto]. intros [?|?]%(dict_keys_set d k v k0); [congruence|done].
Qed.

Lemma dict_get_entry d a t x : NoDup (dict_keys d) -> (a, t) ∈ d -> dict_get d a x = t.
Proof.
  unfold dict_keys. induction d as [|[k0 v0] d IH]; simpl; intros Hnd Hin.
  - by apply elem_of_nil in Hin.
  - apply NoDup_cons in Hnd as [Hnot Hnd]. apply elem_of_cons in Hin as [Heq|Hin].
    + injection Heq as -> ->. by rewrite String.eqb_refl.
    + destruct (String.eqb_spec k0 a) as [->|Hne]; [|auto].
      exfalso. apply Hnot. apply (list_elem_of_fmap_2 fst _ _ Hin).
Qed.

Lemma dict_entry_get d a x : a ∈ dict_keys d -> (a, dict_get d a x) ∈ d.
Proof.
  unfold dict_keys. induction d as [|[k0 v0] d IH]; simpl; intros Hin.
  - by apply elem_of_nil in Hin.
  - destruct (String.eqb_spec k0 a) as [->|Hne]; [apply list_elem_of_here|].
    apply list_elem_of_further, IH. apply elem_of_cons in Hin as [?|?]; [congruence|done].
Qed.

Lemma listings_cons a k l :
  listings a (Some (k :: l)) = (if String.eqb k a then 1 else 0) + listings a (Some l).
Proof.
  unfold listings. simpl. rewrite (String.eqb_sym a k).
  destruct (String.eqb k a); simpl length; lia.
Qed.

Lemma add_each_get w l d a :
  dict_get (add_each w d l) a 0 = dict_get d a 0 + listings a (Some l) * w.
Proof.
  unfold add_each. revert d. induction l as [|k l IH]; intros d.
  - simpl. lia.
  - cbn [foldl]. rewrite IH, dict_get_set, listings_cons.
    destruct (String.eqb_spec k a) as [->|Hne]; lia.
Qed.

Lemma add_each_keys w l d a :
  a ∈ dict_keys (add_each w d l) <-> a ∈ dict_keys d \/ a ∈ l.
Proof.
  unfold add_each. revert d. induction l as [|k l IH]; intros d; cbn [foldl].
  - rewrite elem_of_nil. tauto.
  - rewrite IH, dict_keys_set, elem_of_cons. tauto.
Qed.

Lemma add_each_NoDup w l d : NoDup (dict_keys d) -> NoDup (dict_keys (add_each w d l)).
Proof.
  unfold add_each. revert d. induction l as [|k l IH]; intros d Hnd; cbn [foldl]; [done|].
  by apply IH, dict_set_NoDup.
Qed.

(** The two loops, over any kind of row: [cast] reads the list of names and
    [w] the amount a listing adds. *)
Section Tally.
Context {E : Type} (cast : E -> option (list string)) (w : E -> Z).

#[local] Abbreviation step := (add_cast cast w).

Lemma tally_get es d a :
  dict_get (foldl step d es) a 0 =
  dict_get d a 0 + foldr (fun e acc => listings a (cast e) * w e + acc) 0 es.
Proof.
  revert d. induction es as [|e es IH]; intros d; cbn [foldl foldr]; [lia|].
  rewrite IH. unfold add_cast. destruct (cast e) as [l|]; [|simpl; lia].
  rewrite add_each_get. lia.
Qed.

Lemma tally_keys es d a :
  a ∈ dict_keys (foldl step d es) <->
  a ∈ dict_keys d \/ exists e l, e ∈ es /\ cast e = Some l /\ a ∈ l.
Proof.
  revert d. induction es as [|e es IH]; intros d; cbn [foldl].
  - split; [tauto|]. intros [?|(e & l & He & _)]; [done|]. by apply elem_of_nil in He.
  - rewrite IH. unfold add_cast. split.
    + intros [Hin|(e' & l & He' & Hc & Ha)].
      * destruct (cast e) as [l|] eqn:Hc; [|tauto].
        apply add_each_keys in Hin as [?|?]; [tauto|].
        right. exists e, l. split; [apply list_elem_of_here|done].
      * right. exists e', l. split; [by apply list_elem_of_further|done].
    + intros [Hin|(e' & l & He' & Hc & Ha)].
      * left. destruct (cast e); [|done]. apply add_each_keys. tauto.
      * apply elem_of_cons in He' as [->|He'].
        -- left. rewrite Hc. apply add_each_keys. tauto.
        -- right. eauto.
Qed.

Lemma tally_NoDup es d : NoDup (dict_keys d) -> NoDup (dict_keys (foldl step d es)).
Proof.
  revert d. induction es as [|e es IH]; intros d Hnd; cbn [foldl]; [done|].
  apply IH. unfold add_cast. destruct (cast e); [|done]. by apply add_each_NoDup.
Qed.

End Tally.

Lemma insert_desc_perm x l : insert_desc x l ≡ₚ x :: l.
Proof.
  induction l as [|y l IH]; simpl; [done|].
  destruct (snd y <=? snd x); [done|]. rewrite IH. apply Permutation_swap.
Qed.

Lemma sorted_desc_perm l : sorted_desc l ≡ₚ l.
Proof.
  unfold sorted_desc. induction l as [|x l IH]; simpl; [done|].
  by rewrite insert_desc_perm, IH.
Qed.

Lemma insert_desc_sorted x l :
  StronglySorted by_value l -> StronglySorted by_value (insert_desc x l).
Proof.
  induction 1 as [|y l Hs IH Hall]; simpl.
  - repeat constructor.
  - destruct (Z.leb_spec (snd y) (snd x)) as [Hle|Hgt].
    + constructor; [by constructor|]. constructor; [done|].
      eapply Forall_impl; [exact Hall|]. unfold by_value. intros z Hz. lia.
    + constructor; [done|]. rewrite insert_desc_perm. constructor; [|done].
      unfold by_value. lia.
Qed.

Lemma sorted_desc_sorted l : StronglySorted by_value (sorted_desc l).
Proof.
  unfold sorted_desc. induction l as [|x l IH]; simpl; [constructor|].
  by apply insert_desc_sorted.
Qed.

Lemma sorted_take (l : list (string * Z)) n :
  StronglySorted by_value l -> StronglySorted by_value (take n l).
Proof.
  intros H. revert n. induction H as [|x l Hs IH Hall]; intros [|n]; simpl;
    try constructor; [auto|].
  apply Forall_forall. intros y Hy. rewrite Forall_forall in Hall.
  apply Hall. eapply list_elem_of_lookup. apply list_elem_of_lookup in Hy as [i Hi].
  exists i. apply lookup_take_Some in Hi. tauto.
Qed.

Lemma sorted_take_drop (l : list (string * Z)) n x y :
  StronglySorted by_value l -> x ∈ take n l -> y ∈ drop n l -> by_value x y.
Proof.
  intros H. revert n. induction H as [|z l Hs IH Hall]; intros [|n]; simpl; intros Hx Hy;
    try (by apply elem_of_nil in Hx); try (by apply elem_of_nil in Hy).
  apply elem_of_cons in Hx as [->|Hx]; [|eauto].
  rewrite Forall_forall in Hall. apply Hall.
  apply list_elem_of_lookup in Hy as [i Hi]. rewrite lookup_drop in Hi.
  by apply list_elem_of_lookup_2 in Hi.
Qed.

(** The ten entries shown for a dict: the largest values, in decreasing
    order. *)
Lemma top_ten d :
  NoDup (dict_keys d) ->
  let top := take 10 (sorted_desc d) in
  (length top <= 10)%nat /\
  NoDup (dict_keys top) /\
  StronglySorted by_value top /\
  (forall a t, (a, t) ∈ top -> a ∈ dict_keys d /\ t = dict_get d a 0) /\
  (forall b, b ∈ dict_keys d -> b ∉ dict_keys top ->
     length top = 10%nat /\ forall a t, (a, t) ∈ top -> dict_get d b 0 <= t).
Proof.
  intros Hnd top.
  assert (forall e, e ∈ top -> e ∈ d) as Hsub.
  { intros e He. rewrite <- (sorted_desc_perm d).
    apply list_elem_of_lookup in He as [i Hi]. apply lookup_take_Some in Hi as [Hi _].
    by apply list_elem_of_lookup_2 in Hi. }
  split; [unfold top; rewrite length_take; lia|]. split.
  { unfold dict_keys, top. rewrite fmap_take.
    apply (sublist_NoDup _ (fst <$> sorted_desc d)); [|apply sublist_take].
    by rewrite (sorted_desc_perm d). }
  split; [apply sorted_take, sorted_desc_sorted|]. split.
  - intros a t Hin. apply Hsub in Hin. split.
    + apply (list_elem_of_fmap_2 fst _ _ Hin).
    + symmetry. by apply dict_get_entry.
  - intros b Hb Hnot.
    assert ((b, dict_get d b 0) ∈ sorted_desc d) as Hentry.
    { rewrite (sorted_desc_perm d). by apply dict_entry_get. }
    rewrite <- (take_drop 10 (sorted_desc d)) in Hentry.
    apply elem_of_app in Hentry as [Hentry|Hentry].
    { exfalso. apply Hnot. apply (list_elem_of_fmap_2 fst _ _ Hentry). }
    split.
    + unfold top. rewrite length_take.
      assert (10 < length (sorted_desc d))%nat; [|lia].
      destruct (decide (10 < length (sorted_desc d))%nat) as [?|Hle]; [done|].
      rewrite drop_ge in Hentry by lia. by apply elem_of_nil in Hentry.
    + intros a t Hin.
      apply (sorted_take_drop _ 10 (a, t) _ (sorted_desc_sorted d) Hin Hentry).
Qed.

(** Lines 227-237. The table of tab 3 has at most ten actors, none twice,
    in decreasing order of minutes; the minutes of an actor are the
    durations of the movies whose cast lists them, counted once per listing;
    and an actor who is left out has no more minutes than any actor shown. *)
Theorem top_actors_by_screen_time rows :
  (length (top_actors rows) <= 10)%nat /\
  NoDup (dict_keys (top_actors rows)) /\
  StronglySorted by_value (top_actors rows) /\
  (forall a t, (a, t) ∈ top_actors rows -> listed a rows /\ t = minutes_listed a rows) /\
  (forall b, listed b rows -> b ∉ dict_keys (top_actors rows) ->
     length (top_actors rows) = 10%nat /\
     forall a t, (a, t) ∈ top_actors rows -> minutes_listed b rows <= t).
Proof.
  assert (forall a, dict_get (actor_duration rows) a 0 = minutes_listed a rows) as Hget.
  { intros a. unfold actor_duration. apply (tally_get castList duration). }
  assert (forall a, a ∈ dict_keys (actor_duration rows) <-> listed a rows) as Hkeys.
  { intros a. unfold actor_duration.
    change (foldl _ [] rows) with (foldl (add_cast castList duration) [] rows).
    rewrite (tally_keys castList duration).
    unfold listed. simpl. rewrite elem_of_nil. tauto. }
  destruct (top_ten (actor_duration rows)) as (H1 & H2 & H3 & H4 & H5).
  { apply (tally_NoDup castList duration). apply NoDup_nil_2. }
  unfold top_actors. split; [done|]. split; [done|]. split; [done|]. split.
  - intros a t Hin. destruct (H4 a t Hin) as [Hk Ht].
    split; [by apply (proj1 (Hkeys a))|]. by rewrite <- Hget.
  - intros b Hb Hnot. destruct (H5 b) as [Hlen Hle]; [by apply (proj2 (Hkeys b))|done|].
    split; [done|]. intros a t Hin. rewrite <- Hget. apply (Hle a t Hin).
Qed.

Lemma times_listed_casts a rows :
  foldr (fun c acc => listings a c * 1 + acc) 0 (map castList rows) = times_listed a rows.
Proof.
  unfold times_listed. induction rows as [|row rows IH]; simpl; [done|]. rewrite IH. lia.
Qed.

(** Lines 266-271. The table of tab 4 has at most ten actors, none twice, in
    decreasing order of count; the count of an actor is the number of times
    the cast lists name them (twice for a cast that lists them twice); and
    an actor who is left out has no higher count than any actor shown. *)
Theorem top_active_by_listings rows :
  (length (top_active rows) <= 10)%nat /\
  NoDup (dict_keys (top_active rows)) /\
  StronglySorted by_value (top_active rows) /\
  (forall a t, (a, t) ∈ top_active rows -> listed a rows /\ t = times_listed a rows) /\
  (forall b, listed b rows -> b ∉ dict_keys (top_active rows) ->
     length (top_active rows) = 10%nat /\
     forall a t, (a, t) ∈ top_active rows -> times_listed b rows <= t).
Proof.
  set (d := actor_counts (map castList rows)).
  assert (forall a, dict_get d a 0 = times_listed a rows) as Hget.
  { intros a. unfold d, actor_counts.
    change (foldl _ [] (map castList rows))
      with (foldl (add_cast (fun c => c) (fun _ => 1)) [] (map castList rows)).
    rewrite (tally_get (fun c => c) (fun _ => 1)). simpl.
    by rewrite times_listed_casts. }
  assert (forall a, a ∈ dict_keys d <-> listed a rows) as Hkeys.
  { intros a. unfold d, actor_counts.
    change (foldl _ [] (map castList rows))
      with (foldl (add_cast (fun c => c) (fun _ => 1)) [] (map castList rows)).
    rewrite (tally_keys (fun c => c) (fun _ => 1)).
    unfold listed. simpl. rewrite elem_of_nil. split.
    - intros [[]|(c & l & Hc & -> & Ha)].
      change (Some l ∈ castList <$> rows) in Hc.
      apply list_elem_of_fmap in Hc as (row & Hrow & Hin). eauto.
    - intros (row & l & Hin & Hrow & Ha). right. exists (Some l), l.
      split; [|done]. rewrite <- Hrow.
      change (castList row ∈ castList <$> rows). by apply list_elem_of_fmap_2. }
  destruct (top_ten d) as (H1 & H2 & H3 & H4 & H5).
  { apply (tally_NoDup (fun c => c) (fun _ => 1)). apply NoDup_nil_2. }
  unfold top_active. fold d. split; [done|]. split; [done|]. split; [done|]. split.
  - intros a t Hin. destruct (H4 a t Hin) as [Hk Ht].
    split; [by apply (proj1 (Hkeys a))|]. by rewrite <- Hget.
  - intros b Hb Hnot. destruct (H5 b) as [Hlen Hle]; [by apply (proj2 (Hkeys b))|done|].
    split; [done|]. intros a t Hin. rewrite <- Hget. apply (Hle a t Hin).
Qed.

(** Lines 485-506. A recommendation is only made on a click, and the movie
    is a row of the dataset that meets every slider: its rating is at least
    the minimum, its year is in the range, ends included, and it is not
    longer than the maximum; when genres are selected it has a genre list
    that names one of them. *)
Theorem recommendation_meets_criteria rows c clicked draw m :
  random_movie rows c clicked draw = Some m ->
  clicked = true /\ m ∈ rows /\
  PrimFloat.leb (min_rating c) (ratingValue m) = true /\
  fst (year_range c) <= year m <= snd (year_range c) /\
  duration m <= max_duration c /\
  (selected_genres c <> [] ->
   exists genres g, genreList m = Some genres /\ g ∈ selected_genres c /\ g ∈ genres).
Proof.
  unfold random_movie. intros H.
  destruct (0 <? length (filtered_df rows c))%nat; [|discriminate].
  destruct clicked; [|discriminate]. split; [done|].
  apply list_elem_of_lookup_2, list_elem_of_In in H.
  assert (In m (List.filter (in_range c) rows) /\
          (selected_genres c <> [] -> has_genre (selected_genres c) m = true)) as [Hf Hg].
  { unfold filtered_df in H. destruct (selected_genres c) as [|g gs]; [done|].
    apply filter_In in H as [H Hg]. done. }
  apply filter_In in Hf as [Hin Hr]. unfold in_range in Hr.
  apply andb_true_iff in Hr as [Hr Hd]. apply andb_true_iff in Hr as [Hr Hy1].
  apply andb_true_iff in Hr as [Hr Hy0].
  split; [by apply list_elem_of_In|]. split; [done|]. split; [lia|]. split; [lia|].
  intros Hsel. specialize (Hg Hsel). unfold has_genre in Hg.
  destruct (genreList m) as [genres|]; [|discriminate].
  apply existsb_exists in Hg as (g & Hg & Hx). apply existsb_exists in Hx as (g' & Hg' & He).
  apply String.eqb_eq in He as <-. exists genres, g.
  split; [done|]. split; by apply list_elem_of_In.
Qed.

Lemma recommendation_meets_criteria_witness :
  random_movie shelf crime_night true 1 = Some the_godfather /\
  true = true /\ the_godfather ∈ shelf /\
  PrimFloat.leb (min_rating crime_night) (ratingValue the_godfather) = true /\
  fst (year_range crime_night) <= year the_godfather <= snd (year_range crime_night) /\
  duration the_godfather <= max_duration crime_night /\
  (selected_genres crime_night <> [] ->
   exists genres g, genreList the_godfather = Some genres /\
     g ∈ selected_genres crime_night /\ g ∈ genres).
Proof.
  split; [by_evaluation|].
  apply (recommendation_meets_criteria shelf crime_night true 1 the_godfather).
  by_evaluation.
Defined.

End MoviePageSpec.
